(** * met4450: discovery of GOES files on the public object store

    A shallow embedding of [met4450.py] ([_goes_file_df] and
    [find_goes_dataset]) and the properties of its specification.

    Conventions of the embedding.
    - A [pandas.Timestamp] is a count of nanoseconds since 1970-01-01 (a [Z]);
      [NaT] is the [None] of [datetime64].  The arguments of the two functions
      are timestamps already; arithmetic on them is exact.
    - A [DataFrame] is the list of its rows, in frame order, with its [attrs]
      dictionary.  A column that a frame does not have reads [None] in every
      row.
    - Python exceptions are values of [exn]; a call returns an [outcome].
    - The listing client [fs], the standard output and the clock are explicit:
      a computation of type [Py A] runs in a [world] in which every call of
      [fs.ls] and every [print] is recorded.
    - Strings are ASCII byte strings.
    - The functions of pandas and of the Python library that the source calls
      are modelled where they are used, each under the name of the call; what
      a model leaves out is said in its comment. *)

From Stdlib Require Import ZArith List String Ascii Bool Lia.
From Stdlib Require Import Sorting.Sorted Sorting.Permutation.
From Stdlib Require DecimalString.
Import ListNotations.

Open Scope string_scope.
Open Scope Z_scope.

(* ================================================================== *)
(** ** Python strings *)

Module PyStr.

(** [s.startswith(p)] *)
Definition startswith (p s : string) : bool := String.prefix p s.

(** [sub in s], the literal substring test. *)
Fixpoint contains (sub s : string) : bool :=
  String.prefix sub s ||
  match s with
  | EmptyString => false
  | String _ s' => contains sub s'
  end.

Definition upper_ascii (c : ascii) : ascii :=
  let n := nat_of_ascii c in
  if (Nat.leb 97 n && Nat.leb n 122)%bool then ascii_of_nat (n - 32) else c.

(** [s.upper()] *)
Fixpoint upper (s : string) : string :=
  match s with
  | EmptyString => EmptyString
  | String c s' => String (upper_ascii c) (upper s')
  end.

Definition reverse (s : string) : string :=
  string_of_list_ascii (rev (list_ascii_of_string s)).

(** [s.split(sep, n)] for a one-character separator: at most [n] cuts,
    from the left; empty pieces are kept. *)
Fixpoint split (sep : ascii) (n : nat) (s : string) : list string :=
  match s with
  | EmptyString => [EmptyString]
  | String c s' =>
      if Ascii.eqb c sep then
        match n with
        | O => [s]
        | S n' => EmptyString :: split sep n' s'
        end
      else
        match split sep n s' with
        | p :: ps => String c p :: ps
        | [] => [String c EmptyString]
        end
  end.

(** [s.split(sep)]: no limit on the number of cuts. *)
Definition split_all (sep : ascii) (s : string) : list string :=
  split sep (String.length s) s.

(** [s.rsplit(sep, n)]: at most [n] cuts, from the right. *)
Definition rsplit (sep : ascii) (n : nat) (s : string) : list string :=
  rev (map reverse (split sep n (reverse s))).

(** [s[1:]] *)
Definition drop_first (s : string) : string :=
  match s with
  | EmptyString => EmptyString
  | String _ s' => s'
  end.

Definition is_digit (c : ascii) : bool :=
  let n := nat_of_ascii c in (Nat.leb 48 n && Nat.leb n 57)%bool.

Definition digit_value (c : ascii) : Z := Z.of_nat (nat_of_ascii c) - 48.

Fixpoint digits_acc (acc : Z) (s : string) : option Z :=
  match s with
  | EmptyString => Some acc
  | String c s' =>
      if is_digit c then digits_acc (10 * acc + digit_value c) s' else None
  end.

(** The value of a non-empty string of decimal digits. *)
Definition digits (s : string) : option Z :=
  match s with
  | EmptyString => None
  | _ => digits_acc 0 s
  end.

Definition is_space (c : ascii) : bool :=
  let n := nat_of_ascii c in
  (Nat.eqb n 32 || (Nat.leb 9 n && Nat.leb n 13))%bool.

Fixpoint lstrip (s : string) : string :=
  match s with
  | String c s' => if is_space c then lstrip s' else s
  | EmptyString => EmptyString
  end.

Definition strip (s : string) : string := reverse (lstrip (reverse (lstrip s))).

(** [int(s)] on a string: surrounding white space, an optional sign and
    decimal digits; [None] is Python's [ValueError]. *)
Definition int (s : string) : option Z :=
  match strip s with
  | String "+" d => digits d
  | String "-" d => option_map Z.opp (digits d)
  | d => digits d
  end.

(** [str(z)] for an integer. *)
Definition of_Z (z : Z) : string :=
  DecimalString.NilZero.string_of_int (Z.to_int z).

Fixpoint zeros (n : nat) : string :=
  match n with
  | O => EmptyString
  | S n' => String "0" (zeros n')
  end.

(** [s.zfill(w)] on an unsigned numeral. *)
Definition zfill (w : nat) (s : string) : string :=
  zeros (w - String.length s)%nat ++ s.

(** The first [n] characters and the rest, when [s] has that many. *)
Fixpoint take (n : nat) (s : string) : option (string * string) :=
  match n, s with
  | O, _ => Some (EmptyString, s)
  | S n', String c s' =>
      match take n' s' with
      | Some (p, r) => Some (String c p, r)
      | None => None
      end
  | S _, EmptyString => None
  end.

End PyStr.

(* ================================================================== *)
(** ** Timestamps and the calendar *)

(** [NaT] is [None]. *)
Definition datetime64 := option Z.

Definition SECOND : Z := 1000000000.
Definition HOUR : Z := 3600 * SECOND.
Definition DAY : Z := 24 * HOUR.

(** Bounds of a nanosecond [Timestamp] (a signed 64-bit count; the least
    value is reserved for [NaT]). *)
Definition TS_MIN : Z := - 2 ^ 63 + 1.
Definition TS_MAX : Z := 2 ^ 63 - 1.

Module Calendar.

(** Days before January 1st of year [y] in the proleptic Gregorian
    calendar, counted from 0001-01-01. *)
Definition days_before_year (y : Z) : Z :=
  let y1 := y - 1 in y1 * 365 + y1 / 4 - y1 / 100 + y1 / 400.

(** Days between 0001-01-01 and 1970-01-01. *)
Definition EPOCH_DAYS : Z := 719162.

(** Year and day of the year (from 1) of a day counted from 1970-01-01. *)
Definition year_doy (d : Z) : Z * Z :=
  let n := d + EPOCH_DAYS in
  let n400 := n / 146097 in
  let n := n mod 146097 in
  let n100 := n / 36524 in
  let n := n mod 36524 in
  let n4 := n / 1461 in
  let n := n mod 1461 in
  let n1 := n / 365 in
  let n := n mod 365 in
  let year := n400 * 400 + n100 * 100 + n4 * 4 + n1 + 1 in
  if (n1 =? 4) || (n100 =? 4) then (year - 1, 366) else (year, n + 1).

(** [f"{t:%Y/%j/%H/}"] *)
Definition strftime_Y_j_H (t : Z) : string :=
  let '(y, j) := year_doy (t / DAY) in
  let h := (t / HOUR) mod 24 in
  PyStr.of_Z y ++ "/" ++ PyStr.zfill 3 (PyStr.of_Z j) ++ "/"
    ++ PyStr.zfill 2 (PyStr.of_Z h) ++ "/".

(** The timestamp of second [s] and fraction [ns] of minute [mi], hour [h]
    of day [j] (from 1) of year [y]; as pandas does, the day of the year
    is added to the ordinal of January 1st. *)
Definition of_fields (y j h mi s ns : Z) : Z :=
  (days_before_year y + (j - 1) - EPOCH_DAYS) * DAY
  + h * HOUR + mi * (60 * SECOND) + s * SECOND + ns.

End Calendar.

(** A field of [w] decimal digits with a value in [lo, hi], and the rest. *)
Definition fixed_field (w : nat) (lo hi : Z) (s : string) : option (Z * string) :=
  match PyStr.take w s with
  | Some (d, rest) =>
      match PyStr.digits d with
      | Some v => if (lo <=? v) && (v <=? hi) then Some (v, rest) else None
      | None => None
      end
  | None => None
  end.

(** The [%f] field: one to nine digits, read as a decimal fraction of a
    second, in nanoseconds. *)
Definition fraction_field (s : string) : option Z :=
  let n := String.length s in
  if (Nat.leb 1 n && Nat.leb n 9)%bool then
    option_map (fun v => v * 10 ^ Z.of_nat (9 - n)) (PyStr.digits s)
  else None.

(** Two characters that the pattern of a format, compiled to ignore case,
    takes for the same. *)
Definition eqb_nocase (a b : ascii) : bool :=
  Ascii.eqb (PyStr.upper_ascii a) (PyStr.upper_ascii b).

(** [s] without the literal [p] at its head, read without regard to case. *)
Fixpoint strip_literal (p s : string) : option string :=
  match p, s with
  | EmptyString, _ => Some s
  | String a p', String b s' =>
      if eqb_nocase a b then strip_literal p' s' else None
  | String _ _, EmptyString => None
  end.

(** The readings of a numeric field of the pattern, in the order in which
    the pattern tries them: [w] digits with a value in [lo, hi]. *)
Definition digits_field (w : nat) (lo hi : Z) (s : string) : list (Z * string) :=
  match fixed_field w lo hi s with
  | Some reading => [reading]
  | None => []
  end.

(** [%Y]: four digits. *)
Definition field_Y (s : string) : list (Z * string) :=
  digits_field 4 0 9999 s.

(** [%j]: three digits from 001 to 366, else two digits from 01 to 99, else
    one digit from 1 to 9. *)
Definition field_j (s : string) : list (Z * string) :=
  (digits_field 3 1 366 s ++ digits_field 2 1 99 s ++ digits_field 1 1 9 s)%list.

(** [%H]: two digits from 00 to 23, else one digit. *)
Definition field_H (s : string) : list (Z * string) :=
  (digits_field 2 0 23 s ++ digits_field 1 0 9 s)%list.

(** [%M]: two digits from 00 to 59, else one digit. *)
Definition field_M (s : string) : list (Z * string) :=
  (digits_field 2 0 59 s ++ digits_field 1 0 9 s)%list.

(** [%S]: two digits from 00 to 61, else one digit. *)
Definition field_S (s : string) : list (Z * string) :=
  (digits_field 2 0 61 s ++ digits_field 1 0 9 s)%list.

(** [%f]: nine digits down to one, the longest first, in nanoseconds. *)
Definition field_f (s : string) : list (Z * string) :=
  flat_map
    (fun w =>
       match PyStr.take w s with
       | Some (d, rest) =>
           match fraction_field d with
           | Some ns => [(ns, rest)]
           | None => []
           end
       | None => []
       end)
    [9; 8; 7; 6; 5; 4; 3; 2; 1]%nat.

(** The ways in which the pattern of [lead%Y%j%H%M%S%f tail] matches a head
    of [s], the one that the matcher finds first at the head of the list:
    the timestamp read and what is left of [s]. *)
Definition pattern_matches (lead : ascii) (tail : string) (s : string)
  : list (Z * string) :=
  match s with
  | String c body =>
      if eqb_nocase c lead then
        flat_map (fun '(y, r) =>
        flat_map (fun '(j, r) =>
        flat_map (fun '(h, r) =>
        flat_map (fun '(mi, r) =>
        flat_map (fun '(sec, r) =>
        flat_map (fun '(ns, r) =>
          match strip_literal tail r with
          | Some rest => [(Calendar.of_fields y j h mi sec ns, rest)]
          | None => []
          end) (field_f r)) (field_S r)) (field_M r)) (field_H r)) (field_j r))
          (field_Y body)
      else []
  | EmptyString => []
  end.

(** The parser of [pd.to_datetime(col, format=...)] for the three formats
    of the source, [lead%Y%j%H%M%S%f tail] with [lead] one of [s], [e], [c]
    and [tail] empty or [.nc].  The format is a pattern matched at the head of
    the string without regard to case; its numeric fields are tried from the
    widest reading to the narrowest; the first match must reach the end of
    the string.  The day of the year is added to January 1st and the seconds
    to the minute, without a check against the length of the year or of the
    minute.  [None] is the [ValueError] of a string that does not match, that
    goes on after the match, or whose time is outside the range of a
    [Timestamp].  (Digits are the ASCII digits.) *)
Definition strptime (lead : ascii) (tail : string) (s : string) : option Z :=
  match pattern_matches lead tail s with
  | (t, EmptyString) :: _ =>
      if (TS_MIN <=? t) && (t <=? TS_MAX) then Some t else None
  | _ => None
  end.

(** The strings that [to_datetime] reads as [NaT]. *)
Definition NAT_STRINGS : list string :=
  ["NaT"; "nat"; "NAT"; "nan"; "NaN"; "NAN"].

Definition reads_as_NaT (s : string) : bool :=
  String.eqb s "" || existsb (String.eqb s) NAT_STRINGS.

(* ================================================================== *)
(** ** Outcomes, the world and the [Py] monad *)

Inductive message :=
| NoFilesFound                            (* met4450.py, line 47 *)
| SatelliteNotRecognized (name : string)  (* met4450.py, line 136 *)
| ColumnsLength      (* pandas: columns must be same length as key *)
| IntLiteral         (* astype(int) on a value that is not an integer *)
| TimeData           (* to_datetime on a string that does not match *)
| NotBoolean.        (* a mask with missing values *)

Inductive exn :=
| ValueError (m : message)
| KeyError
| IndexError
| OverflowError
| ListingError.       (* an exception of the listing client *)

Inductive outcome (A : Type) :=
| Return (a : A)
| Raise (e : exn).
Arguments Return {A} a.
Arguments Raise {A} e.

Definition obind {A B} (o : outcome A) (k : A -> outcome B) : outcome B :=
  match o with
  | Return a => k a
  | Raise e => Raise e
  end.

(** [try: o  except: h] with a bare [except]. *)
Definition try_except {A} (o : outcome A) (h : A) : A :=
  match o with
  | Return a => a
  | Raise _ => h
  end.

Fixpoint mapM {A B} (f : A -> outcome B) (l : list A) : outcome (list B) :=
  match l with
  | [] => Return []
  | x :: l' =>
      obind (f x) (fun y => obind (mapM f l') (fun ys => Return (y :: ys)))
  end.

(** What a run can observe and leave behind: the clock, the calls made to
    [fs.ls] (path and [refresh] flag, latest first) and the lines printed
    (latest first). *)
Record world := mkWorld {
  clock : Z;
  ls_log : list (string * bool);
  stdout : list string
}.

(** The listing client [fs.ls(path, refresh)]: the object keys under a
    prefix, or [None] when the client raises (a prefix that it does not
    find, a network failure). *)
Definition S3FileSystem := string -> bool -> option (list string).

Definition Py (A : Type) := world -> outcome A * world.

Definition ret {A} (a : A) : Py A := fun w => (Return a, w).
Definition raise {A} (e : exn) : Py A := fun w => (Raise e, w).
Definition lift {A} (o : outcome A) : Py A := fun w => (o, w).

Definition bind {A B} (c : Py A) (k : A -> Py B) : Py B :=
  fun w =>
    match c w with
    | (Return a, w') => k a w'
    | (Raise e, w') => (Raise e, w')
    end.

Declare Scope py_scope.
Delimit Scope py_scope with py.
Notation "x <- c ;; k" := (bind c (fun x => k))
  (at level 61, c at next level, right associativity) : py_scope.
Notation "c ;;; k" := (bind c (fun _ => k))
  (at level 61, right associativity) : py_scope.

Definition ls (fs : S3FileSystem) (path : string) (refresh : bool)
  : Py (list string) :=
  fun w =>
    (match fs path refresh with
     | Some keys => Return keys
     | None => Raise ListingError
     end,
     mkWorld (clock w) ((path, refresh) :: ls_log w) (stdout w)).

Definition print (line : string) : Py unit :=
  fun w => (Return tt, mkWorld (clock w) (ls_log w) (line :: stdout w)).

(* ================================================================== *)
(** ** Frames *)

(** A row of the frame while its time columns are still strings
    (met4450.py, lines 52 to 75). *)
Record Row := mkRow {
  r_file : string;
  r_product_mode : option string;
  r_satellite : option string;
  r_start : option string;
  r_end : option string;
  r_creation : option string;
  r_product : option string;
  r_mode_bands : option string;
  r_mode : option Z;
  r_band : option Z
}.

(** A row once [to_datetime] has converted the time columns (lines 80 to 82). *)
Record TimedRow := mkTimedRow {
  t_row : Row;
  t_start : datetime64;
  t_end : datetime64;
  t_creation : datetime64
}.

(** A row of the frame that [_goes_file_df] returns.  The window filter of
    line 85 keeps no row whose start or end is [NaT] (a comparison with
    [NaT] is false), so both are plain timestamps from there on. *)
Record FileRecord := mkFileRecord {
  rec_file : string;
  rec_product_mode : option string;
  rec_satellite : option string;
  rec_start : Z;
  rec_end : Z;
  rec_creation : datetime64;
  rec_product : option string;
  rec_mode_bands : option string;
  rec_mode : option Z;
  rec_band : option Z;
  rec_domain : option string
}.

(** Python values kept in [attrs]. *)
Inductive pyval :=
| PyNone
| PyBool (b : bool)
| PyInt (z : Z)
| PyString (s : string)
| PyTimestamp (t : Z)
| PyList (l : list Z).

(** A [dict] with string keys, in insertion order. *)
Definition dict := list (string * pyval).

Fixpoint dict_set (k : string) (v : pyval) (d : dict) : dict :=
  match d with
  | [] => [(k, v)]
  | (k', v') :: d' =>
      if String.eqb k k' then (k, v) :: d' else (k', v') :: dict_set k v d'
  end.

Fixpoint dict_get (k : string) (d : dict) : option pyval :=
  match d with
  | [] => None
  | (k', v) :: d' => if String.eqb k k' then Some v else dict_get k d'
  end.

(** [for i in params: attrs[i] = params[i]] *)
Definition set_attrs (params attrs : dict) : dict :=
  fold_left (fun a kv => dict_set (fst kv) (snd kv) a) params attrs.

Record DataFrame := mkDataFrame {
  rows : list FileRecord;
  attrs : dict
}.

(** The frame that [str.split(..., expand=True)] and [str.rsplit] build: one
    list of pieces per row, [None] for a row whose string is missing.  Its
    columns are numbered from 0 up to the longest row; shorter rows are
    filled with missing values on the right. *)
Definition expanded := list (option (list string)).

Definition width (f : expanded) : nat :=
  fold_right Nat.max 1%nat
    (map (fun row => match row with Some l => List.length l | None => 0%nat end) f).

Definition cell (i : nat) (row : option (list string)) : option string :=
  match row with
  | Some l => nth_error l i
  | None => None
  end.

(** [f[i]]: the column labelled [i], a [KeyError] when there is none. *)
Definition column (i : nat) (f : expanded) : outcome (list (option string)) :=
  if Nat.ltb i (width f) then Return (map (cell i) f) else Raise KeyError.

(** [col.astype(int)] on a column of strings: every cell is read by
    [int] and must fit a signed 64-bit integer; a missing cell cannot be
    converted. *)
Definition astype_int (col : list (option string)) : outcome (list Z) :=
  mapM (fun c =>
          match c with
          | Some s =>
              match PyStr.int s with
              | Some z =>
                  if (- 2 ^ 63 <=? z) && (z <=? 2 ^ 63 - 1) then Return z
                  else Raise OverflowError
              | None => Raise (ValueError IntLiteral)
              end
          | None => Raise (ValueError IntLiteral)
          end) col.

(** The argument [bands]: a scalar or a list. *)
Inductive bands_arg :=
| BandScalar (b : Z)
| BandList (bs : list Z).

(** [if not hasattr(bands, "__len__"): bands = [bands]] *)
Definition as_list (bands : bands_arg) : list Z :=
  match bands with
  | BandScalar b => [b]
  | BandList bs => bs
  end.

(** One cell of [df.band.isin(bands)]. *)
Definition isin (bands : list Z) (v : option Z) : bool :=
  match v with
  | Some b => existsb (Z.eqb b) bands
  | None => false
  end.

Definition bands_value (bands : option bands_arg) : pyval :=
  match bands with
  | None => PyNone
  | Some (BandScalar b) => PyInt b
  | Some (BandList bs) => PyList bs
  end.

(* ================================================================== *)
(** ** [_goes_file_df] *)

(** [pd.date_range(a, b, freq="1h")] for hour-aligned [a] and [b]. *)
Definition date_range (a b : Z) : list Z :=
  map (fun k => a + Z.of_nat k * HOUR) (seq 0 (Z.to_nat ((b - a) / HOUR + 1))).

(** [f"{t:%Y-%m-%d %H:00}"] read back as a timestamp. *)
Definition floor_hour (t : Z) : Z := t / HOUR * HOUR.

(** Lines 42 to 44: [for DATE in DATES: files += fs.ls(...)]. *)
Fixpoint list_files (fs : S3FileSystem) (satellite product : string)
    (refresh : bool) (DATES : list Z) (files : list string)
  : Py (list string) :=
  match DATES with
  | [] => ret files
  | DATE :: rest =>
      (found <- ls fs (satellite ++ "/" ++ product ++ "/"
                         ++ Calendar.strftime_Y_j_H DATE) refresh ;;
       list_files fs satellite product refresh rest (files ++ found))%py
  end.

(** Lines 52 to 55: the five columns cut from the right of the file name.
    The assignment needs exactly five columns after the first. *)
Definition split_file_names (files : list string) : outcome (list Row) :=
  let parts : expanded := map (fun f => Some (PyStr.rsplit "_" 5 f)) files in
  if Nat.eqb (width parts - 1) 5 then
    Return (map (fun f =>
                   let p := Some (PyStr.rsplit "_" 5 f) in
                   mkRow f (cell 1 p) (cell 2 p) (cell 3 p) (cell 4 p) (cell 5 p)
                         None None None None) files)
  else Raise (ValueError ColumnsLength).

Definition set_product_mode_parts (r : Row) (p m : option string) : Row :=
  mkRow (r_file r) (r_product_mode r) (r_satellite r) (r_start r) (r_end r)
        (r_creation r) p m (r_mode r) (r_band r).

Definition set_mode (r : Row) (m : Z) : Row :=
  mkRow (r_file r) (r_product_mode r) (r_satellite r) (r_start r) (r_end r)
        (r_creation r) (r_product r) (r_mode_bands r) (Some m) (r_band r).

Definition set_band (r : Row) (b : option Z) : Row :=
  mkRow (r_file r) (r_product_mode r) (r_satellite r) (r_start r) (r_end r)
        (r_creation r) (r_product r) (r_mode_bands r) (r_mode r) b.

(** Lines 59 to 69: product, mode and band of a channel-based product. *)
Definition abi_columns (df : list Row) : outcome (list Row) :=
  let product_mode : expanded :=
    map (fun r => option_map (PyStr.rsplit "-" 1) (r_product_mode r)) df in
  obind (column 1 product_mode) (fun _ =>
  let df :=
    map (fun r =>
           let p := option_map (PyStr.rsplit "-" 1) (r_product_mode r) in
           set_product_mode_parts r (cell 0 p) (cell 1 p)) df in
  let mode_bands : expanded :=
    map (fun r => option_map (PyStr.split_all "C") (r_mode_bands r)) df in
  obind (astype_int (map (fun c => option_map PyStr.drop_first (cell 0 c))
                         mode_bands)) (fun mode =>
  let df := map (fun rm => set_mode (fst rm) (snd rm)) (combine df mode) in
  let band : list (option Z) :=
    try_except
      (obind (column 1 mode_bands) (fun c =>
       obind (astype_int c) (fun b => Return (map Some b))))
      (map (fun _ => None) df) in
  Return (map (fun rb => set_band (fst rb) (snd rb)) (combine df band)))).

(** Lines 72 to 75. *)
Definition filter_bands (bands : option bands_arg) (df : list Row) : list Row :=
  match bands with
  | None => df
  | Some bands => filter (fun r => isin (as_list bands) (r_band r)) df
  end.

(** One cell of [pd.to_datetime(col, format=...)]: a missing value, the
    empty string and the names of [NaT] give [NaT]; any other string is
    parsed with the format. *)
Definition to_datetime (lead : ascii) (tail : string) (c : option string)
  : outcome datetime64 :=
  match c with
  | None => Return None
  | Some s =>
      if reads_as_NaT s then Return None
      else
        match strptime lead tail s with
        | Some t => Return (Some t)
        | None => Raise (ValueError TimeData)
        end
  end.

(** Lines 80 to 82, row by row (the three conversions raise the same
    exception, so the order in which the columns are converted does not
    show). *)
Definition to_datetime_row (r : Row) : outcome TimedRow :=
  obind (to_datetime "s" "" (r_start r)) (fun s =>
  obind (to_datetime "e" "" (r_end r)) (fun e =>
  obind (to_datetime "c" ".nc" (r_creation r)) (fun c =>
  Return (mkTimedRow r s e c)))).

(** [col >= bound] and [col <= bound], false on [NaT]. *)
Definition ge (a : datetime64) (bound : Z) : bool :=
  match a with
  | Some t => bound <=? t
  | None => false
  end.

Definition le (a : datetime64) (bound : Z) : bool :=
  match a with
  | Some t => t <=? bound
  | None => false
  end.

Definition record_of (t : TimedRow) : option FileRecord :=
  match t_start t, t_end t with
  | Some s, Some e =>
      let r := t_row t in
      Some (mkFileRecord (r_file r) (r_product_mode r) (r_satellite r) s e
              (t_creation t) (r_product r) (r_mode_bands r) (r_mode r)
              (r_band r) None)
  | _, _ => None
  end.

Fixpoint omap {A B} (f : A -> option B) (l : list A) : list B :=
  match l with
  | [] => []
  | x :: l' =>
      match f x with
      | Some y => y :: omap f l'
      | None => omap f l'
      end
  end.

(** Line 85:
    [df.loc[df.start >= start].loc[df.end <= end].reset_index(drop=True)].
    The second mask is aligned on the row labels of the first selection. *)
Definition loc_window (start end_ : Z) (df : list TimedRow) : list FileRecord :=
  omap record_of
    (filter (fun t => le (t_end t) end_)
       (filter (fun t => ge (t_start t) start) df)).

(** Lines 52 to 85: from the listed names to the rows of the result. *)
Definition parse_files (product : string) (start end_ : Z)
    (bands : option bands_arg) (files : list string)
  : outcome (list FileRecord) :=
  obind (split_file_names files) (fun df =>
  obind (if PyStr.startswith "ABI" product
         then obind (abi_columns df) (fun df => Return (filter_bands bands df))
         else Return df) (fun df =>
  obind (mapM to_datetime_row df) (fun df =>
  Return (loc_window start end_ df)))).

Definition is_empty {A} (l : list A) : bool :=
  match l with
  | [] => true
  | _ => false
  end.

Definition _goes_file_df (fs : S3FileSystem) (satellite product : string)
    (start end_ : Z) (bands : option bands_arg) (refresh : bool)
  : Py DataFrame :=
  let params : dict :=
    [("satellite", PyString satellite); ("product", PyString product);
     ("start", PyTimestamp start); ("end", PyTimestamp end_);
     ("bands", bands_value bands); ("refresh", PyBool refresh)] in
  let DATES := date_range (floor_hour start) (floor_hour end_) in
  (files <- list_files fs satellite product refresh DATES [] ;;
   if is_empty files then raise (ValueError NoFilesFound)
   else
     df <- lift (parse_files product start end_ bands files) ;;
     ret (mkDataFrame df (set_attrs params [])))%py.

(** The [attrs] of the frame that [_goes_file_df] returns. *)
Definition goes_file_df_params (satellite product : string) (start end_ : Z)
    (bands : option bands_arg) (refresh : bool) : dict :=
  set_attrs
    [("satellite", PyString satellite); ("product", PyString product);
     ("start", PyTimestamp start); ("end", PyTimestamp end_);
     ("bands", bands_value bands); ("refresh", PyBool refresh)] [].

(** Every call of [fs.ls] between two worlds is under [bucket]. *)
Definition new_calls_under (bucket : string) (before after : world) : Prop :=
  forall path refresh,
    In (path, refresh) (ls_log after) ->
    In (path, refresh) (ls_log before) \/
    exists rest, path = bucket ++ "/" ++ rest.

(* ================================================================== *)
(** ** [find_goes_dataset] *)

(** What is fixed when the module is loaded: the default of the parameter
    [datetime] is the value of [pd.Timestamp.now()] when the [def] statement
    of line 92 runs. *)
Record module_state := mkModule {
  default_datetime : Z
}.

Definition import_module (w : world) : module_state :=
  mkModule (clock w).

(** The argument [satellite]: a number or a name. *)
Inductive satellite_arg :=
| SatInt (n : Z)
| SatStr (s : string).

(** [str(satellite)] *)
Definition str (satellite : satellite_arg) : string :=
  match satellite with
  | SatInt n => PyStr.of_Z n
  | SatStr s => s
  end.

Definition satellite_value (satellite : satellite_arg) : pyval :=
  match satellite with
  | SatInt n => PyInt n
  | SatStr s => PyString s
  end.

(** [x in l] for strings. *)
Definition member (x : string) (l : list string) : bool :=
  existsb (String.eqb x) l.

Definition GOES16_ALIASES : list string :=
  ["16"; "G16"; "GOES16"; "GOES-16"; "GOES-EAST"; "EAST"].
Definition GOES17_ALIASES : list string :=
  ["17"; "G17"; "GOES17"; "GOES-17"].
Definition GOES18_ALIASES : list string :=
  ["18"; "G18"; "GOES18"; "GOES-18"; "GOES-WEST"; "WEST"].

(** Lines 129 to 136. *)
Definition satellite_number (satellite : satellite_arg) : outcome string :=
  let name := PyStr.upper (str satellite) in
  if member name GOES16_ALIASES then Return "16"
  else if member name GOES17_ALIASES then Return "17"
  else if member name GOES18_ALIASES then Return "18"
  else Raise (ValueError (SatelliteNotRecognized (str satellite))).

Definition is_mesoscale (domain : string) : bool := member domain ["M1"; "M2"].

(** Line 159: [df.loc[df.product_mode.str.contains(pat), :]].  The pattern is
    taken literally (product and domain names hold no character that is
    special in a regular expression); a missing [product_mode] makes the
    mask unusable. *)
Definition loc_contains (pat : string) (df : list FileRecord)
  : outcome (list FileRecord) :=
  obind (mapM (fun r =>
                 match rec_product_mode r with
                 | Some pm => Return (r, PyStr.contains pat pm)
                 | None => Raise (ValueError NotBoolean)
                 end) df) (fun marked =>
  Return (map fst (filter snd marked))).

Definition set_product_domain (product domain : string) (r : FileRecord)
  : FileRecord :=
  mkFileRecord (rec_file r) (rec_product_mode r) (rec_satellite r)
    (rec_start r) (rec_end r) (rec_creation r) (Some product)
    (rec_mode_bands r) (rec_mode r) (rec_band r) (Some domain).

Fixpoint insert_by_start (r : FileRecord) (l : list FileRecord)
  : list FileRecord :=
  match l with
  | [] => [r]
  | x :: l' =>
      if rec_start r <=? rec_start x then r :: l
      else x :: insert_by_start r l'
  end.

(** [df.sort_values("start")]: rows in increasing order of start; rows with
    the same start are kept here in their frame order. *)
Definition sort_values_start (df : list FileRecord) : list FileRecord :=
  fold_right insert_by_start [] df.

(** The order of [sort_values_start]. *)
Definition by_start (a b : FileRecord) : Prop := rec_start a <= rec_start b.

(** [index.unique()]: the first occurrence of every label. *)
Fixpoint unique (l : list Z) : list Z :=
  match l with
  | [] => []
  | x :: l' => x :: filter (fun y => negb (y =? x)) (unique l')
  end.

(** Position of the last label not after [x] in an increasing index, -1 when
    there is none ([method="pad"]). *)
Fixpoint pad_indexer (index : list Z) (x : Z) : Z :=
  match index with
  | [] => -1
  | t :: rest => if t <=? x then 1 + pad_indexer rest x else -1
  end.

(** Position of the first label not before [x] in an increasing index, -1
    when there is none ([method="backfill"]). *)
Fixpoint backfill_indexer (index : list Z) (x : Z) : Z :=
  match index with
  | [] => -1
  | t :: rest =>
      if x <=? t then 0
      else
        let i := backfill_indexer rest x in
        if i =? -1 then -1 else 1 + i
  end.

(** [values[i]] as numpy reads it: a negative position counts from the end;
    a position outside the array is an [IndexError]. *)
Definition getitem (values : list Z) (i : Z) : outcome Z :=
  let n := Z.of_nat (List.length values) in
  let j := if i <? 0 then i + n else i in
  if (0 <=? j) && (j <? n) then Return (nth (Z.to_nat j) values 0)
  else Raise IndexError.

(** [abs(values[i] - x)] in the nearest indexer, on an index that is not
    empty. *)
Definition distance (values : list Z) (i x : Z) : Z :=
  match getitem values i with
  | Return t => Z.abs (t - x)
  | Raise _ => 0
  end.

(** [index.get_indexer([x], method="nearest")] on an increasing index of
    distinct labels: -1 on an empty index; otherwise the pad position when
    it is strictly nearer or there is no backfill position, else the backfill
    position. *)
Definition get_indexer_nearest (index : list Z) (x : Z) : Z :=
  match index with
  | [] => -1
  | _ =>
      let left_indexer := pad_indexer index x in
      let right_indexer := backfill_indexer index x in
      let left_distances := distance index left_indexer x in
      let right_distances := distance index right_indexer x in
      if (left_distances <? right_distances) || (right_indexer =? -1)
      then left_indexer else right_indexer
  end.

(** [df.loc[[label]]] on a frame indexed by its start column. *)
Definition loc_start (label : Z) (df : list FileRecord) : list FileRecord :=
  filter (fun r => rec_start r =? label) df.

(** Lines 166 to 171: the rows whose start is the label nearest to
    [datetime]. *)
Definition nearest_rows (datetime : Z) (df : list FileRecord)
  : outcome (list FileRecord) :=
  let df := sort_values_start df in
  let unique_times_index := unique (map rec_start df) in
  let nearest_time_index := get_indexer_nearest unique_times_index datetime in
  obind (getitem unique_times_index nearest_time_index) (fun nearest_time =>
  Return (loc_start nearest_time df)).

Definition NO_DATA_NOTICE : string := "No data....".

Definition default {A} (x : option A) (d : A) : A :=
  match x with
  | Some a => a
  | None => d
  end.

(** [find_goes_dataset]; an argument that the caller leaves out is [None]. *)
Definition find_goes_dataset (m : module_state) (fs : S3FileSystem)
    (satellite : option satellite_arg) (product domain : option string)
    (bands : option bands_arg) (datetime : option Z)
  : Py (option DataFrame) :=
  let satellite := default satellite (SatInt 16) in
  let product := default product "ABI-L2-MCMIP" in
  let domain := default domain "C" in
  let datetime := default datetime (default_datetime m) in
  let params : dict :=
    [("satellite", satellite_value satellite); ("product", PyString product);
     ("domain", PyString domain); ("bands", bands_value bands);
     ("datetime", PyTimestamp datetime)] in
  (number <- lift (satellite_number satellite) ;;
   let bucket := "noaa-goes" ++ number in
   let platform := "G" ++ number in
   let product_domain :=
     if is_mesoscale domain then product ++ "M" else product ++ domain in
   df <- _goes_file_df fs bucket product_domain
           (datetime - HOUR) (datetime + HOUR) bands true ;;
   selected <- lift (if is_mesoscale domain
                     then loc_contains (product ++ domain) (rows df)
                     else Return (rows df)) ;;
   let selected := map (set_product_domain product domain) selected in
   selected <- lift (nearest_rows datetime selected) ;;
   if Nat.eqb (List.length selected) 0 then
     print NO_DATA_NOTICE ;;; ret None
   else
     ret (Some (mkDataFrame selected (set_attrs params (attrs df)))))%py.

(* ================================================================== *)
(** ** A bucket to run the code on *)

Module Sample.

(** 2019-06-21 18:00:00, day 172 of 2019. *)
Definition H18 : Z := 1561140000 * SECOND.

Definition MINUTE : Z := 60 * SECOND.

Definition conus_1731 : string :=
  "noaa-goes16/ABI-L2-MCMIPC/2019/172/17/OR_ABI-L2-MCMIPC-M6_G16_s20191721731547_e20191721734320_c20191721734433.nc".
Definition conus_1801 : string :=
  "noaa-goes16/ABI-L2-MCMIPC/2019/172/18/OR_ABI-L2-MCMIPC-M6_G16_s20191721801547_e20191721804320_c20191721804433.nc".
Definition conus_1806 : string :=
  "noaa-goes16/ABI-L2-MCMIPC/2019/172/18/OR_ABI-L2-MCMIPC-M6_G16_s20191721806547_e20191721809320_c20191721809433.nc".
Definition conus_1901 : string :=
  "noaa-goes16/ABI-L2-MCMIPC/2019/172/19/OR_ABI-L2-MCMIPC-M6_G16_s20191721901547_e20191721904320_c20191721904433.nc".

Definition meso2_1730 : string :=
  "noaa-goes16/ABI-L2-MCMIPM/2019/172/17/OR_ABI-L2-MCMIPM2-M6_G16_s20191721730254_e20191721730311_c20191721730389.nc".
Definition meso2_1801 : string :=
  "noaa-goes16/ABI-L2-MCMIPM/2019/172/18/OR_ABI-L2-MCMIPM2-M6_G16_s20191721801254_e20191721801311_c20191721801389.nc".
Definition meso2_1900 : string :=
  "noaa-goes16/ABI-L2-MCMIPM/2019/172/19/OR_ABI-L2-MCMIPM2-M6_G16_s20191721900254_e20191721900311_c20191721900389.nc".

Definition rad_c13 : string :=
  "noaa-goes16/ABI-L1b-RadC/2019/172/18/OR_ABI-L1b-RadC-M6C13_G16_s20191721801547_e20191721804320_c20191721804433.nc".
Definition rad_c02 : string :=
  "noaa-goes16/ABI-L1b-RadC/2019/172/18/OR_ABI-L1b-RadC-M6C02_G16_s20191721801547_e20191721804320_c20191721804433.nc".

(** A name whose end stamp (18:04:32.0) is before its start stamp
    (18:06:54.7). *)
Definition backwards : string :=
  "noaa-goes16/GLM-L2-LCFA/2019/172/18/OR_GLM-L2-LCFA_G16_s20191721806547_e20191721804320_c20191721809433.nc".

Definition table : list (string * list string) :=
  [("noaa-goes16/ABI-L2-MCMIPC/2019/172/17/", [conus_1731]);
   ("noaa-goes16/ABI-L2-MCMIPC/2019/172/18/", [conus_1801; conus_1806]);
   ("noaa-goes16/ABI-L2-MCMIPC/2019/172/19/", [conus_1901]);
   ("noaa-goes16/ABI-L2-MCMIPM/2019/172/17/", [meso2_1730]);
   ("noaa-goes16/ABI-L2-MCMIPM/2019/172/18/", [meso2_1801]);
   ("noaa-goes16/ABI-L2-MCMIPM/2019/172/19/", [meso2_1900]);
   ("noaa-goes16/ABI-L1b-RadC/2019/172/18/", [rad_c13; rad_c02]);
   ("noaa-goes16/GLM-L2-LCFA/2019/172/18/", [backwards])].

Fixpoint lookup (path : string) (t : list (string * list string))
  : option (list string) :=
  match t with
  | [] => None
  | (k, v) :: t' => if String.eqb path k then Some v else lookup path t'
  end.

(** A client that finds the prefixes of [table] and raises on any other. *)
Definition fs : S3FileSystem := fun path _ => lookup path table.

Definition at_1830 : Z := H18 + 30 * MINUTE.
Definition at_1845 : Z := H18 + 45 * MINUTE.

(** The record of [conus_1801] in a frame of [_goes_file_df]. *)
Definition record_1801 : FileRecord :=
  mkFileRecord conus_1801 (Some "ABI-L2-MCMIPC-M6") (Some "G16")
    (H18 + 1147 * (SECOND / 10)) (H18 + 272 * SECOND)
    (Some (H18 + 2833 * (SECOND / 10))) (Some "ABI-L2-MCMIPC") (Some "M6")
    (Some 6) None None.

(** 18:04:24.7, as far from 18:01:54.7 as from 18:06:54.7. *)
Definition at_tie : Z := H18 + 2647 * (SECOND / 10).

Definition at_1802 : Z := H18 + 2 * MINUTE.

(** 18:04:40 and 18:05:00. *)
Definition at_180440 : Z := H18 + 280 * SECOND.
Definition at_1805 : Z := H18 + 5 * MINUTE.

(** A fresh process whose clock reads [now]. *)
Definition at_time (now : Z) : world := mkWorld now [] [].

(** A name of the product [ABI-L1b-RadC] without a channel number, and a
    client whose partitions hold it beside [rad_c13]. *)
Definition rad_no_channel : string :=
  "noaa-goes16/ABI-L1b-RadC/2019/172/18/OR_ABI-L1b-RadC-M6_G16_s20191721806547_e20191721809320_c20191721809433.nc".

Definition fs_mixed : S3FileSystem := fun _ _ => Some [rad_c13; rad_no_channel].

(** A client whose partitions hold three files of the same sector: two
    that start at 18:01:54.7 and one that starts at 18:06:54.7. *)
Definition conus_1801_again : string :=
  "noaa-goes16/ABI-L2-MCMIPC/2019/172/18/OR_ABI-L2-MCMIPC-M6_G16_s20191721801547_e20191721804320_c20191721805000.nc".

Definition fs_twice : S3FileSystem :=
  fun path _ =>
    if String.eqb path "noaa-goes16/ABI-L2-MCMIPC/2019/172/18/"
    then Some [conus_1806; conus_1801; conus_1801_again]
    else Some [].

End Sample.

(** The file names of the frame that a call returned. *)
Definition returned_files (o : outcome (option DataFrame)) : list string :=
  match o with
  | Return (Some df) => map rec_file (rows df)
  | _ => []
  end.

(** Two frames with the same rows and the same [attrs] but for the entry
    [bands]. *)
Definition same_but_bands (d1 d2 : DataFrame) : Prop :=
  rows d1 = rows d2 /\
  forall k, k <> "bands" -> dict_get k (attrs d1) = dict_get k (attrs d2).

Definition same_outcome {A} (R : A -> A -> Prop) (o1 o2 : outcome A) : Prop :=
  match o1, o2 with
  | Return a1, Return a2 => R a1 a2
  | Raise e1, Raise e2 => e1 = e2
  | _, _ => False
  end.

Definition same_option {A} (R : A -> A -> Prop) (o1 o2 : option A) : Prop :=
  match o1, o2 with
  | Some a1, Some a2 => R a1 a2
  | None, None => True
  | _, _ => False
  end.

(** The entry [k] of the [attrs] of the frame that a call returned. *)
Definition returned_attr (k : string) (o : outcome DataFrame) : option pyval :=
  match o with
  | Return df => dict_get k (attrs df)
  | Raise _ => None
  end.

(* ================================================================== *)
(** ** Names for what the two functions read and list *)

(** The prefix that line 44 lists for the hour [DATE]. *)
Definition partition_path (satellite product : string) (DATE : Z) : string :=
  satellite ++ "/" ++ product ++ "/" ++ Calendar.strftime_Y_j_H DATE.

(** The calls of [fs.ls] for the hours [DATES], the latest first, as
    [ls_log] keeps them. *)
Definition calls_for (satellite product : string) (refresh : bool)
    (DATES : list Z) : list (string * bool) :=
  rev (map (fun DATE => (partition_path satellite product DATE, refresh)) DATES).

(** The pieces that line 54 cuts from a file name. *)
Definition name_pieces (file : string) : option (list string) :=
  Some (PyStr.rsplit "_" 5 file).

(** The product name under which [find_goes_dataset] lists (lines 144 to
    147): the two mesoscale sectors share the partitions of [product + "M"]. *)
Definition listed_product (product domain : string) : string :=
  if is_mesoscale domain then product ++ "M" else product ++ domain.

(** The hours whose partitions hold the window of one hour before and after
    [datetime]. *)
Definition target_hours (datetime : Z) : list Z :=
  [floor_hour datetime - HOUR; floor_hour datetime; floor_hour datetime + HOUR].

(** The [params] of [find_goes_dataset] (line 126). *)
Definition find_goes_dataset_params (satellite : satellite_arg)
    (product domain : string) (bands : option bands_arg) (datetime : Z) : dict :=
  [("satellite", satellite_value satellite); ("product", PyString product);
   ("domain", PyString domain); ("bands", bands_value bands);
   ("datetime", PyTimestamp datetime)].

(** The frame that a call of [find_goes_dataset] returned (a frame without
    rows when it returned none). *)
Definition returned_frame (o : outcome (option DataFrame)) : DataFrame :=
  match o with
  | Return (Some df) => df
  | _ => mkDataFrame [] []
  end.

(** The frame that a call of [_goes_file_df] returned (a frame without rows
    when it raised). *)
Definition frame_of (o : outcome DataFrame) : DataFrame :=
  match o with
  | Return df => df
  | Raise _ => mkDataFrame [] []
  end.

(** One cell of [astype_int]. *)
Definition int_cell (c : option string) : outcome Z :=
  match c with
  | Some s =>
      match PyStr.int s with
      | Some z =>
          if (- 2 ^ 63 <=? z) && (z <=? 2 ^ 63 - 1) then Return z
          else Raise OverflowError
      | None => Raise (ValueError IntLiteral)
      end
  | None => Raise (ValueError IntLiteral)
  end.

(** The value of a cell that was converted. *)
Definition value_of (o : outcome Z) : Z :=
  match o with
  | Return z => z
  | Raise _ => 0
  end.

(** Lines 59 to 66, row by row: the pieces of [product_mode] cut at its last
    hyphen, the row with its columns [product] and [mode_bands], the pieces
    of [mode_bands] cut at every [C], and the cells from which the mode and
    the band are converted. *)
Definition product_mode_parts (r : Row) : option (list string) :=
  option_map (PyStr.rsplit "-" 1) (r_product_mode r).

Definition with_product_mode_parts (r : Row) : Row :=
  set_product_mode_parts r (cell 0 (product_mode_parts r))
    (cell 1 (product_mode_parts r)).

Definition mode_bands_parts (r : Row) : option (list string) :=
  option_map (PyStr.split_all "C") (r_mode_bands r).

Definition mode_cell (r : Row) : option string :=
  option_map PyStr.drop_first
    (cell 0 (mode_bands_parts (with_product_mode_parts r))).

Definition band_cell (r : Row) : option string :=
  cell 1 (mode_bands_parts (with_product_mode_parts r)).

Definition with_mode (r : Row) : Row :=
  set_mode (with_product_mode_parts r) (value_of (int_cell (mode_cell r))).

(** The channel number that lines 59 to 66 read in a file name: what follows
    the first [C] in the part of the second piece after its last hyphen. *)
Definition name_mode_bands (file : string) : option string :=
  cell 1 (option_map (PyStr.rsplit "-" 1) (cell 1 (name_pieces file))).

Definition band_of_name (file : string) : outcome Z :=
  int_cell (cell 1 (option_map (PyStr.split_all "C") (name_mode_bands file))).

(** The exceptions of reading the listed names (lines 52 to 82). *)
Definition reading_error (e : exn) : Prop :=
  e = ValueError ColumnsLength \/ e = KeyError \/ e = ValueError IntLiteral \/
  e = OverflowError \/ e = ValueError TimeData.

(** The names that have a start and an end stamp inside the window. *)
Definition name_in_window (start end_ : Z) (file : string) : Prop :=
  exists s e,
    to_datetime "s" "" (cell 3 (name_pieces file)) = Return (Some s) /\
    to_datetime "e" "" (cell 4 (name_pieces file)) = Return (Some e) /\
    start <= s /\ e <= end_.

(* ================================================================== *)
(** * Properties *)

(** ** The string and calendar functions on sample values *)

Example rsplit_goes_name :
  PyStr.rsplit "_" 5
    "noaa-goes16/ABI-L2-MCMIPC/2019/172/18/OR_ABI-L2-MCMIPC-M6_G16_s20191721801547_e20191721804320_c20191721804433.nc"
  = ["noaa-goes16/ABI-L2-MCMIPC/2019/172/18/OR"; "ABI-L2-MCMIPC-M6"; "G16";
     "s20191721801547"; "e20191721804320"; "c20191721804433.nc"].
Proof. reflexivity. Qed.

Example rsplit_short : PyStr.rsplit "_" 5 "a__b" = ["a"; ""; "b"].
Proof. reflexivity. Qed.

Example rsplit_limit : PyStr.rsplit "-" 1 "ABI-L1b-RadC-M6C13" = ["ABI-L1b-RadC"; "M6C13"].
Proof. reflexivity. Qed.

Example split_all_C : PyStr.split_all "C" "M6C13" = ["M6"; "13"].
Proof. reflexivity. Qed.

Example int_examples :
  PyStr.int "013" = Some 13 /\ PyStr.int " -7 " = Some (-7) /\
  PyStr.int "" = None /\ PyStr.int "6a" = None /\ PyStr.of_Z 16 = "16" /\
  PyStr.of_Z (-5) = "-5" /\ PyStr.zfill 3 "7" = "007" /\
  PyStr.upper "goes-East" = "GOES-EAST".
Proof. repeat split; reflexivity. Qed.

Example strptime_examples :
  strptime "s" "" "s20191721801547" = Some (Sample.H18 + 1147 * (SECOND / 10)) /\
  strptime "c" ".nc" "c20191721804433.nc" = Some 1561140283300000000 /\
  strptime "c" ".nc" "c20191721804433" = None /\
  strptime "e" "" "s20191721801547" = None /\
  strptime "s" "" "s20190001801547" = None /\
  Calendar.strftime_Y_j_H Sample.H18 = "2019/172/18/" /\
  Calendar.year_doy 19782 = (2024, 60) /\
  Calendar.year_doy (-1) = (1969, 365).
Proof. repeat split; reflexivity. Qed.

(** What [to_datetime] reads beside the stamps of the archive: the empty
    string and the names of [NaT] are [NaT]; the letters of the format are
    read in either case; a field may be narrower than its widest reading
    (here the second is [5] and the fraction [4]); what goes on after the
    match, or does not match, is a [ValueError]. *)
Example to_datetime_examples :
  to_datetime "s" "" None = Return None /\
  to_datetime "s" "" (Some "") = Return None /\
  to_datetime "s" "" (Some "nan") = Return None /\
  to_datetime "e" "" (Some "NaT") = Return None /\
  to_datetime "s" "" (Some "S20191721801547")
  = Return (Some (Sample.H18 + 1147 * (SECOND / 10))) /\
  to_datetime "c" ".nc" (Some "C20191721804433.NC")
  = Return (Some 1561140283300000000) /\
  to_datetime "s" "" (Some "s2019172180154")
  = Return (Some (Sample.H18 + 654 * (SECOND / 10))) /\
  to_datetime "c" ".nc" (Some "c20191721804433.nc.nc") = Raise (ValueError TimeData) /\
  to_datetime "s" "" (Some "sX") = Raise (ValueError TimeData) /\
  to_datetime "s" "" (Some "Nan") = Raise (ValueError TimeData).
Proof. repeat split; vm_compute; reflexivity. Qed.

(* ================================================================== *)
(** ** General lemmas *)

Lemma member_In x l : member x l = true <-> In x l.
Proof.
  unfold member. rewrite existsb_exists. split.
  - intros [y [Hy Heq]]. apply String.eqb_eq in Heq. now subst.
  - intros H. exists x. split; [assumption | apply String.eqb_refl].
Qed.

Lemma member_false x l : ~ In x l -> member x l = false.
Proof.
  intros H. destruct (member x l) eqn:E; [|reflexivity].
  apply member_In in E. contradiction.
Qed.

Lemma mapM_Forall2 {A B} (f : A -> outcome B) l ys :
  mapM f l = Return ys -> Forall2 (fun x y => f x = Return y) l ys.
Proof.
  revert ys. induction l as [|x l IH]; simpl; intros ys H.
  - inversion H. constructor.
  - destruct (f x) as [y|e] eqn:Hx; simpl in H; [|discriminate].
    destruct (mapM f l) as [ys'|e] eqn:Hl; simpl in H; [|discriminate].
    inversion H; subst. constructor; auto.
Qed.

Lemma mapM_Raise {A B} (f : A -> outcome B) l e :
  mapM f l = Raise e -> exists x, In x l /\ f x = Raise e.
Proof.
  induction l as [|x l IH]; simpl; intros H; [discriminate|].
  destruct (f x) as [y|e'] eqn:Hx; simpl in H.
  - destruct (mapM f l) as [ys'|e'] eqn:Hl; simpl in H; [discriminate|].
    inversion H; subst. destruct (IH eq_refl) as [z [Hz Hfz]].
    exists z. split; [now right | assumption].
  - inversion H; subst. exists x. split; [now left | assumption].
Qed.

Lemma Forall2_In_r {A B} (R : A -> B -> Prop) l ys y :
  Forall2 R l ys -> In y ys -> exists x, In x l /\ R x y.
Proof.
  induction 1 as [|x y' l ys Hxy _ IH]; simpl; [tauto|].
  intros [->|Hin].
  - exists x. auto.
  - destruct (IH Hin) as [z [Hz Hr]]. exists z. auto.
Qed.


Lemma omap_In {A B} (f : A -> option B) l y :
  In y (omap f l) <-> exists x, In x l /\ f x = Some y.
Proof.
  induction l as [|x l IH]; simpl.
  - split; [tauto | intros [x [[] _]]].
  - destruct (f x) as [y'|] eqn:Hx; simpl; rewrite IH; split.
    + intros [->|[z [Hz Hf]]]; [exists x; auto | exists z; auto].
    + intros [z [[->|Hz] Hf]]; [left; congruence | right; exists z; auto].
    + intros [z [Hz Hf]]. exists z; auto.
    + intros [z [[->|Hz] Hf]]; [congruence | exists z; auto].
Qed.

(* ================================================================== *)
(** ** The listing loop *)

Lemma list_files_raises fs satellite product refresh DATES files w e :
  fst (list_files fs satellite product refresh DATES files w) = Raise e ->
  e = ListingError.
Proof.
  revert files w. induction DATES as [|DATE rest IH]; intros files w; simpl.
  - discriminate.
  - unfold bind, ls. destruct (fs _ refresh) as [keys|]; simpl.
    + apply IH.
    + intros H. now inversion H.
Qed.

Lemma list_files_world fs satellite product refresh DATES files w :
  let w' := snd (list_files fs satellite product refresh DATES files w) in
  clock w' = clock w /\ stdout w' = stdout w /\
  new_calls_under satellite w w'.
Proof.
  revert files w. induction DATES as [|DATE rest IH]; intros files w; simpl.
  - repeat split. intros p r H. now left.
  - unfold bind, ls. destruct (fs _ refresh) as [keys|]; simpl.
    + match goal with
      | |- context [list_files _ _ _ _ rest ?f ?w0] =>
          destruct (IH f w0) as [Hc [Ho Hl]]
      end.
      simpl in Hc, Ho. repeat split; try assumption.
      intros p r H. destruct (Hl p r H) as [[Heq|Hold]|Hnew].
      * inversion Heq; subst. right.
        exists (product ++ "/" ++ Calendar.strftime_Y_j_H DATE). reflexivity.
      * now left.
      * now right.
    + repeat split. intros p r [Heq|Hold].
      * inversion Heq; subst. right.
        exists (product ++ "/" ++ Calendar.strftime_Y_j_H DATE). reflexivity.
      * now left.
Qed.

(* ================================================================== *)
(** ** [_goes_file_df], step by step *)

Lemma goes_file_df_unfold fs satellite product start end_ bands refresh w :
  _goes_file_df fs satellite product start end_ bands refresh w =
  match list_files fs satellite product refresh
          (date_range (floor_hour start) (floor_hour end_)) [] w with
  | (Return files, w') =>
      if is_empty files then (Raise (ValueError NoFilesFound), w')
      else
        match parse_files product start end_ bands files with
        | Return df =>
            (Return (mkDataFrame df
               (goes_file_df_params satellite product start end_ bands refresh)),
             w')
        | Raise e => (Raise e, w')
        end
  | (Raise e, w') => (Raise e, w')
  end.
Proof.
  unfold _goes_file_df, bind, goes_file_df_params.
  destruct (list_files _ _ _ _ _ _ w) as [[files|e] w']; [|reflexivity].
  destruct (is_empty files); [reflexivity|].
  unfold lift, ret. destruct (parse_files _ _ _ _ _); reflexivity.
Qed.

Lemma astype_int_raises col e :
  astype_int col = Raise e -> e = ValueError IntLiteral \/ e = OverflowError.
Proof.
  intros H. apply mapM_Raise in H. destruct H as [c [_ Hc]].
  destruct c as [str0|]; [destruct (PyStr.int str0) as [z|]|].
  - destruct ((- 2 ^ 63 <=? z) && (z <=? 2 ^ 63 - 1)); [discriminate|].
    right. congruence.
  - left. congruence.
  - left. congruence.
Qed.

Lemma abi_columns_raises df e :
  abi_columns df = Raise e ->
  e = KeyError \/ e = ValueError IntLiteral \/ e = OverflowError.
Proof.
  unfold abi_columns.
  destruct (column 1 _) as [c|e0] eqn:Hc; simpl.
  - destruct (astype_int _) as [mode|e1] eqn:Hm; simpl; [discriminate|].
    intros H. inversion H; subst. right. eapply astype_int_raises; eauto.
  - intros H. inversion H; subst. left.
    unfold column in Hc. destruct (Nat.ltb _ _); congruence.
Qed.

Lemma to_datetime_raises lead tail c e :
  to_datetime lead tail c = Raise e -> e = ValueError TimeData.
Proof.
  destruct c as [str0|]; cbn [to_datetime]; [|discriminate].
  destruct (reads_as_NaT str0); [discriminate|].
  destruct (strptime lead tail str0); congruence.
Qed.

Lemma to_datetime_row_raises r e :
  to_datetime_row r = Raise e -> e = ValueError TimeData.
Proof.
  unfold to_datetime_row.
  destruct (to_datetime "s" "" (r_start r)) eqn:Hs; simpl;
    [|intros H; inversion H; subst; eapply to_datetime_raises; eauto].
  destruct (to_datetime "e" "" (r_end r)) eqn:He; simpl;
    [|intros H; inversion H; subst; eapply to_datetime_raises; eauto].
  destruct (to_datetime "c" ".nc" (r_creation r)) eqn:Hc; simpl;
    [discriminate|intros H; inversion H; subst; eapply to_datetime_raises; eauto].
Qed.

(** The exceptions of the parsing steps. *)
Lemma parse_files_raises product start end_ bands files e :
  parse_files product start end_ bands files = Raise e ->
  e = ValueError ColumnsLength \/ e = KeyError \/
  e = ValueError IntLiteral \/ e = OverflowError \/ e = ValueError TimeData.
Proof.
  unfold parse_files.
  destruct (split_file_names files) as [df|e0] eqn:Hsplit; simpl.
  - assert (Hdt : forall l, obind (mapM to_datetime_row l)
                     (fun df0 => Return (loc_window start end_ df0)) = Raise e ->
                   e = ValueError TimeData).
    { intros l H. destruct (mapM to_datetime_row l) eqn:Hm; simpl in H;
        [discriminate|]. inversion H; subst.
      apply mapM_Raise in Hm. destruct Hm as [r [_ Hr]].
      eapply to_datetime_row_raises; eauto. }
    destruct (PyStr.startswith "ABI" product).
    + destruct (abi_columns df) as [df'|e1] eqn:Habi; simpl.
      * intros H. right; right; right; right. eapply Hdt; eauto.
      * intros H. inversion H; subst.
        destruct (abi_columns_raises _ _ Habi) as [He|[He|He]]; auto.
    + simpl. intros H. right; right; right; right. eapply Hdt; eauto.
  - intros H. inversion H; subst. left.
    unfold split_file_names in Hsplit.
    destruct (Nat.eqb _ 5); congruence.
Qed.

(* ================================================================== *)
(** ** The window filter (C3) *)

Lemma record_of_times t r :
  record_of t = Some r -> t_start t = Some (rec_start r) /\ t_end t = Some (rec_end r).
Proof.
  unfold record_of. destruct (t_start t) as [s0|]; [|discriminate].
  destruct (t_end t) as [e0|]; [|discriminate].
  intros H. inversion H; subst. simpl. auto.
Qed.

(** What the window filter keeps came from a converted row and lies in the
    window. *)
Lemma loc_window_inv start end_ df r :
  In r (loc_window start end_ df) ->
  (exists t, In t df /\ record_of t = Some r) /\
  start <= rec_start r /\ rec_end r <= end_.
Proof.
  unfold loc_window. rewrite omap_In.
  intros [t [Hin Hrec]].
  apply filter_In in Hin. destruct Hin as [Hin Hle].
  apply filter_In in Hin. destruct Hin as [Hin Hge].
  destruct (record_of_times _ _ Hrec) as [Hs He].
  rewrite Hs in Hge. rewrite He in Hle. simpl in Hge, Hle.
  split; [exists t; auto | lia].
Qed.

(** C3, as the code has it: a converted row is kept by the window filter of
    line 85 exactly when its start is at or after the requested start and
    its end is at or before the requested end; both bounds are inclusive,
    and nothing else is compared. *)
Theorem loc_window_keeps_exactly_the_window start end_ df r :
  In r (loc_window start end_ df) <->
  (exists t, In t df /\ record_of t = Some r) /\
  start <= rec_start r /\ rec_end r <= end_.
Proof.
  split; [apply loc_window_inv|].
  intros [[t [Hin Hrec]] [Hs He]].
  unfold loc_window. apply omap_In. exists t. split; [|assumption].
  destruct (record_of_times _ _ Hrec) as [Hts Hte].
  apply filter_In. split.
  - apply filter_In. split; [assumption|].
    rewrite Hts. simpl. lia.
  - rewrite Hte. simpl. lia.
Qed.

(** C3 fails as stated, where it excludes every record with a timestamp
    outside the window: the file of 18:01:54.7 to 18:04:32.0 is kept for the
    window 18:00:00 to 18:04:40 although it was created at 18:04:43.3, after
    the window; and a name whose start stamp (18:06:54.7) is after its end
    stamp (18:04:32.0) is kept for the window 18:00:00 to 18:05:00. *)
Lemma kept_record_has_timestamp_outside_window :
  (exists df w' r c,
      _goes_file_df Sample.fs "noaa-goes16" "ABI-L2-MCMIPC" Sample.H18
        Sample.at_180440 None true (Sample.at_time 0) = (Return df, w') /\
      In r (rows df) /\ rec_file r = Sample.conus_1801 /\
      rec_creation r = Some c /\ Sample.at_180440 < c) /\
  (exists df w' r,
      _goes_file_df Sample.fs "noaa-goes16" "GLM-L2-LCFA" Sample.H18
        Sample.at_1805 None true (Sample.at_time 0) = (Return df, w') /\
      In r (rows df) /\ rec_file r = Sample.backwards /\
      Sample.at_1805 < rec_start r).
Proof.
  split.
  - eexists. eexists. eexists. eexists.
    split; [vm_compute; reflexivity|].
    split; [left; reflexivity|]. repeat split.
  - eexists. eexists. eexists.
    split; [vm_compute; reflexivity|].
    split; [left; reflexivity|]. repeat split.
Qed.

(** A row whose stamps are the bounds themselves is kept; a row that starts
    one nanosecond early or ends one nanosecond late is not. *)
Example loc_window_bounds :
  let row := mkRow "f" None None None None None None None None None in
  List.length (loc_window 10 20 [mkTimedRow row (Some 10) (Some 20) None]) = 1%nat /\
  loc_window 10 20 [mkTimedRow row (Some 9) (Some 20) None] = [] /\
  loc_window 10 20 [mkTimedRow row (Some 10) (Some 21) None] = [] /\
  loc_window 10 20 [mkTimedRow row None (Some 20) None] = [].
Proof. repeat split. Qed.

(* ================================================================== *)
(** ** Satellite names (C5, C6) *)

(** C5: a satellite whose upper-cased name is none of the aliases makes
    [find_goes_dataset] raise the validation error; the world is returned
    as it was, so [fs.ls] has not been called. *)
Theorem unrecognized_satellite_raises_before_listing
    m fs satellite product domain bands datetime w :
  ~ In (PyStr.upper (str (default satellite (SatInt 16))))
       (GOES16_ALIASES ++ GOES17_ALIASES ++ GOES18_ALIASES) ->
  find_goes_dataset m fs satellite product domain bands datetime w =
  (Raise (ValueError (SatelliteNotRecognized
                        (str (default satellite (SatInt 16))))), w).
Proof.
  intros H. unfold find_goes_dataset, bind, lift, satellite_number.
  rewrite !in_app_iff in H.
  rewrite (member_false _ GOES16_ALIASES) by tauto.
  rewrite (member_false _ GOES17_ALIASES) by tauto.
  rewrite (member_false _ GOES18_ALIASES) by tauto.
  reflexivity.
Qed.

Lemma unrecognized_satellite_witness :
  find_goes_dataset (mkModule 0) Sample.fs (Some (SatStr "goes-19")) None None
    None None (Sample.at_time 0) =
  (Raise (ValueError (SatelliteNotRecognized "goes-19")), Sample.at_time 0).
Proof.
  apply (unrecognized_satellite_raises_before_listing
           (mkModule 0) Sample.fs (Some (SatStr "goes-19")) None None None None
           (Sample.at_time 0)).
  vm_compute. intuition discriminate.
Defined.

Lemma satellite_number_cases satellite number :
  satellite_number satellite = Return number ->
  In number ["16"; "17"; "18"].
Proof.
  unfold satellite_number.
  destruct (member _ GOES16_ALIASES); [intros H; inversion H; simpl; auto|].
  destruct (member _ GOES17_ALIASES); [intros H; inversion H; simpl; auto|].
  destruct (member _ GOES18_ALIASES); [intros H; inversion H; simpl; auto|].
  discriminate.
Qed.

Lemma goes_file_df_world fs satellite product start end_ bands refresh w :
  let w' := snd (_goes_file_df fs satellite product start end_ bands refresh w) in
  clock w' = clock w /\ stdout w' = stdout w /\ new_calls_under satellite w w'.
Proof.
  rewrite goes_file_df_unfold.
  pose proof (list_files_world fs satellite product refresh
                (date_range (floor_hour start) (floor_hour end_)) [] w) as H.
  destruct (list_files _ _ _ _ _ _ w) as [[files|e] w']; simpl in *;
    [|assumption].
  destruct (is_empty files); [assumption|].
  destruct (parse_files _ _ _ _ _); assumption.
Qed.

(** The calls of [fs.ls] that [find_goes_dataset] makes are those of its
    call of [_goes_file_df]. *)
Lemma find_goes_dataset_calls m fs satellite product domain bands datetime w number :
  satellite_number (default satellite (SatInt 16)) = Return number ->
  new_calls_under ("noaa-goes" ++ number) w
    (snd (find_goes_dataset m fs satellite product domain bands datetime w)).
Proof.
  intros Hn. unfold find_goes_dataset, bind, lift. rewrite Hn.
  match goal with
  | |- context [_goes_file_df fs ?b ?p ?s ?e ?bs ?r w] =>
      pose proof (goes_file_df_world fs b p s e bs r w) as H;
      destruct (_goes_file_df fs b p s e bs r w) as [[df|e0] w']
  end; simpl in H; destruct H as [_ [_ H]]; [|exact H].
  match goal with
  | |- context [if ?c then loc_contains ?a ?b else ?d] =>
      destruct (if c then loc_contains a b else d) as [sel|e1]
  end; [|exact H].
  destruct (nearest_rows _ _) as [near|e2]; [|exact H].
  destruct (Nat.eqb _ 0); exact H.
Qed.

(** C6: the canonical number of a recognised satellite is one of 16, 17 and
    18 and depends on the upper-cased name only; whatever the other
    arguments, the module state, the client and the world, every listing of
    the call is made under the bucket [noaa-goes] followed by that number. *)
Theorem satellite_number_and_bucket_depend_on_alias_only satellite number :
  satellite_number satellite = Return number ->
  In number ["16"; "17"; "18"] /\
  (forall satellite',
      PyStr.upper (str satellite') = PyStr.upper (str satellite) ->
      satellite_number satellite' = Return number) /\
  (forall m fs product domain bands datetime w,
      new_calls_under ("noaa-goes" ++ number) w
        (snd (find_goes_dataset m fs (Some satellite) product domain bands
                datetime w))).
Proof.
  intros Hn. split; [eapply satellite_number_cases; eauto|]. split.
  - intros satellite' Heq. revert Hn. unfold satellite_number. rewrite Heq.
    destruct (member _ GOES16_ALIASES); [auto|].
    destruct (member _ GOES17_ALIASES); [auto|].
    destruct (member _ GOES18_ALIASES); [auto|discriminate].
  - intros. now apply find_goes_dataset_calls.
Qed.

Lemma satellite_number_witness :
  In "16" ["16"; "17"; "18"] /\
  (forall satellite',
      PyStr.upper (str satellite') = PyStr.upper (str (SatStr "goes-east")) ->
      satellite_number satellite' = Return "16") /\
  (forall m fs product domain bands datetime w,
      new_calls_under ("noaa-goes" ++ "16") w
        (snd (find_goes_dataset m fs (Some (SatStr "goes-east")) product domain
                bands datetime w))).
Proof.
  apply (satellite_number_and_bucket_depend_on_alias_only
           (SatStr "goes-east") "16").
  reflexivity.
Defined.

(* ================================================================== *)
(** ** The default of [datetime] (C7) *)

(** C7 does not hold of the code: the default target is the clock reading
    taken when the module was loaded, whatever the clock reads at the call.
    A module loaded at 18:02 and called at 18:30 without [datetime] returns
    the file of 18:01:54, where a call with [datetime] set to 18:30 returns
    the file of 18:06:54. *)
Theorem default_datetime_is_fixed_at_import :
  (forall w_import fs satellite product domain bands w_call,
      find_goes_dataset (import_module w_import) fs satellite product domain
        bands None w_call
      = find_goes_dataset (import_module w_import) fs satellite product domain
          bands (Some (clock w_import)) w_call) /\
  returned_files
    (fst (find_goes_dataset (import_module (Sample.at_time Sample.at_1802))
            Sample.fs None None None None None (Sample.at_time Sample.at_1830)))
  = [Sample.conus_1801] /\
  returned_files
    (fst (find_goes_dataset (import_module (Sample.at_time Sample.at_1802))
            Sample.fs None None None None (Some Sample.at_1830)
            (Sample.at_time Sample.at_1830)))
  = [Sample.conus_1806].
Proof.
  split; [reflexivity|]. split; vm_compute; reflexivity.
Qed.

(* ================================================================== *)
(** ** The records of a frame (C8) *)

Lemma parse_files_inv product start end_ bands files df :
  parse_files product start end_ bands files = Return df ->
  exists named selected timed,
    split_file_names files = Return named /\
    (if PyStr.startswith "ABI" product
     then exists parsed, abi_columns named = Return parsed /\
                         selected = filter_bands bands parsed
     else selected = named) /\
    mapM to_datetime_row selected = Return timed /\
    df = loc_window start end_ timed.
Proof.
  unfold parse_files.
  destruct (split_file_names files) as [named|] eqn:Hn; simpl; [|discriminate].
  destruct (PyStr.startswith "ABI" product).
  - destruct (abi_columns named) as [parsed|] eqn:Ha; simpl; [|discriminate].
    destruct (mapM to_datetime_row _) as [timed|] eqn:Ht; simpl; [|discriminate].
    intros H. inversion H; subst.
    exists named, (filter_bands bands parsed), timed. repeat split; eauto.
  - simpl.
    destruct (mapM to_datetime_row _) as [timed|] eqn:Ht; simpl; [|discriminate].
    intros H. inversion H; subst.
    exists named, named, timed. repeat split; eauto.
Qed.

Lemma to_datetime_row_row r t : to_datetime_row r = Return t -> t_row t = r.
Proof.
  unfold to_datetime_row.
  destruct (to_datetime "s" "" _); simpl; [|discriminate].
  destruct (to_datetime "e" "" _); simpl; [|discriminate].
  destruct (to_datetime "c" ".nc" _); simpl; [|discriminate].
  intros H. inversion H. reflexivity.
Qed.

Lemma record_of_band t r : record_of t = Some r -> rec_band r = r_band (t_row t).
Proof.
  unfold record_of. destruct (t_start t); [|discriminate].
  destruct (t_end t); [|discriminate].
  intros H. inversion H. reflexivity.
Qed.

Lemma split_file_names_band files named r :
  split_file_names files = Return named -> In r named -> r_band r = None.
Proof.
  unfold split_file_names. destruct (Nat.eqb _ 5); [|discriminate].
  intros H Hin. inversion H; subst.
  apply in_map_iff in Hin. destruct Hin as [f [<- _]]. reflexivity.
Qed.

Lemma goes_file_df_inv fs satellite product start end_ bands refresh w df w' :
  _goes_file_df fs satellite product start end_ bands refresh w = (Return df, w') ->
  exists files,
    list_files fs satellite product refresh
      (date_range (floor_hour start) (floor_hour end_)) [] w = (Return files, w') /\
    files <> [] /\
    parse_files product start end_ bands files = Return (rows df) /\
    attrs df = goes_file_df_params satellite product start end_ bands refresh.
Proof.
  rewrite goes_file_df_unfold.
  destruct (list_files _ _ _ _ _ _ w) as [[files|e] w0]; [|discriminate].
  destruct files as [|f files]; simpl; [discriminate|].
  destruct (parse_files _ _ _ _ _) as [df0|] eqn:Hp; [|discriminate].
  intros H. inversion H; subst. exists (f :: files). simpl.
  repeat split; auto. discriminate.
Qed.

(** C8, as the code has it: every record of the returned frame starts at or
    after the requested start and ends at or before the requested end, and
    has a band number only if the product name starts with [ABI].  That a
    record starts before it ends is not checked. *)
Theorem records_lie_in_window_and_band_needs_ABI
    fs satellite product start end_ bands refresh w df w' r :
  _goes_file_df fs satellite product start end_ bands refresh w = (Return df, w') ->
  In r (rows df) ->
  start <= rec_start r /\ rec_end r <= end_ /\
  (rec_band r <> None -> PyStr.startswith "ABI" product = true).
Proof.
  intros Hrun Hin.
  destruct (goes_file_df_inv _ _ _ _ _ _ _ _ _ _ Hrun) as [files [_ [_ [Hp _]]]].
  destruct (parse_files_inv _ _ _ _ _ _ Hp)
    as [named [selected [timed [Hn [Hsel [Ht Hdf]]]]]].
  rewrite Hdf in Hin.
  apply loc_window_inv in Hin.
  destruct Hin as [[t [Htin Hrec]] [Hs He]].
  split; [assumption|]. split; [assumption|].
  destruct (PyStr.startswith "ABI" product); [reflexivity|].
  intros Hband. exfalso. apply Hband. subst selected.
  destruct (Forall2_In_r _ _ _ _ (mapM_Forall2 _ _ _ Ht) Htin) as [row [Hrow Hconv]].
  rewrite (record_of_band _ _ Hrec), (to_datetime_row_row _ _ Hconv).
  eapply split_file_names_band; eauto.
Qed.

Lemma records_lie_in_window_witness :
  Sample.H18 <= rec_start Sample.record_1801 /\
  rec_end Sample.record_1801 <= Sample.at_1845 /\
  (rec_band Sample.record_1801 <> None ->
   PyStr.startswith "ABI" "ABI-L2-MCMIPC" = true).
Proof.
  eapply (records_lie_in_window_and_band_needs_ABI
            Sample.fs "noaa-goes16" "ABI-L2-MCMIPC" Sample.H18 Sample.at_1845
            None true (Sample.at_time 0)).
  - vm_compute. reflexivity.
  - vm_compute. left. reflexivity.
Defined.

(** C8 fails as stated: the bucket holds a name whose end stamp is before its
    start stamp, and the record made from it ends before it starts. *)
Lemma record_may_end_before_it_starts :
  exists df w' r,
    _goes_file_df Sample.fs "noaa-goes16" "GLM-L2-LCFA" Sample.H18 Sample.at_1845
      None true (Sample.at_time 0) = (Return df, w') /\
    In r (rows df) /\ rec_file r = Sample.backwards /\
    rec_end r < rec_start r.
Proof.
  eexists. eexists. eexists. split; [vm_compute; reflexivity|].
  split; [left; reflexivity|]. split; reflexivity.
Qed.

(* ================================================================== *)
(** ** The band filter and the frame without a filter *)







Example band_filter_on_sample :
  returned_files
    (match fst (_goes_file_df Sample.fs "noaa-goes16" "ABI-L1b-RadC" Sample.H18
                  Sample.at_1845 (Some (BandList [13])) true (Sample.at_time 0))
     with Return df => Return (Some df) | Raise e => Raise e end)
  = [Sample.rad_c13] /\
  returned_files
    (match fst (_goes_file_df Sample.fs "noaa-goes16" "ABI-L1b-RadC" Sample.H18
                  Sample.at_1845 None true (Sample.at_time 0))
     with Return df => Return (Some df) | Raise e => Raise e end)
  = [Sample.rad_c13; Sample.rad_c02].
Proof. split; vm_compute; reflexivity. Qed.

(* ================================================================== *)
(** ** A scalar band (C10) *)

Lemma dict_get_set k k' v d :
  dict_get k (dict_set k' v d) = if String.eqb k k' then Some v else dict_get k d.
Proof.
  induction d as [|[k0 v0] d IH]; simpl.
  - reflexivity.
  - destruct (String.eqb_spec k' k0) as [->|Hne]; simpl.
    + destruct (String.eqb k k0); reflexivity.
    + rewrite IH. destruct (String.eqb_spec k k0) as [->|Hne'].
      * destruct (String.eqb_spec k0 k'); [congruence|reflexivity].
      * reflexivity.
Qed.

Lemma set_attrs_but_bands params1 params2 a1 a2 :
  Forall2 (fun p1 p2 => fst p1 = fst p2 /\
                        (fst p1 <> "bands" -> snd p1 = snd p2)) params1 params2 ->
  (forall k, k <> "bands" -> dict_get k a1 = dict_get k a2) ->
  forall k, k <> "bands" ->
    dict_get k (set_attrs params1 a1) = dict_get k (set_attrs params2 a2).
Proof.
  unfold set_attrs. intros Hp. revert a1 a2.
  induction Hp as [|[k1 v1] [k2 v2] l1 l2 [Hk Hv] _ IH]; intros a1 a2 Ha k Hne.
  - simpl. now apply Ha.
  - simpl in *. subst k2. apply IH; [|assumption].
    intros k' Hk'. rewrite !dict_get_set.
    destruct (String.eqb_spec k' k1) as [->|_]; [|now apply Ha].
    now rewrite (Hv Hk').
Qed.

Lemma goes_file_df_params_but_bands satellite product start end_ bands1 bands2 refresh k :
  k <> "bands" ->
  dict_get k (goes_file_df_params satellite product start end_ bands1 refresh)
  = dict_get k (goes_file_df_params satellite product start end_ bands2 refresh).
Proof.
  unfold goes_file_df_params. apply set_attrs_but_bands; [|reflexivity].
  repeat constructor; simpl; congruence.
Qed.

Lemma goes_file_df_scalar_band fs satellite product start end_ b refresh w :
  snd (_goes_file_df fs satellite product start end_ (Some (BandScalar b))
         refresh w)
  = snd (_goes_file_df fs satellite product start end_ (Some (BandList [b]))
           refresh w) /\
  same_outcome same_but_bands
    (fst (_goes_file_df fs satellite product start end_ (Some (BandScalar b))
            refresh w))
    (fst (_goes_file_df fs satellite product start end_ (Some (BandList [b]))
            refresh w)).
Proof.
  rewrite !goes_file_df_unfold.
  destruct (list_files _ _ _ _ _ _ w) as [[files|e] w'];
    cbn [fst snd same_outcome]; [|auto].
  destruct (is_empty files); cbn [fst snd same_outcome]; [auto|].
  change (parse_files product start end_ (Some (BandList [b])) files)
    with (parse_files product start end_ (Some (BandScalar b)) files).
  destruct (parse_files _ _ _ _ _) as [df|e]; cbn [fst snd same_outcome]; [|auto].
  split; [reflexivity|]. split; [reflexivity|]. cbn [attrs].
  intros k Hk. now apply goes_file_df_params_but_bands.
Qed.

(** C10, as the code has it: with the scalar [b] and with the list [[b]],
    [_goes_file_df] and [find_goes_dataset] leave the same world and either
    raise the same exception or return frames with the same rows; the
    [attrs] of the two frames agree on every key but [bands], which holds
    the argument as it was passed. *)
Theorem scalar_band_gives_the_rows_of_the_singleton_list
    m fs satellite name product domain b start end_ datetime refresh w :
  (snd (_goes_file_df fs name product start end_ (Some (BandScalar b)) refresh w)
   = snd (_goes_file_df fs name product start end_ (Some (BandList [b])) refresh w) /\
   same_outcome same_but_bands
     (fst (_goes_file_df fs name product start end_ (Some (BandScalar b)) refresh w))
     (fst (_goes_file_df fs name product start end_ (Some (BandList [b])) refresh w)))
  /\
  (snd (find_goes_dataset m fs satellite (Some product) domain
          (Some (BandScalar b)) datetime w)
   = snd (find_goes_dataset m fs satellite (Some product) domain
            (Some (BandList [b])) datetime w) /\
   same_outcome (same_option same_but_bands)
     (fst (find_goes_dataset m fs satellite (Some product) domain
             (Some (BandScalar b)) datetime w))
     (fst (find_goes_dataset m fs satellite (Some product) domain
             (Some (BandList [b])) datetime w))).
Proof.
  split; [apply goes_file_df_scalar_band|].
  unfold find_goes_dataset, bind, lift.
  destruct (satellite_number _) as [number|e];
    cbn [fst snd same_outcome]; [|auto].
  match goal with
  | |- context [_goes_file_df fs ?n ?p ?s ?e (Some (BandScalar b)) ?r w] =>
      pose proof (goes_file_df_scalar_band fs n p s e b r w) as [Hw Ho];
      destruct (_goes_file_df fs n p s e (Some (BandScalar b)) r w)
        as [[df1|e1] w1];
      destruct (_goes_file_df fs n p s e (Some (BandList [b])) r w)
        as [[df2|e2] w2]
  end; cbn [fst snd same_outcome] in Hw, Ho; subst; try contradiction;
    [|cbn [fst snd same_outcome]; auto].
  destruct Ho as [Hrows Hattrs]. rewrite Hrows.
  match goal with
  | |- context [if ?c then loc_contains ?a ?l else ?d] =>
      destruct (if c then loc_contains a l else d) as [sel|e1]
  end; cbn [fst snd same_outcome]; [|auto].
  destruct (nearest_rows _ _) as [near|e2]; cbn [fst snd same_outcome]; [|auto].
  destruct (Nat.eqb _ 0); unfold print, ret;
    cbn [fst snd same_outcome same_option]; [auto|].
  split; [reflexivity|]. split; [reflexivity|]. cbn [attrs].
  apply set_attrs_but_bands; [|assumption].
  repeat constructor; cbn [fst snd]; congruence.
Qed.

(** C10 fails as stated: the frame for the scalar 13 and the frame for the
    list [[13]] differ, the first holds 13 and the second [[13]] under the
    key [bands] of [attrs]. *)
Lemma scalar_band_and_singleton_list_differ :
  returned_attr "bands"
    (fst (_goes_file_df Sample.fs "noaa-goes16" "ABI-L1b-RadC" Sample.H18
            Sample.at_1845 (Some (BandScalar 13)) true (Sample.at_time 0)))
  = Some (PyInt 13) /\
  returned_attr "bands"
    (fst (_goes_file_df Sample.fs "noaa-goes16" "ABI-L1b-RadC" Sample.H18
            Sample.at_1845 (Some (BandList [13])) true (Sample.at_time 0)))
  = Some (PyList [13]) /\
  _goes_file_df Sample.fs "noaa-goes16" "ABI-L1b-RadC" Sample.H18
    Sample.at_1845 (Some (BandScalar 13)) true (Sample.at_time 0)
  <> _goes_file_df Sample.fs "noaa-goes16" "ABI-L1b-RadC" Sample.H18
       Sample.at_1845 (Some (BandList [13])) true (Sample.at_time 0).
Proof.
  split; [vm_compute; reflexivity|]. split; [vm_compute; reflexivity|].
  intros H.
  apply (f_equal (fun run => returned_attr "bands" (fst run))) in H.
  vm_compute in H. discriminate.
Qed.

(* ================================================================== *)
(** ** Sorting and the index of start times *)

Lemma insert_by_start_In r l x :
  In x (insert_by_start r l) <-> x = r \/ In x l.
Proof.
  induction l as [|y l IH]; simpl.
  - intuition.
  - destruct (rec_start r <=? rec_start y); simpl; [intuition|].
    rewrite IH. intuition.
Qed.

Lemma sort_values_start_In df x :
  In x (sort_values_start df) <-> In x df.
Proof.
  unfold sort_values_start. induction df as [|r df IH]; simpl.
  - tauto.
  - rewrite insert_by_start_In, IH. intuition.
Qed.

Lemma insert_by_start_sorted r l :
  StronglySorted by_start l -> StronglySorted by_start (insert_by_start r l).
Proof.
  induction 1 as [|y l Hs IH Hy]; simpl.
  - constructor; constructor.
  - destruct (rec_start r <=? rec_start y) eqn:Hle.
    + apply Z.leb_le in Hle. constructor; [constructor; assumption|].
      constructor; [assumption|].
      eapply Forall_impl; [|exact Hy]. unfold by_start. intros; lia.
    + apply Z.leb_gt in Hle. constructor; [assumption|].
      apply Forall_forall. intros x Hx. apply insert_by_start_In in Hx.
      destruct Hx as [->|Hx].
      * unfold by_start. lia.
      * rewrite Forall_forall in Hy. now apply Hy.
Qed.

Lemma sort_values_start_sorted df :
  StronglySorted by_start (sort_values_start df).
Proof.
  unfold sort_values_start. induction df as [|r df IH]; simpl.
  - constructor.
  - now apply insert_by_start_sorted.
Qed.

Lemma map_start_sorted l :
  StronglySorted by_start l -> StronglySorted Z.le (map rec_start l).
Proof.
  induction 1 as [|y l Hs IH Hy]; simpl; constructor; [assumption|].
  apply Forall_forall. intros t Ht. apply in_map_iff in Ht.
  destruct Ht as [r [<- Hr]]. rewrite Forall_forall in Hy. now apply Hy.
Qed.

Lemma unique_In l x : In x (unique l) <-> In x l.
Proof.
  induction l as [|y l IH]; simpl; [tauto|].
  rewrite filter_In, IH. split.
  - intuition.
  - intros [->|Hx]; [now left|].
    destruct (Z.eq_dec x y) as [->|Hne]; [now left|].
    right. split; [assumption|]. apply negb_true_iff. now apply Z.eqb_neq.
Qed.

Lemma filter_sorted (p : Z -> bool) l :
  StronglySorted Z.le l -> StronglySorted Z.le (filter p l).
Proof.
  induction 1 as [|y l Hs IH Hy]; simpl; [constructor|].
  destruct (p y); [|assumption]. constructor; [assumption|].
  apply Forall_forall. intros t Ht. apply filter_In in Ht.
  rewrite Forall_forall in Hy. now apply Hy.
Qed.

Lemma unique_sorted l :
  StronglySorted Z.le l -> StronglySorted Z.le (unique l).
Proof.
  induction 1 as [|y l Hs IH Hy]; simpl; constructor.
  - now apply filter_sorted.
  - apply Forall_forall. intros t Ht. apply filter_In in Ht.
    destruct Ht as [Ht _]. apply (proj1 (unique_In _ _)) in Ht.
    rewrite Forall_forall in Hy. now apply Hy.
Qed.

(* ================================================================== *)
(** ** The nearest indexer *)

Lemma getitem_nth values i :
  0 <= i < Z.of_nat (List.length values) ->
  getitem values i = Return (nth (Z.to_nat i) values 0).
Proof.
  intros H. unfold getitem.
  destruct (i <? 0) eqn:Hneg; [apply Z.ltb_lt in Hneg; lia|].
  destruct (0 <=? i) eqn:H0; [|apply Z.leb_gt in H0; lia].
  destruct (i <? Z.of_nat (List.length values)) eqn:H1;
    [reflexivity|apply Z.ltb_ge in H1; lia].
Qed.

Lemma getitem_In values i v : getitem values i = Return v -> In v values.
Proof.
  unfold getitem.
  set (j := if i <? 0 then i + Z.of_nat (List.length values) else i).
  destruct (0 <=? j) eqn:H0; [|discriminate].
  destruct (j <? Z.of_nat (List.length values)) eqn:H1; [|discriminate].
  simpl. intros H. inversion H. apply nth_In.
  apply Z.leb_le in H0. apply Z.ltb_lt in H1. lia.
Qed.

Lemma getitem_last values :
  values <> [] -> exists v, getitem values (-1) = Return v /\ In v values.
Proof.
  intros Hne. unfold getitem. change (-1 <? 0) with true. cbv iota.
  assert (Hn : 1 <= Z.of_nat (List.length values)).
  { destruct values; [congruence | cbn [List.length]; lia]. }
  destruct (Z.leb_spec 0 (-1 + Z.of_nat (List.length values))); [|lia].
  destruct (Z.ltb_spec (-1 + Z.of_nat (List.length values))
              (Z.of_nat (List.length values))); [|lia].
  eexists. split; [reflexivity|]. apply nth_In. lia.
Qed.

(** The pad position holds the greatest label that is not after [x]. *)
Lemma pad_indexer_spec index x :
  StronglySorted Z.le index ->
  (pad_indexer index x = -1 /\ forall t, In t index -> x < t) \/
  (0 <= pad_indexer index x < Z.of_nat (List.length index) /\
   exists v, nth (Z.to_nat (pad_indexer index x)) index 0 = v /\
             In v index /\ v <= x /\
             forall t, In t index -> t <= x -> t <= v).
Proof.
  induction 1 as [|t rest Hs IH Ht]; cbn [pad_indexer List.length].
  - left. split; [reflexivity | simpl; tauto].
  - rewrite Forall_forall in Ht.
    destruct (t <=? x) eqn:Hle.
    + apply Z.leb_le in Hle. right.
      destruct IH as [[Hi Hall]|[Hi [v [Hv [Hin [Hvx Hmax]]]]]].
      * rewrite Hi. change (1 + -1) with 0. split; [lia|]. exists t.
        repeat split; [now left | assumption |].
        intros t' [<-|Hin] Hx; [lia|]. specialize (Hall _ Hin). lia.
      * split; [lia|]. exists v.
        replace (Z.to_nat (1 + pad_indexer rest x))
          with (S (Z.to_nat (pad_indexer rest x))) by lia.
        repeat split; [assumption | now right | assumption |].
        intros t' [<-|Hin'] Hx; [now apply Ht | auto].
    + apply Z.leb_gt in Hle. left. split; [reflexivity|].
      intros t' [<-|Hin]; [lia|]. specialize (Ht _ Hin). lia.
Qed.

(** The backfill position holds the least label that is not before [x]. *)
Lemma backfill_indexer_spec index x :
  StronglySorted Z.le index ->
  (backfill_indexer index x = -1 /\ forall t, In t index -> t < x) \/
  (0 <= backfill_indexer index x < Z.of_nat (List.length index) /\
   exists v, nth (Z.to_nat (backfill_indexer index x)) index 0 = v /\
             In v index /\ x <= v /\
             forall t, In t index -> x <= t -> v <= t).
Proof.
  induction 1 as [|t rest Hs IH Ht]; cbn [backfill_indexer List.length].
  - left. split; [reflexivity | simpl; tauto].
  - rewrite Forall_forall in Ht.
    destruct (x <=? t) eqn:Hle.
    + apply Z.leb_le in Hle. right. split; [lia|]. exists t.
      repeat split; [now left | assumption |].
      intros t' [<-|Hin] Hx; [lia | now apply Ht].
    + apply Z.leb_gt in Hle.
      destruct IH as [[Hi Hall]|[Hi [v [Hv [Hin [Hvx Hmin]]]]]].
      * left. rewrite Hi. split; [reflexivity|].
        intros t' [<-|Hin]; [lia | auto].
      * right. destruct (Z.eqb_spec (backfill_indexer rest x) (-1)); [lia|].
        split; [lia|]. exists v.
        replace (Z.to_nat (1 + backfill_indexer rest x))
          with (S (Z.to_nat (backfill_indexer rest x))) by lia.
        repeat split; [assumption | now right | assumption |].
        intros t' [<-|Hin'] Hx; [lia | auto].
Qed.

(** On an increasing index that is not empty, the nearest indexer finds a
    label at the least distance from [x]; of two labels at that distance it
    finds the later. *)
Lemma get_indexer_nearest_spec index x :
  index <> [] -> StronglySorted Z.le index ->
  exists v,
    getitem index (get_indexer_nearest index x) = Return v /\
    In v index /\
    (forall t, In t index -> Z.abs (v - x) <= Z.abs (t - x)) /\
    (forall t, In t index -> Z.abs (t - x) = Z.abs (v - x) -> t <= v).
Proof.
  intros Hne Hs.
  assert (Hnear : get_indexer_nearest index x =
                  if (distance index (pad_indexer index x) x
                      <? distance index (backfill_indexer index x) x)
                     || (backfill_indexer index x =? -1)
                  then pad_indexer index x else backfill_indexer index x).
  { destruct index; [congruence | reflexivity]. }
  rewrite Hnear. clear Hnear.
  destruct (pad_indexer_spec index x Hs)
    as [[Hl Hlall]|[Hl [vl [Hvl [Hlin [Hlx Hlmax]]]]]];
  destruct (backfill_indexer_spec index x Hs)
    as [[Hr Hrall]|[Hr [vr [Hvr [Hrin [Hrx Hrmin]]]]]].
  - exfalso. destruct index as [|t rest]; [congruence|].
    specialize (Hlall t (or_introl eq_refl)).
    specialize (Hrall t (or_introl eq_refl)). lia.
  - destruct (getitem_last index Hne) as [vw [Hw Hwin]].
    unfold distance at 1. rewrite Hl, Hw.
    unfold distance. rewrite (getitem_nth _ _ Hr), Hvr.
    pose proof (Hlall _ Hwin). pose proof (Hlall _ Hrin).
    assert (vr <= vw) by (apply Hrmin; [assumption | lia]).
    destruct (Z.ltb_spec (Z.abs (vw - x)) (Z.abs (vr - x))); [lia|].
    destruct (Z.eqb_spec (backfill_indexer index x) (-1)); [lia|]. simpl.
    exists vr. rewrite (getitem_nth _ _ Hr), Hvr. repeat split; auto.
    + intros t Ht. pose proof (Hlall _ Ht).
      assert (vr <= t) by (apply Hrmin; [assumption | lia]). lia.
    + intros t Ht Heq. pose proof (Hlall _ Ht). lia.
  - rewrite Hr. rewrite orb_true_r.
    exists vl. rewrite (getitem_nth _ _ Hl), Hvl. repeat split; auto.
    + intros t Ht. pose proof (Hrall _ Ht).
      assert (t <= vl) by (apply Hlmax; [assumption | lia]). lia.
    + intros t Ht _. pose proof (Hrall _ Ht). apply Hlmax; [assumption | lia].
  - unfold distance. rewrite (getitem_nth _ _ Hl), (getitem_nth _ _ Hr), Hvl, Hvr.
    destruct (Z.eqb_spec (backfill_indexer index x) (-1)); [lia|].
    rewrite orb_false_r.
    destruct (Z.ltb_spec (Z.abs (vl - x)) (Z.abs (vr - x))) as [Hlt|Hge].
    + exists vl. rewrite (getitem_nth _ _ Hl), Hvl. repeat split; auto.
      * intros t Ht. destruct (Z.le_gt_cases t x) as [Htx|Htx].
        -- pose proof (Hlmax _ Ht Htx). lia.
        -- assert (vr <= t) by (apply Hrmin; [assumption | lia]). lia.
      * intros t Ht Heq. destruct (Z.le_gt_cases t x) as [Htx|Htx].
        -- now apply Hlmax.
        -- assert (vr <= t) by (apply Hrmin; [assumption | lia]). lia.
    + exists vr. rewrite (getitem_nth _ _ Hr), Hvr. repeat split; auto.
      * intros t Ht. destruct (Z.le_gt_cases x t) as [Htx|Htx].
        -- pose proof (Hrmin _ Ht Htx). lia.
        -- assert (t <= vl) by (apply Hlmax; [assumption | lia]). lia.
      * intros t Ht Heq. destruct (Z.le_gt_cases x t) as [Htx|Htx].
        -- pose proof (Hrmin _ Ht Htx). lia.
        -- lia.
Qed.

(* ================================================================== *)
(** ** The nearest rows *)

Lemma loc_start_In t df r :
  In r (loc_start t (sort_values_start df)) <-> In r df /\ rec_start r = t.
Proof.
  unfold loc_start. rewrite filter_In, sort_values_start_In, Z.eqb_eq. tauto.
Qed.

(** A label of the index selects at least one row. *)
Lemma loc_start_of_label t df :
  In t (unique (map rec_start (sort_values_start df))) ->
  loc_start t (sort_values_start df) <> [].
Proof.
  intros Hin Hnil.
  apply (proj1 (unique_In _ _)) in Hin.
  apply (proj1 (in_map_iff _ _ _)) in Hin. destruct Hin as [r [Hr Hrin]].
  apply (proj1 (sort_values_start_In _ _)) in Hrin.
  assert (Hx : In r (loc_start t (sort_values_start df))).
  { apply loc_start_In. split; assumption. }
  rewrite Hnil in Hx. destruct Hx.
Qed.

Lemma index_of_rows_nonempty df :
  df <> [] -> unique (map rec_start (sort_values_start df)) <> [].
Proof.
  intros Hne Hnil. destruct df as [|r df]; [congruence|].
  assert (Hin : In (rec_start r)
                  (unique (map rec_start (sort_values_start (r :: df))))).
  { apply unique_In, in_map, sort_values_start_In. now left. }
  rewrite Hnil in Hin. contradiction.
Qed.

(** From rows that are not empty, the nearest rows are all the rows that
    start at one same time [t]; no row starts nearer to [datetime] than [t];
    and a row that starts as near as [t] does not start after [t]. *)
Lemma nearest_rows_spec datetime df :
  df <> [] ->
  exists t out,
    nearest_rows datetime df = Return out /\
    out <> [] /\
    (forall r, In r out <-> In r df /\ rec_start r = t) /\
    (forall c, In c df ->
               Z.abs (t - datetime) <= Z.abs (rec_start c - datetime)) /\
    (forall c, In c df ->
               Z.abs (rec_start c - datetime) = Z.abs (t - datetime) ->
               rec_start c <= t).
Proof.
  intros Hne. unfold nearest_rows.
  destruct (get_indexer_nearest_spec
              (unique (map rec_start (sort_values_start df))) datetime
              (index_of_rows_nonempty df Hne)
              (unique_sorted _ (map_start_sorted _ (sort_values_start_sorted df))))
    as [t [Hget [Hin [Hmin Htie]]]].
  rewrite Hget. cbn [obind]. exists t. eexists. split; [reflexivity|].
  assert (Hlabel : forall c, In c df ->
            In (rec_start c) (unique (map rec_start (sort_values_start df)))).
  { intros c Hc. apply unique_In, in_map, sort_values_start_In. exact Hc. }
  split; [|split; [apply loc_start_In|split]].
  - eapply loc_start_of_label; eauto.
  - intros c Hc. apply Hmin. now apply Hlabel.
  - intros c Hc Heq. apply Htie; [now apply Hlabel | assumption].
Qed.

(* ================================================================== *)
(** ** The frame of [find_goes_dataset] (C4, C2) *)

Lemma nearest_rows_of_no_rows datetime :
  nearest_rows datetime [] = Raise IndexError.
Proof. reflexivity. Qed.

Lemma nearest_rows_start_at_least_one datetime df :
  df <> [] -> exists out, nearest_rows datetime df = Return out /\ out <> [].
Proof.
  intros Hne. unfold nearest_rows.
  destruct (get_indexer_nearest_spec
              (unique (map rec_start (sort_values_start df))) datetime
              (index_of_rows_nonempty df Hne)
              (unique_sorted _ (map_start_sorted _ (sort_values_start_sorted df))))
    as [t [Hget [Hin _]]].
  rewrite Hget. cbn [obind]. eexists. split; [reflexivity|].
  now apply loc_start_of_label.
Qed.

Lemma nearest_rows_not_empty datetime df out :
  nearest_rows datetime df = Return out -> out <> [].
Proof.
  unfold nearest_rows.
  destruct (getitem _ _) as [t|e] eqn:Hget; cbn [obind]; [|discriminate].
  intros H. inversion H; subst.
  eapply loc_start_of_label, getitem_In; eauto.
Qed.

(** With candidates that are not empty, [find_goes_dataset] returns the
    frame of their nearest rows. *)
Lemma find_goes_dataset_returns_nearest_rows
    m fs satellite product domain bands datetime w number df w' cands :
  satellite_number satellite = Return number ->
  _goes_file_df fs ("noaa-goes" ++ number)
    (if is_mesoscale domain then product ++ "M" else product ++ domain)
    (datetime - HOUR) (datetime + HOUR) bands true w = (Return df, w') ->
  (if is_mesoscale domain then loc_contains (product ++ domain) (rows df)
   else Return (rows df)) = Return cands ->
  cands <> [] ->
  exists out,
    find_goes_dataset m fs (Some satellite) (Some product) (Some domain) bands
      (Some datetime) w = (Return (Some out), w') /\
    nearest_rows datetime (map (set_product_domain product domain) cands)
    = Return (rows out).
Proof.
  intros Hn Hdf Hsel Hne.
  unfold find_goes_dataset, bind, lift. cbn [default].
  rewrite Hn, Hdf, Hsel.
  destruct (nearest_rows_start_at_least_one datetime
              (map (set_product_domain product domain) cands)) as [out [Hout Hout']].
  { destruct cands; [congruence | discriminate]. }
  rewrite Hout. destruct out as [|r out]; [congruence|].
  cbn [List.length Nat.eqb]. unfold ret. eexists. split; reflexivity.
Qed.

(** C4, as the code has it: when the candidates (the rows of the three
    hours around [datetime], of the requested sector for a mesoscale
    domain) are not empty, [find_goes_dataset] returns a frame whose rows are
    exactly the candidates that start at one same time [t], with their
    columns [product] and [domain]; no candidate starts nearer to [datetime]
    than [t]; and a candidate that starts as near as [t] does not start
    after [t] (of two start times at the same distance, the rows of the
    later one are returned, and those of the earlier one are not). *)
Theorem find_goes_dataset_returns_the_rows_nearest_in_time
    m fs satellite product domain bands datetime w number df w' cands :
  satellite_number satellite = Return number ->
  _goes_file_df fs ("noaa-goes" ++ number) (listed_product product domain)
    (datetime - HOUR) (datetime + HOUR) bands true w = (Return df, w') ->
  (if is_mesoscale domain then loc_contains (product ++ domain) (rows df)
   else Return (rows df)) = Return cands ->
  cands <> [] ->
  exists t out,
    find_goes_dataset m fs (Some satellite) (Some product) (Some domain) bands
      (Some datetime) w = (Return (Some out), w') /\
    rows out <> [] /\
    (forall r, In r (rows out) <->
               exists c, In c cands /\ rec_start c = t /\
                         r = set_product_domain product domain c) /\
    (forall c, In c cands ->
               Z.abs (t - datetime) <= Z.abs (rec_start c - datetime)) /\
    (forall c, In c cands ->
               Z.abs (rec_start c - datetime) = Z.abs (t - datetime) ->
               rec_start c <= t).
Proof.
  intros Hn Hdf Hsel Hne.
  destruct (find_goes_dataset_returns_nearest_rows m fs satellite product
              domain bands datetime w number df w' cands Hn Hdf Hsel Hne)
    as [out [Hrun Hnear]].
  destruct (nearest_rows_spec datetime
              (map (set_product_domain product domain) cands))
    as [t [near [Hnear' [Hnonempty [Hrows [Hmin Htie]]]]]].
  { destruct cands; [congruence | discriminate]. }
  rewrite Hnear in Hnear'. inversion Hnear'; subst near. clear Hnear'.
  exists t, out. split; [exact Hrun|]. split; [exact Hnonempty|].
  split; [|split].
  - intros r. rewrite Hrows. split.
    + intros [Hin Ht]. apply in_map_iff in Hin. destruct Hin as [c [<- Hc]].
      exists c. auto.
    + intros [c [Hc [Ht ->]]]. split; [now apply in_map | exact Ht].
  - intros c Hc.
    apply (Hmin (set_product_domain product domain c)). now apply in_map.
  - intros c Hc.
    apply (Htie (set_product_domain product domain c)). now apply in_map.
Qed.

Lemma find_goes_dataset_nearest_witness :
  exists t out,
    find_goes_dataset (mkModule 0) Sample.fs_twice (Some (SatInt 16))
      (Some "ABI-L2-MCMIP") (Some "C") None (Some Sample.at_tie)
      (Sample.at_time 0)
    = (Return (Some out),
       snd (_goes_file_df Sample.fs_twice ("noaa-goes" ++ "16")
              (listed_product "ABI-L2-MCMIP" "C") (Sample.at_tie - HOUR)
              (Sample.at_tie + HOUR) None true (Sample.at_time 0))) /\
    rows out <> [] /\
    (forall r, In r (rows out) <->
               exists c,
                 In c (rows (frame_of
                               (fst (_goes_file_df Sample.fs_twice
                                       ("noaa-goes" ++ "16")
                                       (listed_product "ABI-L2-MCMIP" "C")
                                       (Sample.at_tie - HOUR)
                                       (Sample.at_tie + HOUR) None true
                                       (Sample.at_time 0))))) /\
                 rec_start c = t /\
                 r = set_product_domain "ABI-L2-MCMIP" "C" c) /\
    (forall c,
       In c (rows (frame_of
                     (fst (_goes_file_df Sample.fs_twice ("noaa-goes" ++ "16")
                             (listed_product "ABI-L2-MCMIP" "C")
                             (Sample.at_tie - HOUR) (Sample.at_tie + HOUR)
                             None true (Sample.at_time 0))))) ->
       Z.abs (t - Sample.at_tie) <= Z.abs (rec_start c - Sample.at_tie)) /\
    (forall c,
       In c (rows (frame_of
                     (fst (_goes_file_df Sample.fs_twice ("noaa-goes" ++ "16")
                             (listed_product "ABI-L2-MCMIP" "C")
                             (Sample.at_tie - HOUR) (Sample.at_tie + HOUR)
                             None true (Sample.at_time 0))))) ->
       Z.abs (rec_start c - Sample.at_tie) = Z.abs (t - Sample.at_tie) ->
       rec_start c <= t).
Proof.
  apply (find_goes_dataset_returns_the_rows_nearest_in_time
           (mkModule 0) Sample.fs_twice (SatInt 16) "ABI-L2-MCMIP" "C" None
           Sample.at_tie (Sample.at_time 0) "16"
           (frame_of (fst (_goes_file_df Sample.fs_twice ("noaa-goes" ++ "16")
                             (listed_product "ABI-L2-MCMIP" "C")
                             (Sample.at_tie - HOUR) (Sample.at_tie + HOUR)
                             None true (Sample.at_time 0))))
           (snd (_goes_file_df Sample.fs_twice ("noaa-goes" ++ "16")
                   (listed_product "ABI-L2-MCMIP" "C")
                   (Sample.at_tie - HOUR) (Sample.at_tie + HOUR)
                   None true (Sample.at_time 0)))).
  - reflexivity.
  - vm_compute. reflexivity.
  - reflexivity.
  - vm_compute. discriminate.
Defined.

(** Three candidates, two of which start at 18:01:54.7 and one at
    18:06:54.7: for the target 18:02 the two rows of 18:01:54.7 are returned,
    in the order of the listing; for the target 18:04:24.7, as far from the
    one start as from the other, the row of 18:06:54.7 alone. *)
Example nearest_rows_of_three_candidates :
  map rec_file
    (rows (frame_of (fst (_goes_file_df Sample.fs_twice "noaa-goes16"
                            "ABI-L2-MCMIPC" (Sample.at_1802 - HOUR)
                            (Sample.at_1802 + HOUR) None true
                            (Sample.at_time 0)))))
  = [Sample.conus_1806; Sample.conus_1801; Sample.conus_1801_again] /\
  returned_files
    (fst (find_goes_dataset (mkModule 0) Sample.fs_twice (Some (SatInt 16))
            (Some "ABI-L2-MCMIP") (Some "C") None (Some Sample.at_1802)
            (Sample.at_time 0)))
  = [Sample.conus_1801; Sample.conus_1801_again] /\
  returned_files
    (fst (find_goes_dataset (mkModule 0) Sample.fs_twice (Some (SatInt 16))
            (Some "ABI-L2-MCMIP") (Some "C") None (Some Sample.at_tie)
            (Sample.at_time 0)))
  = [Sample.conus_1806].
Proof. repeat split; vm_compute; reflexivity. Qed.

(** C4 fails as stated: for the target 18:04:24.7 the candidates of 18:01:54.7
    and of 18:06:54.7 are at the same, least distance; only the later one is
    returned. *)
Lemma equally_near_earlier_row_is_not_returned :
  exists df w' r1 r2,
    _goes_file_df Sample.fs "noaa-goes16" "ABI-L2-MCMIPC"
      (Sample.at_tie - HOUR) (Sample.at_tie + HOUR) None true (Sample.at_time 0)
      = (Return df, w') /\
    In r1 (rows df) /\ rec_file r1 = Sample.conus_1801 /\
    In r2 (rows df) /\ rec_file r2 = Sample.conus_1806 /\
    Z.abs (rec_start r1 - Sample.at_tie) = Z.abs (rec_start r2 - Sample.at_tie) /\
    (forall c, In c (rows df) ->
               Z.abs (rec_start r1 - Sample.at_tie)
               <= Z.abs (rec_start c - Sample.at_tie)) /\
    returned_files
      (fst (find_goes_dataset (mkModule 0) Sample.fs (Some (SatInt 16))
              (Some "ABI-L2-MCMIP") (Some "C") None (Some Sample.at_tie)
              (Sample.at_time 0)))
    = [Sample.conus_1806].
Proof.
  eexists. eexists. eexists. eexists.
  split; [vm_compute; reflexivity|]. cbn [rows].
  split; [right; left; reflexivity|]. split; [reflexivity|].
  split; [right; right; left; reflexivity|]. split; [reflexivity|].
  split; [reflexivity|]. split.
  - intros c [<-|[<-|[<-|[]]]]; vm_compute; discriminate.
  - vm_compute. reflexivity.
Qed.

(** The check of line 176 is never reached with a frame without rows:
    [find_goes_dataset] never returns the null result and never prints. *)
Lemma find_goes_dataset_never_returns_None
    m fs satellite product domain bands datetime w :
  fst (find_goes_dataset m fs satellite product domain bands datetime w)
    <> Return None /\
  stdout (snd (find_goes_dataset m fs satellite product domain bands datetime w))
    = stdout w.
Proof.
  unfold find_goes_dataset, bind, lift.
  destruct (satellite_number _) as [number|e]; cbn [fst snd];
    [|split; [discriminate | reflexivity]].
  match goal with
  | |- context [_goes_file_df fs ?b ?p ?s ?e ?bs ?r w] =>
      pose proof (goes_file_df_world fs b p s e bs r w) as H;
      destruct (_goes_file_df fs b p s e bs r w) as [[df|e0] w']
  end; cbn [fst snd] in *; destruct H as [_ [Hout _]];
    [|split; [discriminate | assumption]].
  match goal with
  | |- context [if ?c then loc_contains ?a ?l else ?d] =>
      destruct (if c then loc_contains a l else d) as [sel|e1]
  end; cbn [fst snd]; [|split; [discriminate | assumption]].
  destruct (nearest_rows _ _) as [near|e2] eqn:Hnear; cbn [fst snd];
    [|split; [discriminate | assumption]].
  apply nearest_rows_not_empty in Hnear.
  destruct near as [|r near]; [congruence|].
  cbn [List.length Nat.eqb]. unfold ret. cbn [fst snd].
  split; [discriminate | assumption].
Qed.

(** C2 does not hold of the code: the listings hold mesoscale files of
    sector 2 only, a request for sector 1 leaves no row after the sector
    filter, and the call raises [IndexError] and prints nothing instead of
    returning the null result. *)
Theorem no_rows_after_filtering_raises_IndexError :
  exists df w',
    _goes_file_df Sample.fs "noaa-goes16" "ABI-L2-MCMIPM"
      (Sample.at_1802 - HOUR) (Sample.at_1802 + HOUR) None true
      (Sample.at_time 0) = (Return df, w') /\
    map rec_file (rows df)
      = [Sample.meso2_1730; Sample.meso2_1801; Sample.meso2_1900] /\
    loc_contains "ABI-L2-MCMIPM1" (rows df) = Return [] /\
    find_goes_dataset (mkModule 0) Sample.fs (Some (SatInt 16))
      (Some "ABI-L2-MCMIP") (Some "M1") None (Some Sample.at_1802)
      (Sample.at_time 0)
    = (Raise IndexError, w') /\
    stdout w' = [].
Proof.
  eexists. eexists. split; [vm_compute; reflexivity|].
  repeat split; vm_compute; reflexivity.
Qed.

(* ================================================================== *)
(** * Further properties of [_goes_file_df] *)

(** ** The listing loop *)

Lemma list_files_log fs satellite product refresh DATES files w :
  exists n,
    (n <= List.length DATES)%nat /\
    ls_log (snd (list_files fs satellite product refresh DATES files w))
    = (calls_for satellite product refresh (firstn n DATES) ++ ls_log w)%list /\
    (fst (list_files fs satellite product refresh DATES files w)
       <> Raise ListingError -> n = List.length DATES).
Proof.
  revert files w. induction DATES as [|DATE rest IH]; intros files w.
  - exists 0%nat. repeat split; auto.
  - cbn [list_files]. unfold bind, ls.
    destruct (fs _ refresh) as [keys|] eqn:Hfs.
    + match goal with
      | |- context [list_files _ _ _ _ rest ?f ?w0] =>
          destruct (IH f w0) as [n [Hn [Hlog Hall]]]
      end.
      exists (S n). split; [cbn [List.length]; lia|]. split.
      * rewrite Hlog. cbn [ls_log firstn]. unfold calls_for.
        cbn [map rev]. rewrite <- app_assoc. reflexivity.
      * intros H. cbn [List.length]. f_equal. now apply Hall.
    + exists 1%nat. split; [cbn [List.length]; lia|]. split.
      * reflexivity.
      * cbn [fst]. congruence.
Qed.

Lemma goes_file_df_listing fs satellite product start end_ bands refresh w :
  snd (_goes_file_df fs satellite product start end_ bands refresh w)
  = snd (list_files fs satellite product refresh
           (date_range (floor_hour start) (floor_hour end_)) [] w) /\
  (fst (_goes_file_df fs satellite product start end_ bands refresh w)
     <> Raise ListingError ->
   fst (list_files fs satellite product refresh
          (date_range (floor_hour start) (floor_hour end_)) [] w)
     <> Raise ListingError).
Proof.
  rewrite goes_file_df_unfold.
  destruct (list_files _ _ _ _ _ _ w) as [[files|e] w'] eqn:Hl; cbn [fst snd].
  - split; [|discriminate].
    destruct (is_empty files); [reflexivity|].
    destruct (parse_files _ _ _ _ _); reflexivity.
  - split; [reflexivity|]. intros H He. apply H.
    assert (Hr : fst (list_files fs satellite product refresh
                        (date_range (floor_hour start) (floor_hour end_)) [] w)
                 = Raise e) by now rewrite Hl.
    apply list_files_raises in Hr. congruence.
Qed.

(** The listing loop stops at the first hour on which the client raises:
    either the client returns on every hour, all of them are listed and the
    loop does not raise the exception of the client, or it raises on the hour
    at some position [k], has returned on the hours before it, and the hours
    up to that one are the only ones listed. *)
Lemma list_files_trace fs satellite product refresh DATES files w :
  (fst (list_files fs satellite product refresh DATES files w)
     <> Raise ListingError /\
   (forall DATE, In DATE DATES ->
      fs (partition_path satellite product DATE) refresh <> None) /\
   ls_log (snd (list_files fs satellite product refresh DATES files w))
   = (calls_for satellite product refresh DATES ++ ls_log w)%list)
  \/
  (exists k DATE,
     nth_error DATES k = Some DATE /\
     fs (partition_path satellite product DATE) refresh = None /\
     (forall d, In d (firstn k DATES) ->
        fs (partition_path satellite product d) refresh <> None) /\
     ls_log (snd (list_files fs satellite product refresh DATES files w))
     = (calls_for satellite product refresh (firstn (S k) DATES)
        ++ ls_log w)%list /\
     fst (list_files fs satellite product refresh DATES files w)
     = Raise ListingError).
Proof.
  revert files w. induction DATES as [|d rest IH]; intros files w.
  - left. split; [discriminate|]. split; [intros DATE []|reflexivity].
  - cbn [list_files]. unfold bind, ls.
    fold (partition_path satellite product d).
    destruct (fs (partition_path satellite product d) refresh) as [keys|] eqn:Hd.
    + match goal with
      | |- context [list_files _ _ _ _ rest ?f ?w0] =>
          destruct (IH f w0) as [[Hok [Hall Hlog]]|[k [DATE [Hk [Hfs [Hbefore
            [Hlog Hraise]]]]]]]
      end.
      * left. split; [exact Hok|]. split.
        -- intros DATE [<-|Hin]; [congruence|now apply Hall].
        -- rewrite Hlog. cbn [ls_log]. unfold calls_for. cbn [map rev].
           rewrite <- app_assoc. reflexivity.
      * right. exists (S k), DATE. split; [exact Hk|]. split; [exact Hfs|].
        split; [|split; [|exact Hraise]].
        -- cbn [firstn]. intros d0 [<-|Hin]; [congruence|now apply Hbefore].
        -- rewrite Hlog. cbn [ls_log]. unfold calls_for.
           change (firstn (S (S k)) (d :: rest)) with (d :: firstn (S k) rest).
           cbn [map rev]. rewrite <- app_assoc. reflexivity.
    + right. exists 0%nat, d. split; [reflexivity|]. split; [exact Hd|].
      split; [intros d0 []|]. split; reflexivity.
Qed.

(** What [_goes_file_df] leaves of its listing loop: the calls of the client
    are those of the loop, the exception of the client is raised when the
    loop raises it, and no other step raises it. *)
Lemma goes_file_df_trace fs satellite product start end_ bands refresh w :
  snd (_goes_file_df fs satellite product start end_ bands refresh w)
  = snd (list_files fs satellite product refresh
           (date_range (floor_hour start) (floor_hour end_)) [] w) /\
  (fst (list_files fs satellite product refresh
          (date_range (floor_hour start) (floor_hour end_)) [] w)
     = Raise ListingError <->
   fst (_goes_file_df fs satellite product start end_ bands refresh w)
     = Raise ListingError).
Proof.
  rewrite goes_file_df_unfold.
  destruct (list_files _ _ _ _ _ _ w) as [[files|e] w'] eqn:Hl; cbn [fst snd].
  - split.
    + destruct (is_empty files); [reflexivity|].
      destruct (parse_files _ _ _ _ _); reflexivity.
    + split; [discriminate|].
      destruct (is_empty files); [discriminate|].
      destruct (parse_files product start end_ bands files) as [df|e] eqn:Hp;
        cbn [fst]; [discriminate|].
      intros He. inversion He; subst e.
      apply parse_files_raises in Hp.
      destruct Hp as [Hp|[Hp|[Hp|[Hp|Hp]]]]; discriminate.
  - split; [reflexivity|]. split; intros H; congruence.
Qed.

(** X1: [_goes_file_df] lists the hourly partitions from the hour of [start]
    to the hour of [end], in that order and each once, with the [refresh]
    flag it was given, and makes no other call of the client.  When the
    client returns on every one of these hours they are all listed and the
    exception of the client is not raised.  Otherwise the listing stops at
    the first hour on which the client raises: the client has returned on
    the hours before it, the hours up to that one are the only ones listed,
    and [_goes_file_df] raises the exception of the client. *)
Theorem partitions_are_listed_in_hour_order
    fs satellite product start end_ bands refresh w :
  (fst (_goes_file_df fs satellite product start end_ bands refresh w)
     <> Raise ListingError /\
   (forall DATE,
      In DATE (date_range (floor_hour start) (floor_hour end_)) ->
      fs (partition_path satellite product DATE) refresh <> None) /\
   ls_log (snd (_goes_file_df fs satellite product start end_ bands refresh w))
   = (calls_for satellite product refresh
        (date_range (floor_hour start) (floor_hour end_)) ++ ls_log w)%list)
  \/
  (exists k DATE,
     nth_error (date_range (floor_hour start) (floor_hour end_)) k = Some DATE /\
     fs (partition_path satellite product DATE) refresh = None /\
     (forall d,
        In d (firstn k (date_range (floor_hour start) (floor_hour end_))) ->
        fs (partition_path satellite product d) refresh <> None) /\
     ls_log (snd (_goes_file_df fs satellite product start end_ bands refresh w))
     = (calls_for satellite product refresh
          (firstn (S k) (date_range (floor_hour start) (floor_hour end_)))
        ++ ls_log w)%list /\
     fst (_goes_file_df fs satellite product start end_ bands refresh w)
     = Raise ListingError).
Proof.
  destruct (goes_file_df_trace fs satellite product start end_ bands refresh w)
    as [Hw Hiff].
  rewrite Hw.
  destruct (list_files_trace fs satellite product refresh
              (date_range (floor_hour start) (floor_hour end_)) [] w)
    as [[Hok [Hall Hlog]]|[k [DATE [Hk [Hfs [Hbefore [Hlog Hraise]]]]]]].
  - left. split; [|split; assumption].
    intros H. apply Hok. now apply Hiff.
  - right. exists k, DATE. repeat (split; [assumption|]). now apply Hiff.
Qed.

(** The loop on the sample bucket: the partition of 20:00 is not in the
    bucket, so that a window from 18:30 to 20:30 lists the hours 18:00, 19:00
    and 20:00 and raises on the third. *)
Example listing_stops_at_the_missing_partition :
  _goes_file_df Sample.fs "noaa-goes16" "ABI-L2-MCMIPC" Sample.at_1830
    (Sample.at_1830 + 2 * HOUR) None true (Sample.at_time 0)
  = (Raise ListingError,
     mkWorld 0 [("noaa-goes16/ABI-L2-MCMIPC/2019/172/20/", true);
                ("noaa-goes16/ABI-L2-MCMIPC/2019/172/19/", true);
                ("noaa-goes16/ABI-L2-MCMIPC/2019/172/18/", true)] []).
Proof. vm_compute. reflexivity. Qed.

Lemma hour_positive : 0 < HOUR.
Proof. reflexivity. Qed.

Lemma date_range_empty a b : b < a -> date_range a b = [].
Proof.
  intros H. unfold date_range.
  assert (Hd : (b - a) / HOUR < 0).
  { apply Z.div_lt_upper_bound; [apply hour_positive | lia]. }
  replace (Z.to_nat ((b - a) / HOUR + 1)) with 0%nat by lia. reflexivity.
Qed.

(** X2: when the hour of [end] is before the hour of [start] there is no
    partition to list: [_goes_file_df] raises the empty-result error without
    calling the client. *)
Theorem inverted_window_raises_without_listing
    fs satellite product start end_ bands refresh w :
  floor_hour end_ < floor_hour start ->
  _goes_file_df fs satellite product start end_ bands refresh w
  = (Raise (ValueError NoFilesFound), w).
Proof.
  intros H. rewrite goes_file_df_unfold, (date_range_empty _ _ H). reflexivity.
Qed.

Lemma inverted_window_witness :
  _goes_file_df Sample.fs "noaa-goes16" "ABI-L2-MCMIPC" Sample.at_1830
    (Sample.H18 - 1) None true (Sample.at_time 0)
  = (Raise (ValueError NoFilesFound), Sample.at_time 0).
Proof.
  apply (inverted_window_raises_without_listing Sample.fs "noaa-goes16"
           "ABI-L2-MCMIPC" Sample.at_1830 (Sample.H18 - 1) None true
           (Sample.at_time 0)).
  reflexivity.
Defined.

Lemma list_files_client_raises fs satellite product refresh DATES files w DATE :
  In DATE DATES ->
  fs (partition_path satellite product DATE) refresh = None ->
  fst (list_files fs satellite product refresh DATES files w) = Raise ListingError.
Proof.
  revert files w. induction DATES as [|d rest IH]; intros files w Hin Hfs.
  - destruct Hin.
  - cbn [list_files]. unfold bind, ls.
    fold (partition_path satellite product d).
    destruct (fs (partition_path satellite product d) refresh) as [keys|] eqn:Hd.
    + destruct Hin as [->|Hin]; [congruence|]. now apply IH.
    + reflexivity.
Qed.

(** X3: an exception of the listing client is not caught: if the client
    raises on one of the hourly partitions of the window, [_goes_file_df]
    raises it, whatever the other partitions hold. *)
Theorem client_exception_is_raised
    fs satellite product start end_ bands refresh w DATE :
  In DATE (date_range (floor_hour start) (floor_hour end_)) ->
  fs (partition_path satellite product DATE) refresh = None ->
  fst (_goes_file_df fs satellite product start end_ bands refresh w)
  = Raise ListingError.
Proof.
  intros Hin Hfs. rewrite goes_file_df_unfold.
  pose proof (list_files_client_raises fs satellite product refresh _ [] w DATE
                Hin Hfs) as H.
  destruct (list_files _ _ _ _ _ _ w) as [[files|e] w']; cbn [fst] in H;
    [discriminate|].
  cbn [fst]. congruence.
Qed.

Lemma client_exception_witness :
  fst (_goes_file_df Sample.fs "noaa-goes16" "ABI-L2-MCMIPC" Sample.at_1830
         (Sample.at_1830 + 2 * HOUR) None true (Sample.at_time 0))
  = Raise ListingError.
Proof.
  apply (client_exception_is_raised Sample.fs "noaa-goes16" "ABI-L2-MCMIPC"
           Sample.at_1830 (Sample.at_1830 + 2 * HOUR) None true
           (Sample.at_time 0) (Sample.H18 + 2 * HOUR)).
  - vm_compute. right. right. left. reflexivity.
  - reflexivity.
Defined.

Lemma floor_hour_le a b : a <= b -> floor_hour a <= floor_hour b.
Proof.
  intros H. unfold floor_hour.
  apply Z.mul_le_mono_nonneg_r; [pose proof hour_positive; lia|].
  apply Z.div_le_mono; [apply hour_positive | assumption].
Qed.

(** The hours between two hours are those of [date_range]. *)
Lemma date_range_covers start end_ t :
  start <= t <= end_ ->
  In (floor_hour t) (date_range (floor_hour start) (floor_hour end_)).
Proof.
  intros [Hs He]. unfold date_range, floor_hour.
  pose proof hour_positive as Hp.
  assert (H1 : start / HOUR <= t / HOUR) by (apply Z.div_le_mono; lia).
  assert (H2 : t / HOUR <= end_ / HOUR) by (apply Z.div_le_mono; lia).
  replace (end_ / HOUR * HOUR - start / HOUR * HOUR)
    with ((end_ / HOUR - start / HOUR) * HOUR) by ring.
  rewrite Z.div_mul by lia.
  apply in_map_iff. exists (Z.to_nat (t / HOUR - start / HOUR)). split.
  - rewrite Z2Nat.id by lia. ring.
  - apply in_seq. lia.
Qed.

(** X4: the listing covers the window: when the client does not raise, the
    partition of the hour of every instant between [start] and [end] has
    been listed. *)
Theorem every_hour_of_the_window_is_listed
    fs satellite product start end_ bands refresh w t :
  start <= t <= end_ ->
  fst (_goes_file_df fs satellite product start end_ bands refresh w)
    <> Raise ListingError ->
  In (partition_path satellite product (floor_hour t), refresh)
     (ls_log (snd (_goes_file_df fs satellite product start end_ bands refresh w))).
Proof.
  intros Ht Hok.
  destruct (goes_file_df_listing fs satellite product start end_ bands refresh w)
    as [Hw Hok'].
  destruct (list_files_log fs satellite product refresh
              (date_range (floor_hour start) (floor_hour end_)) [] w)
    as [n [Hn [Hlog Hall]]].
  rewrite Hw, Hlog, (Hall (Hok' Hok)), firstn_all.
  apply in_or_app. left. unfold calls_for. apply -> in_rev.
  apply in_map_iff. exists (floor_hour t). split; [reflexivity|].
  now apply date_range_covers.
Qed.

Lemma every_hour_witness :
  In (partition_path "noaa-goes16" "ABI-L2-MCMIPC"
        (floor_hour (Sample.H18 + 5 * Sample.MINUTE)), true)
     (ls_log (snd (_goes_file_df Sample.fs "noaa-goes16" "ABI-L2-MCMIPC"
                     (Sample.at_1802 - HOUR) (Sample.at_1802 + HOUR) None true
                     (Sample.at_time 0)))).
Proof.
  apply (every_hour_of_the_window_is_listed Sample.fs "noaa-goes16"
           "ABI-L2-MCMIPC" (Sample.at_1802 - HOUR) (Sample.at_1802 + HOUR)
           None true (Sample.at_time 0) (Sample.H18 + 5 * Sample.MINUTE)).
  - vm_compute. split; discriminate.
  - vm_compute. discriminate.
Defined.

(** ** Where the records come from *)

Lemma list_files_In fs satellite product refresh DATES files w out f :
  fst (list_files fs satellite product refresh DATES files w) = Return out ->
  In f out ->
  In f files \/
  exists DATE keys,
    In DATE DATES /\
    fs (partition_path satellite product DATE) refresh = Some keys /\
    In f keys.
Proof.
  revert files w. induction DATES as [|d rest IH]; intros files w.
  - cbn. intros H Hin. inversion H; subst. now left.
  - cbn [list_files]. unfold bind, ls.
    fold (partition_path satellite product d).
    destruct (fs (partition_path satellite product d) refresh) as [keys|] eqn:Hd;
      [|discriminate].
    intros H Hin. destruct (IH _ _ H Hin) as [Hold|[DATE [ks [HD [Hfs Hk]]]]].
    + apply in_app_or in Hold. destruct Hold as [Hold|Hnew]; [now left|].
      right. exists d, keys. repeat split; auto. now left.
    + right. exists DATE, ks. repeat split; auto. now right.
Qed.

Lemma split_file_names_In files named r :
  split_file_names files = Return named -> In r named ->
  In (r_file r) files /\
  r_product_mode r = cell 1 (name_pieces (r_file r)) /\
  r_satellite r = cell 2 (name_pieces (r_file r)) /\
  r_start r = cell 3 (name_pieces (r_file r)) /\
  r_end r = cell 4 (name_pieces (r_file r)) /\
  r_creation r = cell 5 (name_pieces (r_file r)).
Proof.
  unfold split_file_names. destruct (Nat.eqb _ 5); [|discriminate].
  intros H Hin. inversion H; subst.
  apply in_map_iff in Hin. destruct Hin as [f [<- Hf]].
  cbn [r_file r_product_mode r_satellite r_start r_end r_creation].
  repeat split; auto.
Qed.

(** The columns of lines 59 to 69 are added to the rows; the file name and
    the five columns cut from it stay as they were. *)
Lemma abi_columns_In df out r :
  abi_columns df = Return out -> In r out ->
  exists r0, In r0 df /\
    r_file r = r_file r0 /\ r_product_mode r = r_product_mode r0 /\
    r_satellite r = r_satellite r0 /\ r_start r = r_start r0 /\
    r_end r = r_end r0 /\ r_creation r = r_creation r0.
Proof.
  unfold abi_columns.
  destruct (column 1 _) as [c|]; cbn [obind]; [|discriminate].
  destruct (astype_int _) as [mode|]; cbn [obind]; [|discriminate].
  intros H Hin. inversion H; subst. clear H.
  apply in_map_iff in Hin. destruct Hin as [[r1 b] [<- Hin]].
  apply in_combine_l in Hin.
  apply in_map_iff in Hin. destruct Hin as [[r2 m] [<- Hin]].
  apply in_combine_l in Hin.
  apply in_map_iff in Hin. destruct Hin as [r0 [<- Hin]].
  exists r0. repeat split; auto.
Qed.

Lemma to_datetime_row_inv r t :
  to_datetime_row r = Return t ->
  t_row t = r /\
  to_datetime "s" "" (r_start r) = Return (t_start t) /\
  to_datetime "e" "" (r_end r) = Return (t_end t) /\
  to_datetime "c" ".nc" (r_creation r) = Return (t_creation t).
Proof.
  unfold to_datetime_row.
  destruct (to_datetime "s" "" _); cbn [obind]; [|discriminate].
  destruct (to_datetime "e" "" _); cbn [obind]; [|discriminate].
  destruct (to_datetime "c" ".nc" _); cbn [obind]; [|discriminate].
  intros H. inversion H. cbn. auto.
Qed.

Lemma record_of_inv t r :
  record_of t = Some r ->
  rec_file r = r_file (t_row t) /\
  rec_product_mode r = r_product_mode (t_row t) /\
  rec_satellite r = r_satellite (t_row t) /\
  t_start t = Some (rec_start r) /\ t_end t = Some (rec_end r) /\
  rec_creation r = t_creation t /\ rec_band r = r_band (t_row t) /\
  rec_domain r = None.
Proof.
  unfold record_of. destruct (t_start t); [|discriminate].
  destruct (t_end t); [|discriminate].
  intros H. inversion H. cbn. repeat split; reflexivity.
Qed.

(** The row, read from a listed name, from which a record of the frame was
    made. *)
Lemma parse_files_row product start end_ bands files df r :
  parse_files product start end_ bands files = Return df -> In r df ->
  exists row t,
    In (r_file row) files /\
    r_product_mode row = cell 1 (name_pieces (r_file row)) /\
    r_satellite row = cell 2 (name_pieces (r_file row)) /\
    r_start row = cell 3 (name_pieces (r_file row)) /\
    r_end row = cell 4 (name_pieces (r_file row)) /\
    r_creation row = cell 5 (name_pieces (r_file row)) /\
    to_datetime_row row = Return t /\ record_of t = Some r.
Proof.
  intros Hp Hin.
  destruct (parse_files_inv _ _ _ _ _ _ Hp)
    as [named [selected [timed [Hn [Hsel [Ht Hdf]]]]]].
  subst df. apply loc_window_inv in Hin. destruct Hin as [[t [Htin Hrec]] _].
  destruct (Forall2_In_r _ _ _ _ (mapM_Forall2 _ _ _ Ht) Htin)
    as [row [Hrow Hconv]].
  assert (Hsrc : exists r0, In r0 named /\
            r_file row = r_file r0 /\ r_product_mode row = r_product_mode r0 /\
            r_satellite row = r_satellite r0 /\ r_start row = r_start r0 /\
            r_end row = r_end r0 /\ r_creation row = r_creation r0).
  { destruct (PyStr.startswith "ABI" product).
    - destruct Hsel as [parsed [Hp' Hs]]. subst selected.
      assert (Hrow' : In row parsed).
      { destruct bands as [b|]; cbn [filter_bands] in Hrow;
          [apply filter_In in Hrow; tauto | assumption]. }
      eapply abi_columns_In; eauto.
    - subst selected. exists row. repeat split; auto. }
  destruct Hsrc as [r0 [Hr0 [Hf [Hpm [Hsat [Hs [He Hc]]]]]]].
  destruct (split_file_names_In _ _ _ Hn Hr0) as [Hfile [H1 [H2 [H3 [H4 H5]]]]].
  exists row, t. rewrite Hf, Hpm, Hsat, Hs, He, Hc. repeat split; auto.
Qed.

(** X5: every file of the returned frame is an object key that the client
    returned for one of the hourly partitions of the window. *)
Theorem returned_files_were_listed
    fs satellite product start end_ bands refresh w df w' r :
  _goes_file_df fs satellite product start end_ bands refresh w = (Return df, w') ->
  In r (rows df) ->
  exists DATE keys,
    In DATE (date_range (floor_hour start) (floor_hour end_)) /\
    fs (partition_path satellite product DATE) refresh = Some keys /\
    In (rec_file r) keys.
Proof.
  intros Hrun Hin.
  destruct (goes_file_df_inv _ _ _ _ _ _ _ _ _ _ Hrun) as [files [Hl [_ [Hp _]]]].
  destruct (parse_files_row _ _ _ _ _ _ _ Hp Hin)
    as [row [t [Hfile [_ [_ [_ [_ [_ [Hconv Hrec]]]]]]]]].
  destruct (record_of_inv _ _ Hrec) as [Hf _].
  rewrite Hf, (to_datetime_row_row _ _ Hconv).
  assert (Hfst : fst (list_files fs satellite product refresh
                        (date_range (floor_hour start) (floor_hour end_)) [] w)
                 = Return files) by now rewrite Hl.
  destruct (list_files_In _ _ _ _ _ _ _ _ _ Hfst Hfile) as [[]|H].
  exact H.
Qed.

Lemma returned_files_witness :
  exists DATE keys,
    In DATE (date_range (floor_hour Sample.H18) (floor_hour Sample.at_1845)) /\
    Sample.fs (partition_path "noaa-goes16" "ABI-L2-MCMIPC" DATE) true
      = Some keys /\
    In (rec_file Sample.record_1801) keys.
Proof.
  eapply (returned_files_were_listed Sample.fs "noaa-goes16" "ABI-L2-MCMIPC"
            Sample.H18 Sample.at_1845 None true (Sample.at_time 0)).
  - vm_compute. reflexivity.
  - vm_compute. left. reflexivity.
Defined.

(** X6: the columns of a returned record are read from its own file name:
    its product and mode descriptor and its satellite are the second and
    third of the six pieces cut at the last five underscores, and its start,
    end and creation times are the fourth, fifth and sixth pieces read as
    [s], [e] and [c] stamps. *)
Theorem record_is_read_from_its_file_name
    fs satellite product start end_ bands refresh w df w' r :
  _goes_file_df fs satellite product start end_ bands refresh w = (Return df, w') ->
  In r (rows df) ->
  rec_product_mode r = cell 1 (name_pieces (rec_file r)) /\
  rec_satellite r = cell 2 (name_pieces (rec_file r)) /\
  to_datetime "s" "" (cell 3 (name_pieces (rec_file r)))
    = Return (Some (rec_start r)) /\
  to_datetime "e" "" (cell 4 (name_pieces (rec_file r)))
    = Return (Some (rec_end r)) /\
  to_datetime "c" ".nc" (cell 5 (name_pieces (rec_file r)))
    = Return (rec_creation r).
Proof.
  intros Hrun Hin.
  destruct (goes_file_df_inv _ _ _ _ _ _ _ _ _ _ Hrun) as [files [_ [_ [Hp _]]]].
  destruct (parse_files_row _ _ _ _ _ _ _ Hp Hin)
    as [row [t [_ [H1 [H2 [H3 [H4 [H5 [Hconv Hrec]]]]]]]]].
  destruct (to_datetime_row_inv _ _ Hconv) as [Hrow [Hs [He Hc]]].
  destruct (record_of_inv _ _ Hrec)
    as [Hf [Hpm [Hsat [Hts [Hte [Hcr _]]]]]].
  rewrite Hf, Hpm, Hsat, Hcr, Hrow, <- H1, <- H2, <- H3, <- H4, <- H5.
  rewrite Hs, He, Hc, Hts, Hte. repeat split; reflexivity.
Qed.

Lemma record_is_read_witness :
  rec_product_mode Sample.record_1801
    = cell 1 (name_pieces (rec_file Sample.record_1801)) /\
  rec_satellite Sample.record_1801
    = cell 2 (name_pieces (rec_file Sample.record_1801)) /\
  to_datetime "s" "" (cell 3 (name_pieces (rec_file Sample.record_1801)))
    = Return (Some (rec_start Sample.record_1801)) /\
  to_datetime "e" "" (cell 4 (name_pieces (rec_file Sample.record_1801)))
    = Return (Some (rec_end Sample.record_1801)) /\
  to_datetime "c" ".nc" (cell 5 (name_pieces (rec_file Sample.record_1801)))
    = Return (rec_creation Sample.record_1801).
Proof.
  eapply (record_is_read_from_its_file_name Sample.fs "noaa-goes16"
            "ABI-L2-MCMIPC" Sample.H18 Sample.at_1845 None true
            (Sample.at_time 0)).
  - vm_compute. reflexivity.
  - vm_compute. left. reflexivity.
Defined.

(** ** The band of a record and the channel number of its file name *)

Lemma cell_none_iff i l : cell i (Some l) = None <-> (List.length l <= i)%nat.
Proof. cbn [cell]. apply nth_error_None. Qed.

Lemma mapM_values {A} (f : A -> outcome Z) l ys :
  mapM f l = Return ys ->
  ys = map (fun x => value_of (f x)) l /\
  forall x, In x l -> f x = Return (value_of (f x)).
Proof.
  intros H. apply mapM_Forall2 in H.
  induction H as [|x y l ys Hxy _ [IH1 IH2]].
  - split; [reflexivity|intros x []].
  - split.
    + cbn [map]. rewrite Hxy. cbn [value_of]. now f_equal.
    + intros x0 [<-|Hin]; [now rewrite Hxy|now apply IH2].
Qed.

Lemma combine_map_map {A B C} (f : A -> B) (g : A -> C) l :
  combine (map f l) (map g l) = map (fun x => (f x, g x)) l.
Proof. induction l as [|x l IH]; cbn [map combine]; [reflexivity|now f_equal]. Qed.

Lemma abi_columns_unfold df :
  abi_columns df
  = obind (column 1 (map product_mode_parts df)) (fun _ =>
    obind (mapM int_cell (map mode_cell df)) (fun mode =>
    Return
      (map (fun rb => set_band (fst rb) (snd rb))
         (combine
            (map (fun rm => set_mode (fst rm) (snd rm))
               (combine (map with_product_mode_parts df) mode))
            (try_except
               (obind (column 1 (map (fun r => mode_bands_parts
                                                 (with_product_mode_parts r)) df))
                  (fun c => obind (mapM int_cell c)
                              (fun b => Return (map Some b))))
               (map (fun _ => None)
                  (map (fun rm => set_mode (fst rm) (snd rm))
                     (combine (map with_product_mode_parts df) mode)))))))).
Proof. unfold abi_columns, astype_int. cbv zeta. rewrite !map_map. reflexivity. Qed.

Lemma column_cells i f c : column i f = Return c -> c = map (cell i) f.
Proof. unfold column. destruct (Nat.ltb i (width f)); congruence. Qed.

Lemma width_one (f : expanded) row :
  (width f <= 1)%nat -> In row f -> cell 1 row = None.
Proof.
  unfold width. induction f as [|x f IH]; intros Hw [].
  - subst x. cbn [map fold_right] in Hw. destruct row as [l|]; [|reflexivity].
    apply cell_none_iff. lia.
  - apply IH; [|assumption]. cbn [map fold_right] in Hw. lia.
Qed.

Lemma column_raises i f e : column i f = Raise e -> (width f <= i)%nat.
Proof.
  unfold column. destruct (Nat.ltb_spec i (width f)); [discriminate|auto].
Qed.

Lemma abi_columns_rows df out :
  abi_columns df = Return out ->
  ((exists r e, In r df /\ int_cell (band_cell r) = Raise e) /\
   out = map (fun r => set_band (with_mode r) None) df)
  \/
  ((forall r, In r df ->
      int_cell (band_cell r) = Return (value_of (int_cell (band_cell r)))) /\
   out = map (fun r => set_band (with_mode r)
                         (Some (value_of (int_cell (band_cell r))))) df).
Proof.
  rewrite abi_columns_unfold.
  destruct df as [|r0 df0]; [discriminate|].
  set (df := r0 :: df0). assert (Hr0 : In r0 df) by now left.
  clearbody df.
  destruct (column 1 (map product_mode_parts df)); cbn [obind]; [|discriminate].
  destruct (mapM int_cell (map mode_cell df)) as [mode|] eqn:Hm; cbn [obind];
    [|discriminate].
  apply mapM_values in Hm. destruct Hm as [-> _].
  rewrite (map_map mode_cell), combine_map_map, !map_map.
  cbn [fst snd]. fold with_mode.
  intros H. inversion H; subst out; clear H.
  destruct (column 1 _) as [c|e] eqn:Hc; cbn [obind try_except].
  - apply column_cells in Hc. rewrite map_map in Hc.
    change (fun x => cell 1 (mode_bands_parts (with_product_mode_parts x)))
      with band_cell in Hc.
    destruct (mapM int_cell c) as [bs|e] eqn:Hb; cbn [obind try_except].
    + right. apply mapM_values in Hb. destruct Hb as [-> Hall]. subst c.
      split.
      * intros r Hr. apply Hall. now apply in_map.
      * rewrite !map_map, combine_map_map, map_map. reflexivity.
    + left. apply mapM_Raise in Hb. destruct Hb as [x [Hx He]]. subst c.
      apply in_map_iff in Hx. destruct Hx as [r [<- Hr]]. split.
      * exists r, e. auto.
      * rewrite combine_map_map, map_map. reflexivity.
  - left. apply column_raises in Hc. split.
    + exists r0, (ValueError IntLiteral). split; [assumption|].
      unfold band_cell.
      rewrite (width_one _ (mode_bands_parts (with_product_mode_parts r0)) Hc);
        [reflexivity|].
      apply (in_map (fun r => mode_bands_parts (with_product_mode_parts r))).
      assumption.
    + rewrite combine_map_map, map_map. reflexivity.
Qed.

Lemma split_file_names_In_l files named f :
  split_file_names files = Return named -> In f files ->
  exists r, In r named /\ r_file r = f /\
    r_product_mode r = cell 1 (name_pieces f) /\
    r_start r = cell 3 (name_pieces f) /\
    r_end r = cell 4 (name_pieces f).
Proof.
  unfold split_file_names. destruct (Nat.eqb _ 5); [|discriminate].
  intros H Hin. inversion H; subst.
  eexists. split; [apply in_map; exact Hin|].
  cbn [r_file r_product_mode r_start r_end]. repeat split.
Qed.

Lemma band_cell_of_name r :
  r_product_mode r = cell 1 (name_pieces (r_file r)) ->
  int_cell (band_cell r) = band_of_name (r_file r).
Proof.
  intros H.
  unfold band_cell, mode_bands_parts, with_product_mode_parts,
    product_mode_parts, band_of_name, name_mode_bands.
  cbn [r_mode_bands set_product_mode_parts]. now rewrite H.
Qed.

(** The band column of an [ABI] product after lines 59 to 69: empty when
    the channel number of one listed name cannot be read, and otherwise
    the channel numbers of the names. *)
Lemma abi_columns_of_names files named parsed :
  split_file_names files = Return named ->
  abi_columns named = Return parsed ->
  ((exists f e, In f files /\ band_of_name f = Raise e) /\
   parsed = map (fun r => set_band (with_mode r) None) named)
  \/
  ((forall f, In f files -> band_of_name f = Return (value_of (band_of_name f))) /\
   parsed = map (fun r => set_band (with_mode r)
                            (Some (value_of (band_of_name (r_file r))))) named).
Proof.
  intros Hn Ha.
  destruct (abi_columns_rows _ _ Ha) as [[[r [e [Hr He]]] Hp]|[Hall Hp]].
  - left. split; [|exact Hp].
    destruct (split_file_names_In _ _ _ Hn Hr) as [Hf [Hpm _]].
    exists (r_file r), e. split; [assumption|].
    now rewrite <- (band_cell_of_name _ Hpm).
  - right. split.
    + intros f Hf.
      destruct (split_file_names_In_l _ _ _ Hn Hf) as [r [Hr [<- [Hpm _]]]].
      rewrite <- (band_cell_of_name r Hpm). now apply Hall.
    + rewrite Hp. apply map_ext_in. intros r Hr.
      destruct (split_file_names_In _ _ _ Hn Hr) as [_ [Hpm _]].
      now rewrite (band_cell_of_name _ Hpm).
Qed.

Lemma parse_files_abi product start end_ bands files df :
  PyStr.startswith "ABI" product = true ->
  parse_files product start end_ bands files = Return df ->
  exists named parsed timed,
    split_file_names files = Return named /\
    abi_columns named = Return parsed /\
    mapM to_datetime_row (filter_bands bands parsed) = Return timed /\
    df = loc_window start end_ timed.
Proof.
  intros Habi Hp.
  destruct (parse_files_inv _ _ _ _ _ _ Hp)
    as [named [selected [timed [Hn [Hsel [Ht Hdf]]]]]].
  rewrite Habi in Hsel. destruct Hsel as [parsed [Ha ->]].
  exists named, parsed, timed. auto.
Qed.

Lemma filter_bands_In bands parsed row :
  In row (filter_bands bands parsed) -> In row parsed.
Proof.
  destruct bands as [b|]; cbn [filter_bands]; [|auto].
  intros H. apply filter_In in H. tauto.
Qed.

(** The band of a returned record of an [ABI] product: no record has one
    when the channel number of one listed name cannot be read; otherwise
    every record has the channel number of its file name. *)
Lemma parse_files_band_column product start end_ bands files df :
  PyStr.startswith "ABI" product = true ->
  parse_files product start end_ bands files = Return df ->
  ((exists f e, In f files /\ band_of_name f = Raise e) /\
   forall r, In r df -> rec_band r = None)
  \/
  ((forall f, In f files -> exists b, band_of_name f = Return b) /\
   forall r, In r df ->
     exists b, rec_band r = Some b /\ band_of_name (rec_file r) = Return b).
Proof.
  intros Habi Hp.
  destruct (parse_files_abi _ _ _ _ _ _ Habi Hp)
    as [named [parsed [timed [Hn [Ha [Ht Hdf]]]]]].
  assert (Hrow : forall r, In r df ->
            exists row, In row parsed /\ rec_band r = r_band row /\
                        rec_file r = r_file row).
  { intros r Hin. subst df. apply loc_window_inv in Hin.
    destruct Hin as [[t [Htin Hrec]] _].
    destruct (Forall2_In_r _ _ _ _ (mapM_Forall2 _ _ _ Ht) Htin)
      as [row [Hrow Hconv]].
    apply filter_bands_In in Hrow.
    destruct (record_of_inv _ _ Hrec) as [Hf [_ [_ [_ [_ [_ [Hb _]]]]]]].
    rewrite (to_datetime_row_row _ _ Hconv) in Hf, Hb.
    exists row. auto. }
  destruct (abi_columns_of_names _ _ _ Hn Ha) as [[Hbad Hparsed]|[Hall Hparsed]].
  - left. split; [exact Hbad|]. intros r Hin.
    destruct (Hrow r Hin) as [row [Hin' [-> _]]].
    rewrite Hparsed in Hin'. apply in_map_iff in Hin'.
    destruct Hin' as [r0 [<- _]]. reflexivity.
  - right. split.
    + intros f Hf. eexists. now apply Hall.
    + intros r Hin.
      destruct (Hrow r Hin) as [row [Hin' [-> ->]]].
      rewrite Hparsed in Hin'. apply in_map_iff in Hin'.
      destruct Hin' as [r0 [<- Hr0]].
      cbn [r_band r_file set_band with_mode set_mode with_product_mode_parts
             set_product_mode_parts].
      eexists. split; [reflexivity|]. apply Hall.
      now destruct (split_file_names_In _ _ _ Hn Hr0).
Qed.



(** ** The band filter (C9) *)



(** On the sample bucket, whose partition of 18:00 holds a file of channel
    13 and a file of channel 2: the filter [[13]] keeps the first and
    discards the second; beside a name without a channel number it keeps
    nothing. *)
Example band_filter_on_listing :
  fst (list_files Sample.fs "noaa-goes16" "ABI-L1b-RadC" true
         (date_range (floor_hour Sample.H18) (floor_hour Sample.at_1845)) []
         (Sample.at_time 0))
  = Return [Sample.rad_c13; Sample.rad_c02] /\
  band_of_name Sample.rad_c13 = Return 13 /\
  band_of_name Sample.rad_c02 = Return 2 /\
  map (fun r => (rec_file r, rec_band r))
    (rows (frame_of (fst (_goes_file_df Sample.fs "noaa-goes16" "ABI-L1b-RadC"
                            Sample.H18 Sample.at_1845 (Some (BandList [13]))
                            true (Sample.at_time 0)))))
  = [(Sample.rad_c13, Some 13)] /\
  band_of_name Sample.rad_no_channel = Raise (ValueError IntLiteral) /\
  _goes_file_df Sample.fs_mixed "noaa-goes16" "ABI-L1b-RadC" Sample.H18
    Sample.at_1845 (Some (BandList [13])) true (Sample.at_time 0)
  = (Return (mkDataFrame []
               (goes_file_df_params "noaa-goes16" "ABI-L1b-RadC" Sample.H18
                  Sample.at_1845 (Some (BandList [13])) true)),
     mkWorld 0 [("noaa-goes16/ABI-L1b-RadC/2019/172/18/", true)] []).
Proof. repeat split; vm_compute; reflexivity. Qed.

(** ** The band column *)

(** X7: the band column is filled for all rows or for none: in a returned
    frame either every record has a band number or no record has one.  For
    a product whose name starts with [ABI] it is empty exactly when the
    channel number of one listed name cannot be read (one such name leaves
    the whole column empty, as the [except] branch of lines 67 to 69 does);
    otherwise every record has the channel number of its file name. *)
Theorem band_column_is_all_or_nothing
    fs satellite product start end_ bands refresh w df w' :
  _goes_file_df fs satellite product start end_ bands refresh w = (Return df, w') ->
  ((forall r, In r (rows df) -> rec_band r = None) \/
   (forall r, In r (rows df) -> exists b, rec_band r = Some b)) /\
  (PyStr.startswith "ABI" product = true ->
   forall files,
     fst (list_files fs satellite product refresh
            (date_range (floor_hour start) (floor_hour end_)) [] w)
       = Return files ->
     ((exists f e, In f files /\ band_of_name f = Raise e) /\
      forall r, In r (rows df) -> rec_band r = None)
     \/
     ((forall f, In f files -> exists b, band_of_name f = Return b) /\
      forall r, In r (rows df) ->
        exists b, rec_band r = Some b /\ band_of_name (rec_file r) = Return b)).
Proof.
  intros Hrun.
  destruct (goes_file_df_inv _ _ _ _ _ _ _ _ _ _ Hrun)
    as [files [Hl [_ [Hp _]]]].
  split.
  - destruct (PyStr.startswith "ABI" product) eqn:Habi.
    + destruct (parse_files_band_column _ _ _ _ _ _ Habi Hp)
        as [[_ Hnone]|[_ Hsome]]; [left; exact Hnone|right].
      intros r Hin. destruct (Hsome r Hin) as [b [Hb _]]. now exists b.
    + left. intros r Hin.
      destruct (parse_files_inv _ _ _ _ _ _ Hp)
        as [named [selected [timed [Hn [Hsel [Ht Hdf]]]]]].
      rewrite Habi in Hsel. subst selected.
      rewrite Hdf in Hin. apply loc_window_inv in Hin.
      destruct Hin as [[t [Htin Hrec]] _].
      destruct (Forall2_In_r _ _ _ _ (mapM_Forall2 _ _ _ Ht) Htin)
        as [row [Hrow Hconv]].
      rewrite (record_of_band _ _ Hrec), (to_datetime_row_row _ _ Hconv).
      eapply split_file_names_band; eauto.
  - intros Habi files' Hl'. rewrite Hl in Hl'. cbn [fst] in Hl'.
    inversion Hl'; subst files'.
    exact (parse_files_band_column _ _ _ _ _ _ Habi Hp).
Qed.

Lemma band_column_witness :
  ((forall r,
      In r (rows (frame_of (fst (_goes_file_df Sample.fs_mixed "noaa-goes16"
                                   "ABI-L1b-RadC" Sample.H18 Sample.at_1845
                                   None true (Sample.at_time 0))))) ->
      rec_band r = None) \/
   (forall r,
      In r (rows (frame_of (fst (_goes_file_df Sample.fs_mixed "noaa-goes16"
                                   "ABI-L1b-RadC" Sample.H18 Sample.at_1845
                                   None true (Sample.at_time 0))))) ->
      exists b, rec_band r = Some b)) /\
  (PyStr.startswith "ABI" "ABI-L1b-RadC" = true ->
   forall files,
     fst (list_files Sample.fs_mixed "noaa-goes16" "ABI-L1b-RadC" true
            (date_range (floor_hour Sample.H18) (floor_hour Sample.at_1845)) []
            (Sample.at_time 0))
       = Return files ->
     ((exists f e, In f files /\ band_of_name f = Raise e) /\
      forall r,
        In r (rows (frame_of (fst (_goes_file_df Sample.fs_mixed "noaa-goes16"
                                     "ABI-L1b-RadC" Sample.H18 Sample.at_1845
                                     None true (Sample.at_time 0))))) ->
        rec_band r = None)
     \/
     ((forall f, In f files -> exists b, band_of_name f = Return b) /\
      forall r,
        In r (rows (frame_of (fst (_goes_file_df Sample.fs_mixed "noaa-goes16"
                                     "ABI-L1b-RadC" Sample.H18 Sample.at_1845
                                     None true (Sample.at_time 0))))) ->
        exists b, rec_band r = Some b /\ band_of_name (rec_file r) = Return b)).
Proof.
  apply (band_column_is_all_or_nothing Sample.fs_mixed "noaa-goes16"
           "ABI-L1b-RadC" Sample.H18 Sample.at_1845 None true
           (Sample.at_time 0)
           (frame_of (fst (_goes_file_df Sample.fs_mixed "noaa-goes16"
                             "ABI-L1b-RadC" Sample.H18 Sample.at_1845 None true
                             (Sample.at_time 0))))
           (snd (_goes_file_df Sample.fs_mixed "noaa-goes16" "ABI-L1b-RadC"
                   Sample.H18 Sample.at_1845 None true (Sample.at_time 0)))).
  vm_compute. reflexivity.
Defined.

(** The listing of [rad_c13] beside a name without a channel number gives
    two records, and neither has a band number. *)
Example band_column_of_a_mixed_listing :
  band_of_name Sample.rad_c13 = Return 13 /\
  band_of_name Sample.rad_no_channel = Raise (ValueError IntLiteral) /\
  map (fun r => (rec_file r, rec_band r))
    (rows (frame_of (fst (_goes_file_df Sample.fs_mixed "noaa-goes16"
                            "ABI-L1b-RadC" Sample.H18 Sample.at_1845 None true
                            (Sample.at_time 0)))))
  = [(Sample.rad_c13, None); (Sample.rad_no_channel, None)].
Proof. repeat split; vm_compute; reflexivity. Qed.

(** X8: for a product whose name does not start with [ABI] the argument
    [bands] is not used: with any two values of it the calls of the client,
    the exception raised and the rows returned are the same, and the frames
    differ at most in the entry [bands] of [attrs]. *)
Theorem bands_are_ignored_unless_ABI
    fs satellite product start end_ bands1 bands2 refresh w :
  PyStr.startswith "ABI" product = false ->
  snd (_goes_file_df fs satellite product start end_ bands1 refresh w)
  = snd (_goes_file_df fs satellite product start end_ bands2 refresh w) /\
  same_outcome same_but_bands
    (fst (_goes_file_df fs satellite product start end_ bands1 refresh w))
    (fst (_goes_file_df fs satellite product start end_ bands2 refresh w)).
Proof.
  intros Habi. rewrite !goes_file_df_unfold.
  destruct (list_files _ _ _ _ _ _ w) as [[files|e] w'];
    cbn [fst snd same_outcome]; [|auto].
  destruct (is_empty files); cbn [fst snd same_outcome]; [auto|].
  assert (Hsame : parse_files product start end_ bands1 files
                  = parse_files product start end_ bands2 files).
  { unfold parse_files. now rewrite Habi. }
  rewrite Hsame. clear Hsame.
  destruct (parse_files product start end_ bands2 files) as [df|e];
    cbn [fst snd same_outcome]; [|auto].
  split; [reflexivity|]. split; [reflexivity|]. cbn [attrs].
  intros k Hk. now apply goes_file_df_params_but_bands.
Qed.

Lemma bands_are_ignored_witness :
  snd (_goes_file_df Sample.fs "noaa-goes16" "GLM-L2-LCFA" Sample.H18
         Sample.at_1845 (Some (BandList [13])) true (Sample.at_time 0))
  = snd (_goes_file_df Sample.fs "noaa-goes16" "GLM-L2-LCFA" Sample.H18
           Sample.at_1845 None true (Sample.at_time 0)) /\
  same_outcome same_but_bands
    (fst (_goes_file_df Sample.fs "noaa-goes16" "GLM-L2-LCFA" Sample.H18
            Sample.at_1845 (Some (BandList [13])) true (Sample.at_time 0)))
    (fst (_goes_file_df Sample.fs "noaa-goes16" "GLM-L2-LCFA" Sample.H18
            Sample.at_1845 None true (Sample.at_time 0))).
Proof.
  apply (bands_are_ignored_unless_ABI Sample.fs "noaa-goes16" "GLM-L2-LCFA"
           Sample.H18 Sample.at_1845 (Some (BandList [13])) None true
           (Sample.at_time 0)).
  reflexivity.
Defined.

(** ** Names that cannot be read *)

Lemma split_length sep n s : (List.length (PyStr.split sep n s) <= S n)%nat.
Proof.
  revert n. induction s as [|c s IH]; intros n; cbn [PyStr.split].
  - cbn. lia.
  - destruct (Ascii.eqb c sep).
    + destruct n as [|n']; cbn [List.length]; [lia|].
      specialize (IH n'). lia.
    + specialize (IH n). destruct (PyStr.split sep n s); cbn [List.length] in *; lia.
Qed.

Lemma rsplit_length sep n s : (List.length (PyStr.rsplit sep n s) <= S n)%nat.
Proof.
  unfold PyStr.rsplit. rewrite length_rev, length_map. apply split_length.
Qed.

(** The frame of line 54 has six columns exactly when some name has a sixth
    piece. *)
Lemma width_of_names files :
  (width (map (fun f => Some (PyStr.rsplit "_" 5 f)) files) <= 6)%nat /\
  (width (map (fun f => Some (PyStr.rsplit "_" 5 f)) files) = 6%nat <->
   exists f, In f files /\ cell 5 (name_pieces f) <> None).
Proof.
  unfold width, name_pieces. induction files as [|f files [IHle IHeq]].
  - cbn. split; [lia|]. split; [discriminate | intros [f [[] _]]].
  - cbn [map fold_right].
    pose proof (rsplit_length "_" 5 f) as Hf.
    split; [lia|]. split.
    + intros H.
      destruct (Nat.eq_dec (List.length (PyStr.rsplit "_" 5 f)) 6) as [H6|H6].
      * exists f. split; [now left|]. rewrite cell_none_iff. lia.
      * assert (Hw : fold_right Nat.max 1%nat
                       (map (fun row : option (list string) =>
                               match row with
                               | Some l => List.length l
                               | None => 0%nat
                               end)
                            (map (fun f0 => Some (PyStr.rsplit "_" 5 f0)) files))
                     = 6%nat) by lia.
        apply IHeq in Hw. destruct Hw as [g [Hg Hc]].
        exists g. split; [now right | assumption].
    + intros [g [[->|Hg] Hc]].
      * rewrite cell_none_iff in Hc. lia.
      * assert (Hw : fold_right Nat.max 1%nat
                       (map (fun row : option (list string) =>
                               match row with
                               | Some l => List.length l
                               | None => 0%nat
                               end)
                            (map (fun f0 => Some (PyStr.rsplit "_" 5 f0)) files))
                     = 6%nat).
        { apply IHeq. exists g. auto. }
        lia.
Qed.

Lemma split_file_names_short files :
  (forall f, In f files -> cell 5 (name_pieces f) = None) ->
  split_file_names files = Raise (ValueError ColumnsLength).
Proof.
  intros H. unfold split_file_names.
  destruct (width_of_names files) as [Hle Heq].
  destruct (Nat.eqb_spec
              (width (map (fun f => Some (PyStr.rsplit "_" 5 f)) files) - 1) 5)
    as [H5|H5]; [|reflexivity].
  exfalso. assert (H6 : width (map (fun f => Some (PyStr.rsplit "_" 5 f)) files)
                        = 6%nat) by lia.
  apply Heq in H6. destruct H6 as [f [Hf Hc]]. apply Hc. now apply H.
Qed.

Lemma split_file_names_long files f :
  In f files -> cell 5 (name_pieces f) <> None ->
  exists named,
    split_file_names files = Return named /\
    exists row, In row named /\ r_file row = f /\
      r_start row = cell 3 (name_pieces f) /\
      r_end row = cell 4 (name_pieces f) /\
      r_creation row = cell 5 (name_pieces f).
Proof.
  intros Hf Hc. unfold split_file_names.
  destruct (width_of_names files) as [Hle Heq].
  assert (H6 : width (map (fun f => Some (PyStr.rsplit "_" 5 f)) files) = 6%nat).
  { apply Heq. exists f. auto. }
  rewrite H6. cbn [Nat.sub Nat.eqb]. eexists. split; [reflexivity|].
  eexists. split; [apply in_map; exact Hf|]. repeat split.
Qed.

(** X9: when objects are listed but no key has five underscores, the five
    columns of lines 53 to 55 cannot be assigned and [_goes_file_df] raises a
    [ValueError]; it does not return an empty frame. *)
Theorem names_without_five_underscores_raise
    fs satellite product start end_ bands refresh w files :
  fst (list_files fs satellite product refresh
         (date_range (floor_hour start) (floor_hour end_)) [] w) = Return files ->
  files <> [] ->
  (forall f, In f files -> cell 5 (name_pieces f) = None) ->
  fst (_goes_file_df fs satellite product start end_ bands refresh w)
  = Raise (ValueError ColumnsLength).
Proof.
  intros Hl Hne Hshort. rewrite goes_file_df_unfold.
  destruct (list_files _ _ _ _ _ _ w) as [[files'|e] w']; cbn [fst] in Hl;
    [|discriminate].
  inversion Hl; subst files'.
  destruct files as [|f files]; [congruence|]. cbn [is_empty].
  unfold parse_files. rewrite (split_file_names_short _ Hshort). reflexivity.
Qed.

Lemma names_without_five_underscores_witness :
  fst (_goes_file_df (fun _ _ => Some ["noaa-goes16/X/2019/172/18/index.html"])
         "noaa-goes16" "X" Sample.H18 Sample.at_1845 None true (Sample.at_time 0))
  = Raise (ValueError ColumnsLength).
Proof.
  apply (names_without_five_underscores_raise
           (fun _ _ => Some ["noaa-goes16/X/2019/172/18/index.html"])
           "noaa-goes16" "X" Sample.H18 Sample.at_1845 None true
           (Sample.at_time 0) ["noaa-goes16/X/2019/172/18/index.html"]).
  - reflexivity.
  - discriminate.
  - intros f [<-|[]]. reflexivity.
Defined.

Lemma mapM_raises_if {A B} (f : A -> outcome B) l x e :
  In x l -> f x = Raise e -> exists e', mapM f l = Raise e'.
Proof.
  induction l as [|y l IH]; intros Hin Hx; [destruct Hin|].
  cbn [mapM]. destruct (f y) as [b|e0] eqn:Hy; cbn [obind].
  - destruct Hin as [->|Hin]; [congruence|].
    destruct (IH Hin Hx) as [e' He']. rewrite He'. cbn [obind]. eauto.
  - eauto.
Qed.

Lemma to_datetime_row_raises_if r :
  (exists e, to_datetime "s" "" (r_start r) = Raise e) \/
  (exists e, to_datetime "e" "" (r_end r) = Raise e) \/
  (exists e, to_datetime "c" ".nc" (r_creation r) = Raise e) ->
  to_datetime_row r = Raise (ValueError TimeData).
Proof.
  intros H.
  destruct (to_datetime_row r) as [t|e] eqn:Hr.
  - exfalso. destruct (to_datetime_row_inv _ _ Hr) as [_ [Hs [He Hc]]].
    destruct H as [[e0 H]|[[e0 H]|[e0 H]]]; congruence.
  - f_equal. eapply to_datetime_row_raises; eauto.
Qed.

(** X10: for a product whose name does not start with [ABI], one listed name
    with six pieces of which a time stamp cannot be read makes
    [_goes_file_df] raise the [ValueError] of [to_datetime], whatever the
    window and the other names: the stamps of all rows are converted before
    the window is applied. *)
Theorem unreadable_stamp_raises
    fs satellite product start end_ bands refresh w files f :
  PyStr.startswith "ABI" product = false ->
  fst (list_files fs satellite product refresh
         (date_range (floor_hour start) (floor_hour end_)) [] w) = Return files ->
  In f files ->
  cell 5 (name_pieces f) <> None ->
  (exists e, to_datetime "s" "" (cell 3 (name_pieces f)) = Raise e) \/
  (exists e, to_datetime "e" "" (cell 4 (name_pieces f)) = Raise e) \/
  (exists e, to_datetime "c" ".nc" (cell 5 (name_pieces f)) = Raise e) ->
  fst (_goes_file_df fs satellite product start end_ bands refresh w)
  = Raise (ValueError TimeData).
Proof.
  intros Habi Hl Hf Hsix Hbad. rewrite goes_file_df_unfold.
  destruct (list_files _ _ _ _ _ _ w) as [[files'|e] w']; cbn [fst] in Hl;
    [|discriminate].
  inversion Hl; subst files'.
  destruct files as [|f0 files]; [destruct Hf|]. cbn [is_empty].
  destruct (split_file_names_long _ _ Hf Hsix)
    as [named [Hn [row [Hrow [Hfile [Hs [He Hc]]]]]]].
  unfold parse_files. rewrite Hn, Habi. cbn [obind].
  assert (Hr : to_datetime_row row = Raise (ValueError TimeData)).
  { apply to_datetime_row_raises_if. now rewrite Hs, He, Hc. }
  destruct (mapM_raises_if _ _ _ _ Hrow Hr) as [e' He'].
  rewrite He'. cbn [obind fst].
  apply mapM_Raise in He'. destruct He' as [x [_ Hx]].
  apply to_datetime_row_raises in Hx. now subst.
Qed.

Lemma unreadable_stamp_witness :
  fst (_goes_file_df
         (fun _ _ => Some [Sample.backwards; "a/OR_GLM-L2-LCFA_G16_sX_eY_cZ.nc"])
         "noaa-goes16" "GLM-L2-LCFA" Sample.H18 Sample.at_1845 None true
         (Sample.at_time 0))
  = Raise (ValueError TimeData).
Proof.
  apply (unreadable_stamp_raises
           (fun _ _ => Some [Sample.backwards; "a/OR_GLM-L2-LCFA_G16_sX_eY_cZ.nc"])
           "noaa-goes16" "GLM-L2-LCFA" Sample.H18 Sample.at_1845 None true
           (Sample.at_time 0)
           [Sample.backwards; "a/OR_GLM-L2-LCFA_G16_sX_eY_cZ.nc"]
           "a/OR_GLM-L2-LCFA_G16_sX_eY_cZ.nc").
  - reflexivity.
  - reflexivity.
  - right. left. reflexivity.
  - vm_compute. discriminate.
  - left. exists (ValueError TimeData). reflexivity.
Defined.

(* ================================================================== *)
(** ** The empty-result error (C1) *)

Lemma parse_files_in_window product start end_ bands files df r :
  parse_files product start end_ bands files = Return df -> In r df ->
  In (rec_file r) files /\ name_in_window start end_ (rec_file r).
Proof.
  intros Hp Hin.
  destruct (parse_files_row _ _ _ _ _ _ _ Hp Hin)
    as [row [t [Hfile [_ [_ [Hs [He [_ [Hconv Hrec]]]]]]]]].
  destruct (to_datetime_row_inv _ _ Hconv) as [Hrow [Hts [Hte _]]].
  destruct (record_of_inv _ _ Hrec) as [Hf [_ [_ [Hst [Hen _]]]]].
  rewrite Hrow in Hf. rewrite Hf. split; [assumption|].
  destruct (parse_files_inv _ _ _ _ _ _ Hp)
    as [named [selected [timed [_ [_ [_ Hdf]]]]]].
  rewrite Hdf in Hin. apply loc_window_inv in Hin. destruct Hin as [_ [Hlo Hhi]].
  exists (rec_start r), (rec_end r).
  rewrite <- Hs, <- He, Hts, Hte, Hst, Hen. auto.
Qed.

(** C1, as the code has it: [_goes_file_df] raises the empty-result error
    exactly when the listings of the hourly partitions all return and hold
    no object at all.  When objects are listed the call either returns a
    frame, whose records are of listed names that have their start and end
    stamps in the window, or fails with the exception of a name that cannot
    be read; so that, when objects are listed but none of them lies in the
    window, the empty-result error is not raised: the call returns a frame
    without rows, or fails on a name that cannot be read. *)
Theorem empty_result_error_exactly_for_an_empty_listing
    fs satellite product start end_ bands refresh w :
  (fst (_goes_file_df fs satellite product start end_ bands refresh w)
     = Raise (ValueError NoFilesFound)
   <->
   fst (list_files fs satellite product refresh
          (date_range (floor_hour start) (floor_hour end_)) [] w) = Return [])
  /\
  (forall files,
     fst (list_files fs satellite product refresh
            (date_range (floor_hour start) (floor_hour end_)) [] w)
       = Return files ->
     files <> [] ->
     ((exists df,
         fst (_goes_file_df fs satellite product start end_ bands refresh w)
           = Return df /\
         forall r, In r (rows df) ->
           In (rec_file r) files /\ name_in_window start end_ (rec_file r))
      \/
      (exists e,
         fst (_goes_file_df fs satellite product start end_ bands refresh w)
           = Raise e /\ reading_error e))
     /\
     ((forall f, In f files -> ~ name_in_window start end_ f) ->
      (exists df,
         fst (_goes_file_df fs satellite product start end_ bands refresh w)
           = Return df /\ rows df = [])
      \/
      (exists e,
         fst (_goes_file_df fs satellite product start end_ bands refresh w)
           = Raise e /\ reading_error e))).
Proof.
  rewrite goes_file_df_unfold.
  destruct (list_files _ _ _ _ _ _ w) as [[files|e] w'] eqn:Hl; cbn [fst].
  - destruct files as [|f files]; cbn [is_empty fst].
    + split; [tauto|]. intros files H. inversion H. congruence.
    + destruct (parse_files product start end_ bands (f :: files)) as [df|e]
        eqn:Hp; cbn [fst].
      * split; [split; discriminate|].
        intros files' H _. inversion H; subst files'. clear H. split.
        -- left. eexists. split; [reflexivity|]. cbn [rows].
           intros r Hin. exact (parse_files_in_window _ _ _ _ _ _ _ Hp Hin).
        -- intros Hout. left. eexists. split; [reflexivity|]. cbn [rows].
           destruct df as [|r df]; [reflexivity|exfalso].
           destruct (parse_files_in_window _ _ _ _ _ _ r Hp (or_introl eq_refl))
             as [Hfile Hwin].
           exact (Hout _ Hfile Hwin).
      * pose proof (parse_files_raises _ _ _ _ _ _ Hp) as He.
        assert (Hr : reading_error e).
        { unfold reading_error.
          destruct He as [He|[He|[He|[He|He]]]]; subst e; tauto. }
        split.
        -- split; [|discriminate]. intros H. inversion H; subst e.
           destruct He as [He|[He|[He|[He|He]]]]; discriminate.
        -- intros files' _ _. split; [|intros _]; right; exists e; auto.
  - split.
    + split; [|discriminate]. intros H. inversion H; subst.
      assert (He : fst (list_files fs satellite product refresh
                          (date_range (floor_hour start) (floor_hour end_)) [] w)
                   = Raise (ValueError NoFilesFound)) by now rewrite Hl.
      apply list_files_raises in He. discriminate.
    + intros files H. discriminate.
Qed.

Lemma empty_result_error_witness :
  (exists df,
      fst (_goes_file_df Sample.fs "noaa-goes16" "ABI-L2-MCMIPC"
             Sample.at_1830 Sample.at_1845 None true (Sample.at_time 0))
        = Return df /\ rows df = [])
  \/
  (exists e,
      fst (_goes_file_df Sample.fs "noaa-goes16" "ABI-L2-MCMIPC"
             Sample.at_1830 Sample.at_1845 None true (Sample.at_time 0))
        = Raise e /\ reading_error e).
Proof.
  apply (proj2 (proj2 (empty_result_error_exactly_for_an_empty_listing
                         Sample.fs "noaa-goes16" "ABI-L2-MCMIPC"
                         Sample.at_1830 Sample.at_1845 None true
                         (Sample.at_time 0))
                  [Sample.conus_1801; Sample.conus_1806] eq_refl
                  ltac:(discriminate))).
  intros f [<-|[<-|[]]] [s [e [Hs [_ [Hlo _]]]]];
    vm_compute in Hs; inversion Hs; subst s; apply Hlo; reflexivity.
Defined.

(** C1 fails as stated: two objects are listed for 18:30 to 18:45, both start
    before 18:30, none is in the window, and the call returns a frame with
    no rows instead of raising. *)
Lemma empty_window_returns_empty_frame :
  fst (list_files Sample.fs "noaa-goes16" "ABI-L2-MCMIPC" true
         (date_range (floor_hour Sample.at_1830) (floor_hour Sample.at_1845)) []
         (Sample.at_time 0))
    = Return [Sample.conus_1801; Sample.conus_1806] /\
  (exists s1 s2,
      strptime "s" "" "s20191721801547" = Some s1 /\ s1 < Sample.at_1830 /\
      strptime "s" "" "s20191721806547" = Some s2 /\ s2 < Sample.at_1830) /\
  (exists df,
      fst (_goes_file_df Sample.fs "noaa-goes16" "ABI-L2-MCMIPC"
             Sample.at_1830 Sample.at_1845 None true (Sample.at_time 0))
        = Return df /\ rows df = []) /\
  fst (_goes_file_df Sample.fs "noaa-goes16" "ABI-L2-MCMIPC"
         Sample.at_1830 Sample.at_1845 None true (Sample.at_time 0))
    <> Raise (ValueError NoFilesFound).
Proof.
  repeat split.
  - eexists. eexists. repeat split; try reflexivity.
  - eexists. split; vm_compute; reflexivity.
  - vm_compute. discriminate.
Qed.

(** Objects listed outside the window: the two files of the sample bucket
    are read and give a frame without rows; a listed key that is not a file
    name of the archive makes the call fail where the names are cut. *)
Example listed_names_outside_the_window :
  _goes_file_df Sample.fs "noaa-goes16" "ABI-L2-MCMIPC" Sample.at_1830
    Sample.at_1845 None true (Sample.at_time 0)
  = (Return (mkDataFrame []
               (goes_file_df_params "noaa-goes16" "ABI-L2-MCMIPC" Sample.at_1830
                  Sample.at_1845 None true)),
     mkWorld 0 [("noaa-goes16/ABI-L2-MCMIPC/2019/172/18/", true)] []) /\
  fst (_goes_file_df (fun _ _ => Some ["noaa-goes16/X/2019/172/18/index.html"])
         "noaa-goes16" "X" Sample.at_1830 Sample.at_1845 None true
         (Sample.at_time 0))
  = Raise (ValueError ColumnsLength).
Proof. split; vm_compute; reflexivity. Qed.

(* ================================================================== *)
(** * Further properties of [find_goes_dataset] *)

Lemma find_goes_dataset_steps m fs satellite product domain bands datetime w :
  find_goes_dataset m fs (Some satellite) (Some product) (Some domain) bands
    (Some datetime) w
  = match satellite_number satellite with
    | Raise e => (Raise e, w)
    | Return number =>
        match _goes_file_df fs ("noaa-goes" ++ number)
                (listed_product product domain)
                (datetime - HOUR) (datetime + HOUR) bands true w with
        | (Raise e, w') => (Raise e, w')
        | (Return df, w') =>
            match (if is_mesoscale domain
                   then loc_contains (product ++ domain) (rows df)
                   else Return (rows df)) with
            | Raise e => (Raise e, w')
            | Return cands =>
                match nearest_rows datetime
                        (map (set_product_domain product domain) cands) with
                | Raise e => (Raise e, w')
                | Return near =>
                    if Nat.eqb (List.length near) 0 then
                      (Return None,
                       mkWorld (clock w') (ls_log w')
                         (NO_DATA_NOTICE :: stdout w'))
                    else
                      (Return (Some (mkDataFrame near
                         (set_attrs
                            (find_goes_dataset_params satellite product domain
                               bands datetime) (attrs df)))), w')
                end
            end
        end
    end.
Proof.
  unfold find_goes_dataset, bind, lift, listed_product. cbn [default].
  destruct (satellite_number satellite) as [number|e]; [|reflexivity].
  destruct (_goes_file_df _ _ _ _ _ _ _ w) as [[df|e] w']; [|reflexivity].
  match goal with
  | |- context [if ?c then loc_contains ?a ?l else ?d] =>
      destruct (if c then loc_contains a l else d) as [sel|e1]
  end; [|reflexivity].
  destruct (nearest_rows _ _) as [near|e2]; [|reflexivity].
  destruct (Nat.eqb _ 0); reflexivity.
Qed.

(** What [find_goes_dataset] leaves of the world of its call of
    [_goes_file_df]: the calls of the client are the same, and an exception
    of that call is the exception of [find_goes_dataset]. *)
Lemma find_goes_dataset_inner
    m fs satellite product domain bands datetime w number :
  satellite_number satellite = Return number ->
  ls_log (snd (find_goes_dataset m fs (Some satellite) (Some product)
                 (Some domain) bands (Some datetime) w))
  = ls_log (snd (_goes_file_df fs ("noaa-goes" ++ number)
                   (listed_product product domain)
                   (datetime - HOUR) (datetime + HOUR) bands true w)) /\
  forall e,
    fst (_goes_file_df fs ("noaa-goes" ++ number)
           (listed_product product domain)
           (datetime - HOUR) (datetime + HOUR) bands true w) = Raise e ->
    fst (find_goes_dataset m fs (Some satellite) (Some product) (Some domain)
           bands (Some datetime) w) = Raise e.
Proof.
  intros Hn. rewrite find_goes_dataset_steps, Hn.
  destruct (_goes_file_df _ _ _ _ _ _ _ w) as [[df|e] w']; cbn [fst snd].
  - split; [|discriminate].
    match goal with
    | |- context [if ?c then loc_contains ?a ?l else ?d] =>
        destruct (if c then loc_contains a l else d) as [sel|e1]
    end; [|reflexivity].
    destruct (nearest_rows _ _) as [near|e2]; [|reflexivity].
    destruct (Nat.eqb _ 0); reflexivity.
  - split; [reflexivity|]. intros e0 H. inversion H. reflexivity.
Qed.

Lemma target_window_hours datetime :
  date_range (floor_hour (datetime - HOUR)) (floor_hour (datetime + HOUR))
  = target_hours datetime.
Proof.
  pose proof hour_positive as Hp.
  assert (Hlo : floor_hour (datetime - HOUR) = floor_hour datetime - HOUR).
  { unfold floor_hour.
    replace (datetime - HOUR) with (datetime + (-1) * HOUR) by ring.
    rewrite Z.div_add by lia. ring. }
  assert (Hhi : floor_hour (datetime + HOUR) = floor_hour datetime + HOUR).
  { unfold floor_hour.
    replace (datetime + HOUR) with (datetime + 1 * HOUR) by ring.
    rewrite Z.div_add by lia. ring. }
  rewrite Hlo, Hhi. unfold date_range, target_hours.
  replace (floor_hour datetime + HOUR - (floor_hour datetime - HOUR))
    with (2 * HOUR) by ring.
  rewrite Z.div_mul by lia. change (Z.to_nat (2 + 1)) with 3%nat.
  cbn [seq map]. f_equal; [lia | f_equal; [lia | f_equal; lia]].
Qed.

Lemma loc_contains_raises pat df e :
  loc_contains pat df = Raise e -> e = ValueError NotBoolean.
Proof.
  unfold loc_contains.
  destruct (mapM _ df) as [marked|e0] eqn:Hm; cbn [obind]; [discriminate|].
  intros H. inversion H; subst.
  apply mapM_Raise in Hm. destruct Hm as [x [_ Hx]].
  destruct (rec_product_mode x); congruence.
Qed.

Lemma nearest_rows_raises datetime df e :
  nearest_rows datetime df = Raise e -> e = IndexError.
Proof.
  unfold nearest_rows.
  destruct (getitem _ _) as [t|e0] eqn:Hg; cbn [obind]; [discriminate|].
  intros H. inversion H; subst. unfold getitem in Hg.
  destruct (_ && _); congruence.
Qed.

(** The exception of the client comes from the call of [_goes_file_df]
    only. *)
Lemma find_goes_dataset_ListingError
    m fs satellite product domain bands datetime w number :
  satellite_number satellite = Return number ->
  (fst (_goes_file_df fs ("noaa-goes" ++ number)
          (listed_product product domain)
          (datetime - HOUR) (datetime + HOUR) bands true w)
     = Raise ListingError <->
   fst (find_goes_dataset m fs (Some satellite) (Some product) (Some domain)
          bands (Some datetime) w) = Raise ListingError).
Proof.
  intros Hn. rewrite find_goes_dataset_steps, Hn.
  destruct (_goes_file_df _ _ _ _ _ _ _ w) as [[df|e] w']; cbn [fst];
    [|split; intros H; congruence].
  split; [discriminate|].
  match goal with
  | |- context [if ?c then loc_contains ?a ?l else ?d] =>
      destruct (if c then loc_contains a l else d) as [sel|e1] eqn:Hc
  end.
  - destruct (nearest_rows _ _) as [near|e2] eqn:Hnear.
    + destruct (Nat.eqb _ 0); discriminate.
    + cbn [fst]. apply nearest_rows_raises in Hnear. congruence.
  - cbn [fst]. destruct (is_mesoscale domain); [|discriminate].
    apply loc_contains_raises in Hc. congruence.
Qed.

(** X11: with a recognised satellite, [find_goes_dataset] lists the
    partitions of three hours, the hour before the hour of [datetime], that
    hour and the next, in this order, under the bucket of the satellite and
    the listed product, always bypassing the cache ([refresh=True]), and
    makes no other call of the client.  When the client returns on the three
    hours they are all listed and the exception of the client is not raised.
    Otherwise the listing stops at the first of the three hours on which the
    client raises: the client has returned on the hours before it, the hours
    up to that one are the only ones listed, and [find_goes_dataset] raises
    the exception of the client. *)
Theorem target_partitions_are_listed
    m fs satellite product domain bands datetime w number :
  satellite_number satellite = Return number ->
  (fst (find_goes_dataset m fs (Some satellite) (Some product) (Some domain)
          bands (Some datetime) w) <> Raise ListingError /\
   (forall DATE,
      In DATE (target_hours datetime) ->
      fs (partition_path ("noaa-goes" ++ number)
            (listed_product product domain) DATE) true <> None) /\
   ls_log (snd (find_goes_dataset m fs (Some satellite) (Some product)
                  (Some domain) bands (Some datetime) w))
   = (calls_for ("noaa-goes" ++ number) (listed_product product domain) true
        (target_hours datetime) ++ ls_log w)%list)
  \/
  (exists k DATE,
     nth_error (target_hours datetime) k = Some DATE /\
     fs (partition_path ("noaa-goes" ++ number)
           (listed_product product domain) DATE) true = None /\
     (forall d,
        In d (firstn k (target_hours datetime)) ->
        fs (partition_path ("noaa-goes" ++ number)
              (listed_product product domain) d) true <> None) /\
     ls_log (snd (find_goes_dataset m fs (Some satellite) (Some product)
                    (Some domain) bands (Some datetime) w))
     = (calls_for ("noaa-goes" ++ number) (listed_product product domain) true
          (firstn (S k) (target_hours datetime)) ++ ls_log w)%list /\
     fst (find_goes_dataset m fs (Some satellite) (Some product) (Some domain)
            bands (Some datetime) w) = Raise ListingError).
Proof.
  intros Hn.
  destruct (find_goes_dataset_inner m fs satellite product domain bands
              datetime w number Hn) as [Hlog _].
  pose proof (find_goes_dataset_ListingError m fs satellite product domain
                bands datetime w number Hn) as Hiff.
  destruct (goes_file_df_trace fs ("noaa-goes" ++ number)
              (listed_product product domain) (datetime - HOUR)
              (datetime + HOUR) bands true w) as [Hw Hiff'].
  rewrite Hlog, Hw.
  pose proof (list_files_trace fs ("noaa-goes" ++ number)
                (listed_product product domain) true
                (date_range (floor_hour (datetime - HOUR))
                   (floor_hour (datetime + HOUR))) [] w) as Ht.
  rewrite target_window_hours in Ht, Hiff', Hw |- *.
  destruct Ht as [[Hok [Hall Hl]]|[k [DATE [Hk [Hfs [Hbefore [Hl Hraise]]]]]]].
  - left. split; [|split; assumption].
    intros H. apply Hok. apply Hiff'. now apply Hiff.
  - right. exists k, DATE. repeat (split; [assumption|]).
    apply Hiff. now apply Hiff'.
Qed.

Lemma target_partitions_witness :
  (fst (find_goes_dataset (mkModule 0) Sample.fs (Some (SatStr "east"))
          (Some "ABI-L2-MCMIP") (Some "C") None
          (Some (Sample.at_1830 + HOUR)) (Sample.at_time 0))
     <> Raise ListingError /\
   (forall DATE,
      In DATE (target_hours (Sample.at_1830 + HOUR)) ->
      Sample.fs (partition_path ("noaa-goes" ++ "16")
                   (listed_product "ABI-L2-MCMIP" "C") DATE) true <> None) /\
   ls_log (snd (find_goes_dataset (mkModule 0) Sample.fs (Some (SatStr "east"))
                  (Some "ABI-L2-MCMIP") (Some "C") None
                  (Some (Sample.at_1830 + HOUR)) (Sample.at_time 0)))
   = (calls_for ("noaa-goes" ++ "16") (listed_product "ABI-L2-MCMIP" "C") true
        (target_hours (Sample.at_1830 + HOUR))
      ++ ls_log (Sample.at_time 0))%list)
  \/
  (exists k DATE,
     nth_error (target_hours (Sample.at_1830 + HOUR)) k = Some DATE /\
     Sample.fs (partition_path ("noaa-goes" ++ "16")
                  (listed_product "ABI-L2-MCMIP" "C") DATE) true = None /\
     (forall d,
        In d (firstn k (target_hours (Sample.at_1830 + HOUR))) ->
        Sample.fs (partition_path ("noaa-goes" ++ "16")
                     (listed_product "ABI-L2-MCMIP" "C") d) true <> None) /\
     ls_log (snd (find_goes_dataset (mkModule 0) Sample.fs (Some (SatStr "east"))
                    (Some "ABI-L2-MCMIP") (Some "C") None
                    (Some (Sample.at_1830 + HOUR)) (Sample.at_time 0)))
     = (calls_for ("noaa-goes" ++ "16") (listed_product "ABI-L2-MCMIP" "C") true
          (firstn (S k) (target_hours (Sample.at_1830 + HOUR)))
        ++ ls_log (Sample.at_time 0))%list /\
     fst (find_goes_dataset (mkModule 0) Sample.fs (Some (SatStr "east"))
            (Some "ABI-L2-MCMIP") (Some "C") None
            (Some (Sample.at_1830 + HOUR)) (Sample.at_time 0))
     = Raise ListingError).
Proof.
  apply (target_partitions_are_listed (mkModule 0) Sample.fs (SatStr "east")
           "ABI-L2-MCMIP" "C" None (Sample.at_1830 + HOUR) (Sample.at_time 0)
           "16").
  reflexivity.
Defined.

(** The three partitions around 18:02 are in the sample bucket and are all
    listed; around 19:30 the partition of 20:00 is missing, and the listing
    stops there with the exception of the client. *)
Example target_partitions_on_sample :
  ls_log (snd (find_goes_dataset (mkModule 0) Sample.fs (Some (SatStr "east"))
                 (Some "ABI-L2-MCMIP") (Some "C") None (Some Sample.at_1802)
                 (Sample.at_time 0)))
  = [("noaa-goes16/ABI-L2-MCMIPC/2019/172/19/", true);
     ("noaa-goes16/ABI-L2-MCMIPC/2019/172/18/", true);
     ("noaa-goes16/ABI-L2-MCMIPC/2019/172/17/", true)] /\
  find_goes_dataset (mkModule 0) Sample.fs (Some (SatStr "east"))
    (Some "ABI-L2-MCMIP") (Some "C") None (Some (Sample.at_1830 + HOUR))
    (Sample.at_time 0)
  = (Raise ListingError,
     mkWorld 0 [("noaa-goes16/ABI-L2-MCMIPC/2019/172/20/", true);
                ("noaa-goes16/ABI-L2-MCMIPC/2019/172/19/", true);
                ("noaa-goes16/ABI-L2-MCMIPC/2019/172/18/", true)] []).
Proof. split; vm_compute; reflexivity. Qed.

(** ** The rows that are returned *)

Lemma loc_contains_In pat df sel r :
  loc_contains pat df = Return sel -> In r sel ->
  In r df /\
  exists pm, rec_product_mode r = Some pm /\ PyStr.contains pat pm = true.
Proof.
  unfold loc_contains.
  destruct (mapM _ df) as [marked|] eqn:Hm; cbn [obind]; [|discriminate].
  intros H Hin. inversion H; subst. clear H.
  apply in_map_iff in Hin. destruct Hin as [[r' b] [Hr Hin]].
  cbn [fst] in Hr. subst r'.
  apply filter_In in Hin. destruct Hin as [Hin Hb]. cbn [snd] in Hb. subst b.
  destruct (Forall2_In_r _ _ _ _ (mapM_Forall2 _ _ _ Hm) Hin) as [x [Hx Hfx]].
  destruct (rec_product_mode x) as [pm|] eqn:Hpm; [|discriminate].
  inversion Hfx; subst. split; [assumption|]. exists pm. auto.
Qed.

Lemma nearest_rows_In datetime df out :
  nearest_rows datetime df = Return out ->
  exists t, forall r, In r out <-> In r df /\ rec_start r = t.
Proof.
  unfold nearest_rows.
  destruct (getitem _ _) as [t|e]; cbn [obind]; [|discriminate].
  intros H. inversion H; subst. exists t. intros r. apply loc_start_In.
Qed.

(** The frame that [find_goes_dataset] returns, from the frame of its call
    of [_goes_file_df]. *)
Lemma find_goes_dataset_inv
    m fs satellite product domain bands datetime w out w' :
  find_goes_dataset m fs (Some satellite) (Some product) (Some domain) bands
    (Some datetime) w = (Return (Some out), w') ->
  exists number df cands,
    satellite_number satellite = Return number /\
    _goes_file_df fs ("noaa-goes" ++ number) (listed_product product domain)
      (datetime - HOUR) (datetime + HOUR) bands true w = (Return df, w') /\
    (if is_mesoscale domain then loc_contains (product ++ domain) (rows df)
     else Return (rows df)) = Return cands /\
    nearest_rows datetime (map (set_product_domain product domain) cands)
    = Return (rows out).
Proof.
  rewrite find_goes_dataset_steps.
  destruct (satellite_number satellite) as [number|]; [|discriminate].
  destruct (_goes_file_df _ _ _ _ _ _ _ w) as [[df|] w0] eqn:Hdf; [|discriminate].
  destruct (if is_mesoscale domain then _ else _) as [cands|] eqn:Hsel;
    [|discriminate].
  destruct (nearest_rows _ _) as [near|] eqn:Hnear; [|discriminate].
  destruct (Nat.eqb _ 0); [discriminate|].
  intros H. inversion H; subst. exists number, df, cands. auto.
Qed.

(** X12: a frame returned by [find_goes_dataset] has at least one row; its
    rows all start at the same time; each of them starts no earlier than one
    hour before [datetime] and ends no later than one hour after it, and
    carries the requested product and domain in its columns [product] and
    [domain]. *)
Theorem returned_rows_are_within_an_hour_of_the_target
    m fs satellite product domain bands datetime w out w' :
  find_goes_dataset m fs (Some satellite) (Some product) (Some domain) bands
    (Some datetime) w = (Return (Some out), w') ->
  rows out <> [] /\
  (exists t, forall r, In r (rows out) -> rec_start r = t) /\
  (forall r, In r (rows out) ->
             datetime - HOUR <= rec_start r /\ rec_end r <= datetime + HOUR /\
             rec_product r = Some product /\ rec_domain r = Some domain).
Proof.
  intros Hrun.
  destruct (find_goes_dataset_inv _ _ _ _ _ _ _ _ _ _ Hrun)
    as [number [df [cands [Hn [Hdf [Hsel Hnear]]]]]].
  split; [eapply nearest_rows_not_empty; eauto|].
  destruct (nearest_rows_In _ _ _ Hnear) as [t Ht].
  split; [exists t; intros r Hr; now apply Ht|].
  intros r Hr. apply Ht in Hr. destruct Hr as [Hr _].
  apply in_map_iff in Hr. destruct Hr as [c [<- Hc]].
  cbn [set_product_domain rec_start rec_end rec_product rec_domain].
  assert (Hin : In c (rows df)).
  { destruct (is_mesoscale domain).
    - now destruct (loc_contains_In _ _ _ _ Hsel Hc).
    - inversion Hsel; subst. assumption. }
  destruct (goes_file_df_inv _ _ _ _ _ _ _ _ _ _ Hdf) as [files [_ [_ [Hp _]]]].
  destruct (parse_files_inv _ _ _ _ _ _ Hp)
    as [named [selected [timed [_ [_ [_ Hrows]]]]]].
  rewrite Hrows in Hin. apply loc_window_inv in Hin.
  destruct Hin as [_ [Hs He]]. auto.
Qed.

Lemma returned_rows_witness :
  rows (returned_frame
          (fst (find_goes_dataset (mkModule 0) Sample.fs (Some (SatInt 16))
                  (Some "ABI-L2-MCMIP") (Some "C") None (Some Sample.at_1802)
                  (Sample.at_time 0)))) <> [] /\
  (exists t, forall r,
      In r (rows (returned_frame
                    (fst (find_goes_dataset (mkModule 0) Sample.fs
                            (Some (SatInt 16)) (Some "ABI-L2-MCMIP") (Some "C")
                            None (Some Sample.at_1802) (Sample.at_time 0)))))
      -> rec_start r = t) /\
  (forall r,
      In r (rows (returned_frame
                    (fst (find_goes_dataset (mkModule 0) Sample.fs
                            (Some (SatInt 16)) (Some "ABI-L2-MCMIP") (Some "C")
                            None (Some Sample.at_1802) (Sample.at_time 0)))))
      -> Sample.at_1802 - HOUR <= rec_start r /\
         rec_end r <= Sample.at_1802 + HOUR /\
         rec_product r = Some "ABI-L2-MCMIP" /\ rec_domain r = Some "C").
Proof.
  apply (returned_rows_are_within_an_hour_of_the_target
           (mkModule 0) Sample.fs (SatInt 16) "ABI-L2-MCMIP" "C" None
           Sample.at_1802 (Sample.at_time 0)
           (returned_frame
              (fst (find_goes_dataset (mkModule 0) Sample.fs (Some (SatInt 16))
                      (Some "ABI-L2-MCMIP") (Some "C") None
                      (Some Sample.at_1802) (Sample.at_time 0))))
           (snd (find_goes_dataset (mkModule 0) Sample.fs (Some (SatInt 16))
                   (Some "ABI-L2-MCMIP") (Some "C") None (Some Sample.at_1802)
                   (Sample.at_time 0)))).
  vm_compute. reflexivity.
Defined.

(** X13: for the mesoscale domains [M1] and [M2], the product and mode
    descriptor of every returned row contains the product name followed by
    the requested sector: no row of the other sector is returned. *)
Theorem mesoscale_rows_are_of_the_requested_sector
    m fs satellite product domain bands datetime w out w' r :
  find_goes_dataset m fs (Some satellite) (Some product) (Some domain) bands
    (Some datetime) w = (Return (Some out), w') ->
  is_mesoscale domain = true ->
  In r (rows out) ->
  exists pm, rec_product_mode r = Some pm /\
             PyStr.contains (product ++ domain) pm = true.
Proof.
  intros Hrun Hmeso Hr.
  destruct (find_goes_dataset_inv _ _ _ _ _ _ _ _ _ _ Hrun)
    as [number [df [cands [_ [_ [Hsel Hnear]]]]]].
  destruct (nearest_rows_In _ _ _ Hnear) as [t Ht].
  apply Ht in Hr. destruct Hr as [Hr _].
  apply in_map_iff in Hr. destruct Hr as [c [<- Hc]].
  rewrite Hmeso in Hsel.
  destruct (loc_contains_In _ _ _ _ Hsel Hc) as [_ Hpm]. exact Hpm.
Qed.

Lemma mesoscale_rows_witness :
  exists pm,
    rec_product_mode
      (set_product_domain "ABI-L2-MCMIP" "M2"
         (mkFileRecord Sample.meso2_1801 (Some "ABI-L2-MCMIPM2-M6") (Some "G16")
            (Sample.H18 + 854 * (SECOND / 10)) (Sample.H18 + 911 * (SECOND / 10))
            (Some (Sample.H18 + 989 * (SECOND / 10))) (Some "ABI-L2-MCMIPM2")
            (Some "M6") (Some 6) None None)) = Some pm /\
    PyStr.contains ("ABI-L2-MCMIP" ++ "M2") pm = true.
Proof.
  apply (mesoscale_rows_are_of_the_requested_sector
           (mkModule 0) Sample.fs (SatInt 16) "ABI-L2-MCMIP" "M2" None
           Sample.at_1802 (Sample.at_time 0)
           (returned_frame
              (fst (find_goes_dataset (mkModule 0) Sample.fs (Some (SatInt 16))
                      (Some "ABI-L2-MCMIP") (Some "M2") None
                      (Some Sample.at_1802) (Sample.at_time 0))))
           (snd (find_goes_dataset (mkModule 0) Sample.fs (Some (SatInt 16))
                   (Some "ABI-L2-MCMIP") (Some "M2") None (Some Sample.at_1802)
                   (Sample.at_time 0)))).
  - vm_compute. reflexivity.
  - reflexivity.
  - vm_compute. left. reflexivity.
Defined.

(** X14: the two mesoscale sectors are read from the same partitions: a call
    for [M1] and a call for [M2] that differ in nothing else make the same
    calls of the client. *)
Theorem mesoscale_sectors_share_their_partitions
    m fs satellite product bands datetime w :
  ls_log (snd (find_goes_dataset m fs (Some satellite) (Some product)
                 (Some "M1") bands (Some datetime) w))
  = ls_log (snd (find_goes_dataset m fs (Some satellite) (Some product)
                   (Some "M2") bands (Some datetime) w)).
Proof.
  destruct (satellite_number satellite) as [number|e] eqn:Hn.
  - destruct (find_goes_dataset_inner m fs satellite product "M1" bands
                datetime w number Hn) as [H1 _].
    destruct (find_goes_dataset_inner m fs satellite product "M2" bands
                datetime w number Hn) as [H2 _].
    rewrite H1, H2. reflexivity.
  - rewrite !find_goes_dataset_steps, Hn. reflexivity.
Qed.

(** X15: [find_goes_dataset] never returns the null result and never prints:
    whenever the check of line 176 is reached the frame has a row, because
    the lookup of lines 169 and 170 raises [IndexError] on a frame without
    rows. *)
Theorem null_result_is_never_returned
    m fs satellite product domain bands datetime w :
  fst (find_goes_dataset m fs satellite product domain bands datetime w)
    <> Return None /\
  stdout (snd (find_goes_dataset m fs satellite product domain bands datetime w))
    = stdout w.
Proof. apply find_goes_dataset_never_returns_None. Qed.

(** ** The empty-result error at the caller *)

Lemma list_files_empty fs satellite product refresh DATES files w :
  fst (list_files fs satellite product refresh DATES files w) = Return [] <->
  files = [] /\
  forall DATE, In DATE DATES ->
               fs (partition_path satellite product DATE) refresh = Some [].
Proof.
  revert files w. induction DATES as [|d rest IH]; intros files w.
  - cbn. split.
    + intros H. inversion H. split; [reflexivity | tauto].
    + intros [-> _]. reflexivity.
  - cbn [list_files]. unfold bind, ls.
    fold (partition_path satellite product d).
    destruct (fs (partition_path satellite product d) refresh) as [keys|] eqn:Hd.
    + rewrite IH. split.
      * intros [Happ Hrest]. apply app_eq_nil in Happ. destruct Happ as [-> ->].
        split; [reflexivity|]. intros DATE [<-|Hin]; auto.
      * intros [-> Hall]. split.
        -- specialize (Hall d (or_introl eq_refl)). rewrite Hd in Hall.
           inversion Hall. reflexivity.
        -- intros DATE Hin. apply Hall. now right.
    + cbn [fst]. split; [discriminate|].
      intros [_ Hall]. specialize (Hall d (or_introl eq_refl)). congruence.
Qed.

(** X16: with a recognised satellite, [find_goes_dataset] raises the
    empty-result error of [_goes_file_df] exactly when the client finds the
    three partitions of the target and returns no object for any of them. *)
Theorem caller_gets_the_empty_result_error
    m fs satellite product domain bands datetime w number :
  satellite_number satellite = Return number ->
  fst (find_goes_dataset m fs (Some satellite) (Some product) (Some domain)
         bands (Some datetime) w) = Raise (ValueError NoFilesFound)
  <->
  forall DATE, In DATE (target_hours datetime) ->
    fs (partition_path ("noaa-goes" ++ number) (listed_product product domain)
          DATE) true = Some [].
Proof.
  intros Hn.
  pose proof (list_files_empty fs ("noaa-goes" ++ number)
                (listed_product product domain) true
                (target_hours datetime) [] w) as Hempty.
  rewrite find_goes_dataset_steps, Hn, goes_file_df_unfold, target_window_hours.
  destruct (list_files _ _ _ _ _ _ w) as [[files|e] w'] eqn:Hl; cbn [fst] in *.
  - destruct files as [|f files]; cbn [is_empty].
    + cbn [fst]. split; [intros _|reflexivity].
      apply Hempty. reflexivity.
    + assert (Hno : ~ (forall DATE, In DATE (target_hours datetime) ->
                fs (partition_path ("noaa-goes" ++ number)
                      (listed_product product domain) DATE) true = Some [])).
      { intros H. assert (Hx : Return (f :: files) = Return (@nil string))
          by (apply Hempty; split; [reflexivity | exact H]).
        discriminate. }
      split; [|intros H; contradiction].
      destruct (parse_files _ _ _ _ (f :: files)) as [df|e] eqn:Hp.
      * destruct (if is_mesoscale domain then _ else _) as [cands|e] eqn:Hsel.
        -- destruct (nearest_rows _ _) as [near|e] eqn:Hnear.
           ++ destruct (Nat.eqb _ 0); discriminate.
           ++ apply nearest_rows_raises in Hnear. subst. discriminate.
        -- destruct (is_mesoscale domain); [|discriminate].
           apply loc_contains_raises in Hsel. subst. discriminate.
      * cbn [fst]. intros H. inversion H; subst.
        apply parse_files_raises in Hp.
        destruct Hp as [Hp|[Hp|[Hp|[Hp|Hp]]]]; discriminate.
  - split.
    + intros H. inversion H; subst.
      assert (He : fst (list_files fs ("noaa-goes" ++ number)
                          (listed_product product domain) true
                          (target_hours datetime) [] w)
                   = Raise (ValueError NoFilesFound)) by now rewrite Hl.
      apply list_files_raises in He. discriminate.
    + intros H. assert (Hx : @Raise (list string) e = Return [])
        by (apply Hempty; split; [reflexivity | exact H]).
      discriminate.
Qed.

Lemma caller_gets_the_empty_result_error_witness :
  fst (find_goes_dataset (mkModule 0) (fun _ _ => Some []) (Some (SatStr "west"))
         (Some "ABI-L2-MCMIP") (Some "F") None (Some Sample.at_1802)
         (Sample.at_time 0)) = Raise (ValueError NoFilesFound)
  <->
  forall DATE, In DATE (target_hours Sample.at_1802) ->
    (fun (_ : string) (_ : bool) => Some (@nil string))
      (partition_path ("noaa-goes" ++ "18") (listed_product "ABI-L2-MCMIP" "F")
         DATE) true = Some [].
Proof.
  apply (caller_gets_the_empty_result_error (mkModule 0) (fun _ _ => Some [])
           (SatStr "west") "ABI-L2-MCMIP" "F" None Sample.at_1802
           (Sample.at_time 0) "18").
  reflexivity.
Defined.

(** ** No candidate *)

Lemma goes_file_df_raises fs satellite product start end_ bands refresh w e :
  fst (_goes_file_df fs satellite product start end_ bands refresh w) = Raise e ->
  e <> IndexError.
Proof.
  rewrite goes_file_df_unfold.
  destruct (list_files _ _ _ _ _ _ w) as [[files|e0] w'] eqn:Hl; cbn [fst].
  - destruct (is_empty files); cbn [fst]; [congruence|].
    destruct (parse_files _ _ _ _ _) as [df|e1] eqn:Hp; cbn [fst];
      [discriminate|].
    intros H. inversion H; subst. apply parse_files_raises in Hp.
    destruct Hp as [Hp|[Hp|[Hp|[Hp|Hp]]]]; subst; discriminate.
  - intros H. inversion H; subst.
    assert (He : fst (list_files fs satellite product refresh
                        (date_range (floor_hour start) (floor_hour end_)) [] w)
                 = Raise e) by now rewrite Hl.
    apply list_files_raises in He. subst. discriminate.
Qed.

(** X17: with a recognised satellite, [find_goes_dataset] raises
    [IndexError] exactly when [_goes_file_df] returns a frame and no row of it
    is left as a candidate (the frame has no row, or, for a mesoscale domain,
    no row of the requested sector). *)
Theorem IndexError_exactly_without_candidates
    m fs satellite product domain bands datetime w number :
  satellite_number satellite = Return number ->
  fst (find_goes_dataset m fs (Some satellite) (Some product) (Some domain)
         bands (Some datetime) w) = Raise IndexError
  <->
  exists df w',
    _goes_file_df fs ("noaa-goes" ++ number) (listed_product product domain)
      (datetime - HOUR) (datetime + HOUR) bands true w = (Return df, w') /\
    (if is_mesoscale domain then loc_contains (product ++ domain) (rows df)
     else Return (rows df)) = Return [].
Proof.
  intros Hn. rewrite find_goes_dataset_steps, Hn.
  destruct (_goes_file_df _ _ _ _ _ _ _ w) as [[df|e] w'] eqn:Hdf.
  - destruct (if is_mesoscale domain then _ else _) as [cands|e] eqn:Hsel.
    + destruct cands as [|c cands].
      * cbn. split; [intros _; exists df, w'; auto | reflexivity].
      * destruct (nearest_rows_start_at_least_one datetime
                    (map (set_product_domain product domain) (c :: cands)))
          as [out [Hout Hne]]; [discriminate|].
        rewrite Hout. destruct out as [|r out]; [congruence|].
        cbn [List.length Nat.eqb fst]. split; [discriminate|].
        intros [df' [w'' [Heq Hnil]]]. inversion Heq; subst.
        rewrite Hsel in Hnil. discriminate.
    + cbn [fst]. split.
      * intros H. inversion H; subst.
        destruct (is_mesoscale domain); [|discriminate].
        apply loc_contains_raises in Hsel. discriminate.
      * intros [df' [w'' [Heq Hnil]]]. inversion Heq; subst.
        rewrite Hsel in Hnil. discriminate.
  - cbn [fst]. split.
    + intros H. inversion H; subst. exfalso.
      eapply (goes_file_df_raises fs ("noaa-goes" ++ number)
                (listed_product product domain) (datetime - HOUR)
                (datetime + HOUR) bands true w IndexError); [|reflexivity].
      rewrite Hdf. reflexivity.
    + intros [df' [w'' [Heq _]]]. discriminate.
Qed.

Lemma IndexError_exactly_witness :
  fst (find_goes_dataset (mkModule 0) Sample.fs (Some (SatInt 16))
         (Some "ABI-L2-MCMIP") (Some "M1") None (Some Sample.at_1802)
         (Sample.at_time 0)) = Raise IndexError
  <->
  exists df w',
    _goes_file_df Sample.fs ("noaa-goes" ++ "16")
      (listed_product "ABI-L2-MCMIP" "M1")
      (Sample.at_1802 - HOUR) (Sample.at_1802 + HOUR) None true
      (Sample.at_time 0) = (Return df, w') /\
    (if is_mesoscale "M1"
     then loc_contains ("ABI-L2-MCMIP" ++ "M1") (rows df)
     else Return (rows df)) = Return [].
Proof.
  apply (IndexError_exactly_without_candidates (mkModule 0) Sample.fs
           (SatInt 16) "ABI-L2-MCMIP" "M1" None Sample.at_1802
           (Sample.at_time 0) "16").
  reflexivity.
Defined.
